(** * csgo_case_calculator: price cache, valuation and snapshot history

    A shallow embedding of [csgo_case_calculator.py].  The Flask handlers
    [api_prices] and [api_history] and the helpers [_load_cache],
    [_save_cache] and [fetch_price_eur] are translated function by
    function.  Python values read from JSON stay dynamically typed
    ([pyval]); Python floats are the kernel's binary64 floats; the file
    system, the clock, the network and standard output are explicit state.
    What belongs to Python's libraries and not to this program (the JSON
    codec, the clock readings, the upstream answers) is a section variable. *)

From Stdlib Require Import ZArith Floats String Ascii List Bool Lia DecimalString.
From stdpp Require Import base option list gmap strings sorting.
Import ListNotations.

Set Warnings "-inexact-float,-register-all".
#[local] Arguments String.append !_ _ : simpl nomatch.
Local Open Scope string_scope.
Local Open Scope Z_scope.

(** ** Python floats *)

Module PyFloat.

Definition prec : Z := 53.
Definition emax : Z := 1024.

(** The double nearest to the integer [z] (ties to even), as
    [PyLong_AsDouble] computes it; [None] stands for its OverflowError. *)
Definition of_int (z : Z) : option float :=
  match SpecFloat.binary_normalize prec emax z 0 false with
  | S754_infinity _ => None
  | sf => Some (SF2Prim sf)
  end.

(** The double nearest to [n / d] for integers [n >= 0] and [d > 0], with
    sign [s]: what a correctly rounded decimal-to-binary conversion
    ([strtod]) returns for the decimal numeral of [n / d]. *)
Definition of_ratio (s : bool) (n : Z) (d : positive) : float :=
  match n with
  | Z.pos m =>
      SF2Prim (SpecFloat.SFdiv prec emax (S754_finite s m 0) (S754_finite false d 0))
  | _ => SF2Prim (S754_zero s)
  end.

(** [m * 2^e] rounded to the nearest integer, ties to even. *)
Definition round_half_even (m e : Z) : Z :=
  if 0 <=? e then m * 2 ^ e
  else
    let d := 2 ^ (- e) in
    let q := m / d in
    let r := m mod d in
    match 2 * r ?= d with
    | Lt => q
    | Gt => q + 1
    | Eq => if Z.even q then q else q + 1
    end.

(** [round(x, 2)] on a float: NaN and the infinities round to themselves;
    a finite [x] is rounded exactly, half to even, to two decimals and the
    decimal result is converted back to the nearest double, keeping the
    sign (so [round(-0.001, 2)] is [-0.0]). *)
Definition round2 (x : float) : float :=
  match Prim2SF x with
  | S754_finite s m e => of_ratio s (round_half_even (Z.pos m * 100) e) 100
  | _ => x
  end.

(** [x < n] for a float [x] and an int [n]: Python compares the two exactly.
    NaN is below nothing. *)
Definition lt_int (x : float) (n : Z) : bool :=
  match Prim2SF x with
  | S754_nan => false
  | S754_infinity s => s
  | S754_zero _ => 0 <? n
  | S754_finite s m e =>
      let v := if s then Z.neg m else Z.pos m in
      if 0 <=? e then v * 2 ^ e <? n else v <? n * 2 ^ (- e)
  end.

(** [x >= n], again exact; NaN is above nothing either. *)
Definition ge_int (x : float) (n : Z) : bool :=
  match Prim2SF x with
  | S754_nan => false
  | S754_infinity s => negb s
  | S754_zero _ => n <=? 0
  | S754_finite s m e =>
      let v := if s then Z.neg m else Z.pos m in
      if 0 <=? e then n <=? v * 2 ^ e else n * 2 ^ (- e) <=? v
  end.

Definition is_nan (x : float) : bool :=
  match Prim2SF x with
  | S754_nan => true
  | _ => false
  end.

(** The value of a decimal digit character. *)
Definition digit_of (c : ascii) : option Z :=
  let n := Z.of_N (N_of_ascii c) in
  if (48 <=? n) && (n <=? 57) then Some (n - 48) else None.

(** Reads the longest run of digits at the head of [s]: the number read
    (continuing [acc]), how many digits, and the rest. *)
Fixpoint read_digits (acc : Z) (count : nat) (s : string) : Z * nat * string :=
  match s with
  | EmptyString => (acc, count, s)
  | String c s' =>
      match digit_of c with
      | Some d => read_digits (10 * acc + d) (S count) s'
      | None => (acc, count, s)
      end
  end.

Definition read_sign (s : string) : bool * string :=
  match s with
  | String "-" s' => (true, s')
  | String "+" s' => (false, s')
  | _ => (false, s)
  end.

(** [float(s)] on a plain decimal numeral: an optional sign, digits, and
    optionally a point and digits, with a digit somewhere ([12.34], [-5.],
    [.5]).  The result is the double nearest to the decimal.  [None] means
    the string is not of this shape (it has an exponent, is [inf] or [nan],
    carries white space or underscores, or is no numeral at all). *)
Definition parse_decimal (s : string) : option float :=
  let '(neg, s1) := read_sign s in
  let '(ip, n1, s2) := read_digits 0 0 s1 in
  match s2 with
  | EmptyString =>
      if (0 <? n1)%nat then Some (of_ratio neg ip 1) else None
  | String "." s3 =>
      let '(fp, n2, s4) := read_digits ip 0 s3 in
      match s4 with
      | EmptyString =>
          if (0 <? n1 + n2)%nat
          then Some (of_ratio neg fp (Z.to_pos (10 ^ Z.of_nat n2)))
          else None
      | _ => None
      end
  | _ => None
  end.

End PyFloat.

(** ** Python strings

    A Python [str] is modelled by its UTF-8 encoding.  Every string the
    program searches for or cuts at is ASCII or a whole character, so
    replacing, slicing and comparing bytes agrees with doing so on code
    points (UTF-8 keeps the code-point order). *)

Module PyStr.

Abbreviation len := String.length.

(** [s.startswith(p)], [s.endswith(p)]. *)
Definition startswith (p s : string) : bool := String.prefix p s.

Fixpoint endswith (p s : string) : bool :=
  String.eqb s p
  || match s with
     | EmptyString => false
     | String _ s' => endswith p s'
     end.

(** [s.replace(old, new)]: every non-overlapping occurrence, left to right.
    [skip] counts the characters of a matched occurrence still to drop. *)
Fixpoint replace_from (old new : string) (skip : nat) (s : string) : string :=
  match s with
  | EmptyString =>
      match skip, old with
      | O, EmptyString => new
      | _, _ => EmptyString
      end
  | String c s' =>
      match skip with
      | S k => replace_from old new k s'
      | O =>
          if String.prefix old s
          then new ++ replace_from old new (len old - 1) s'
          else String c (replace_from old new 0 s')
      end
  end.

Definition replace (old new s : string) : string := replace_from old new 0 s.

(** [s[start:-back]] for [start, back >= 0]. *)
Definition slice (start back : nat) (s : string) : string :=
  substring start (len s - back - start) s.

(** Whether the character [c] occurs in [s]. *)
Fixpoint contains_char (c : ascii) (s : string) : bool :=
  match s with
  | EmptyString => false
  | String c' s' => Ascii.eqb c c' || contains_char c s'
  end.

(** The part of [s] after its last ["/"]: [os.path.basename]. *)
Fixpoint basename_from (acc s : string) : string :=
  match s with
  | EmptyString => acc
  | String c s' =>
      if Ascii.eqb c "/"%char then basename_from s' s' else basename_from acc s'
  end.

Definition basename (s : string) : string := basename_from s s.

(** Repetition [s * n]; empty for [n <= 0]. *)
Fixpoint repeat (s : string) (n : nat) : string :=
  match n with
  | O => EmptyString
  | S k => s ++ repeat s k
  end.

End PyStr.

(** ** Python values

    What [json.load] returns, and so what the cache, an upstream answer and a
    snapshot are made of.  A [dict] keeps its insertion order. *)

Inductive pyval : Type :=
| VNone
| VBool (b : bool)
| VInt (z : Z)
| VFloat (f : float)
| VStr (s : string)
| VList (l : list pyval)
| VDict (d : list (string * pyval)).

(** The exceptions the program can meet; all are subclasses of [Exception]. *)
Inductive exn : Type :=
| AttributeError
| TypeError
| KeyError
| ValueError
| OverflowError
| OSError
| HTTPError
| RequestException
| JSONDecodeError.

Inductive result (A : Type) : Type :=
| Ok (a : A)
| Raise (e : exn).
Arguments Ok {A} a.
Arguments Raise {A} e.

Module Py.

(** Truth value of an object. *)
Definition truthy (v : pyval) : bool :=
  match v with
  | VNone => false
  | VBool b => b
  | VInt z => negb (z =? 0)
  | VFloat f => negb (PrimFloat.eqb f 0)
  | VStr s => negb (String.eqb s "")
  | VList l => negb (Nat.eqb (length l) 0)
  | VDict d => negb (Nat.eqb (length d) 0)
  end.

(** Lookup in the association list of a dict. *)
Fixpoint assoc (k : string) (d : list (string * pyval)) : option pyval :=
  match d with
  | [] => None
  | (k', v) :: d' => if String.eqb k k' then Some v else assoc k d'
  end.

(** [d[k] = v] on the association list: an existing key keeps its place, a
    new key goes last. *)
Fixpoint assoc_set (k : string) (v : pyval) (d : list (string * pyval))
  : list (string * pyval) :=
  match d with
  | [] => [(k, v)]
  | (k', v') :: d' =>
      if String.eqb k k' then (k, v) :: d' else (k', v') :: assoc_set k v d'
  end.

(** [obj.get(k)]: only a dict has the method; a missing key gives [None]. *)
Definition get (obj : pyval) (k : string) : result pyval :=
  match obj with
  | VDict d => Ok (default VNone (assoc k d))
  | _ => Raise AttributeError
  end.

(** [obj[k]] for a string key [k]. *)
Definition getitem (obj : pyval) (k : string) : result pyval :=
  match obj with
  | VDict d =>
      match assoc k d with
      | Some v => Ok v
      | None => Raise KeyError
      end
  | _ => Raise TypeError
  end.

(** [obj[k] = v]. *)
Definition setitem (obj : pyval) (k : string) (v : pyval) : result pyval :=
  match obj with
  | VDict d => Ok (VDict (assoc_set k v d))
  | _ => Raise TypeError
  end.

(** The float a number converts to in mixed arithmetic with a float. *)
Definition as_float (v : pyval) : result float :=
  match v with
  | VFloat f => Ok f
  | VInt z =>
      match PyFloat.of_int z with
      | Some f => Ok f
      | None => Raise OverflowError
      end
  | VBool b => Ok (if b then 1%float else 0%float)
  | _ => Raise TypeError
  end.

(** [x - v] and [x + v] for a float [x]. *)
Definition float_sub (x : float) (v : pyval) : result float :=
  match as_float v with
  | Ok f => Ok (x - f)%float
  | Raise e => Raise e
  end.

Definition float_add (x : float) (v : pyval) : result float :=
  match as_float v with
  | Ok f => Ok (x + f)%float
  | Raise e => Raise e
  end.

(** [v * n] for an int [n]. *)
Definition mul_int (v : pyval) (n : Z) : result pyval :=
  match v with
  | VFloat f =>
      match PyFloat.of_int n with
      | Some g => Ok (VFloat (f * g)%float)
      | None => Raise OverflowError
      end
  | VInt z => Ok (VInt (z * n))
  | VBool b => Ok (VInt ((if b then 1 else 0) * n))
  | VStr s => Ok (VStr (PyStr.repeat s (Z.to_nat n)))
  | VList l => Ok (VList (List.concat (List.repeat l (Z.to_nat n))))
  | VNone | VDict _ => Raise TypeError
  end.

(** [round(v, 2)]: an int is returned as it is, a float is rounded. *)
Definition round2 (v : pyval) : result pyval :=
  match v with
  | VFloat f => Ok (VFloat (PyFloat.round2 f))
  | VInt z => Ok (VInt z)
  | VBool b => Ok (VInt (if b then 1 else 0))
  | _ => Raise TypeError
  end.

End Py.

(** ** URLs, dates and file names *)

Module Url.

Definition hex_digit (n : N) : ascii :=
  ascii_of_N (if (n <? 10)%N then 48 + n else 55 + n)%N.

Definition unreserved (c : ascii) : bool :=
  let n := N_of_ascii c in
  ((48 <=? n) && (n <=? 57) || (65 <=? n) && (n <=? 90) || (97 <=? n) && (n <=? 122))%N
  || Ascii.eqb c "_" || Ascii.eqb c "." || Ascii.eqb c "-" || Ascii.eqb c "~"
  || Ascii.eqb c "/".

(** [urllib.parse.quote(s)] with its default [safe="/"]: every byte of the
    UTF-8 encoding that is not unreserved becomes [%XX]. *)
Fixpoint quote (s : string) : string :=
  match s with
  | EmptyString => EmptyString
  | String c s' =>
      if unreserved c then String c (quote s')
      else
        let n := N_of_ascii c in
        String "%" (String (hex_digit (n / 16)) (String (hex_digit (n mod 16)) (quote s')))
  end.

End Url.

(** Broken-down time: what [time.localtime] yields and what a [datetime]
    holds. *)
Record datetime : Type := Datetime {
  year : Z; month : Z; day : Z; hour : Z; minute : Z; second : Z
}.

Module Time.

(** [z] in decimal, padded with zeros on the left to at least [w] digits. *)
Definition dec_pad (w : nat) (z : Z) : string :=
  let s := NilZero.string_of_uint (N.to_uint (Z.to_N z)) in
  PyStr.repeat "0" (w - PyStr.len s) ++ s.

(** [strftime("%Y%m%d_%H%M%S")] and [strftime("%Y-%m-%d %H:%M")]; the year
    is written with at least four digits. *)
Definition strftime_file (t : datetime) : string :=
  dec_pad 4 (year t) ++ dec_pad 2 (month t) ++ dec_pad 2 (day t) ++ "_"
  ++ dec_pad 2 (hour t) ++ dec_pad 2 (minute t) ++ dec_pad 2 (second t).

Definition strftime_minute (t : datetime) : string :=
  dec_pad 4 (year t) ++ "-" ++ dec_pad 2 (month t) ++ "-" ++ dec_pad 2 (day t) ++ " "
  ++ dec_pad 2 (hour t) ++ ":" ++ dec_pad 2 (minute t).

Definition is_leap (y : Z) : bool :=
  (y mod 4 =? 0) && (negb (y mod 100 =? 0) || (y mod 400 =? 0)).

Definition days_in_month (y m : Z) : Z :=
  if m =? 2 then (if is_leap y then 29 else 28)
  else if (m =? 4) || (m =? 6) || (m =? 9) || (m =? 11) then 30
  else 31.

(** The field ranges the [datetime] constructor accepts. *)
Definition valid (t : datetime) : bool :=
  (1 <=? year t) && (year t <=? 9999) && (1 <=? month t) && (month t <=? 12)
  && (1 <=? day t) && (day t <=? days_in_month (year t) (month t))
  && (0 <=? hour t) && (hour t <=? 23) && (0 <=? minute t) && (minute t <=? 59)
  && (0 <=? second t) && (second t <=? 59).

(** *** [strptime] with the format [%Y%m%d_%H%M%S]

    [strptime] turns the format into a regular expression, one group per
    directive, and matches it at the head of the string, alternatives in
    the order written, backtracking into earlier groups when a later one
    fails.  A parser here yields the candidates of a group in that order,
    each with the text left.  A digit is one of the ASCII digits. *)
Definition parser (A : Type) : Type := string -> list (A * string).

(** Two digits [a b] with [ok a b]. *)
Definition two_digits (ok : Z -> Z -> bool) (s : string) : list (Z * string) :=
  match s with
  | String c1 (String c2 s') =>
      match PyFloat.digit_of c1, PyFloat.digit_of c2 with
      | Some a, Some b => if ok a b then [(10 * a + b, s')] else []
      | _, _ => []
      end
  | _ => []
  end.

(** One digit [a] with [ok a]. *)
Definition one_digit (ok : Z -> bool) (s : string) : list (Z * string) :=
  match s with
  | String c s' =>
      match PyFloat.digit_of c with
      | Some a => if ok a then [(a, s')] else []
      | None => []
      end
  | EmptyString => []
  end.

Definition literal (c : ascii) (s : string) : list (unit * string) :=
  match s with
  | String c' s' => if Ascii.eqb c c' then [(tt, s')] else []
  | EmptyString => []
  end.

(** [%Y]: [\d\d\d\d]. *)
Definition dir_Y (s : string) : list (Z * string) :=
  match s with
  | String c1 (String c2 (String c3 (String c4 s'))) =>
      match PyFloat.digit_of c1, PyFloat.digit_of c2,
            PyFloat.digit_of c3, PyFloat.digit_of c4 with
      | Some a, Some b, Some c, Some d => [(1000 * a + 100 * b + 10 * c + d, s')]
      | _, _, _, _ => []
      end
  | _ => []
  end.

(** [%m]: [1[0-2]|0[1-9]|[1-9]]. *)
Definition dir_m (s : string) : list (Z * string) :=
  two_digits (fun a b => (a =? 1) && (b <=? 2)) s
  ++ two_digits (fun a b => (a =? 0) && (1 <=? b)) s
  ++ one_digit (fun a => 1 <=? a) s.

(** [%d]: [3[0-1]|[1-2]\d|0[1-9]|[1-9]| [1-9]]. *)
Definition dir_d (s : string) : list (Z * string) :=
  two_digits (fun a b => (a =? 3) && (b <=? 1)) s
  ++ two_digits (fun a _ => (1 <=? a) && (a <=? 2)) s
  ++ two_digits (fun a b => (a =? 0) && (1 <=? b)) s
  ++ one_digit (fun a => 1 <=? a) s
  ++ (match s with
      | String " " s' => one_digit (fun a => 1 <=? a) s'
      | _ => []
      end).

(** [%H]: [2[0-3]|[0-1]\d|\d]. *)
Definition dir_H (s : string) : list (Z * string) :=
  two_digits (fun a b => (a =? 2) && (b <=? 3)) s
  ++ two_digits (fun a _ => a <=? 1) s
  ++ one_digit (fun _ => true) s.

(** [%M]: [[0-5]\d|\d]. *)
Definition dir_M (s : string) : list (Z * string) :=
  two_digits (fun a _ => a <=? 5) s ++ one_digit (fun _ => true) s.

(** [%S]: [6[0-1]|[0-5]\d|\d]. *)
Definition dir_S (s : string) : list (Z * string) :=
  two_digits (fun a b => (a =? 6) && (b <=? 1)) s
  ++ two_digits (fun a _ => a <=? 5) s
  ++ one_digit (fun _ => true) s.

Definition bind {A B : Type} (p : parser A) (k : A -> parser B) : parser B :=
  fun s => concat (List.map (fun '(a, rest) => k a rest) (p s)).

(** All matches of the whole expression, the preferred one first. *)
Definition matches : parser datetime :=
  bind dir_Y (fun y => bind dir_m (fun m => bind dir_d (fun d =>
  bind (literal "_") (fun _ => bind dir_H (fun h => bind dir_M (fun mi =>
  bind dir_S (fun sec rest => [(Datetime y m d h mi sec, rest)]))))))).

(** [datetime.strptime(s, "%Y%m%d_%H%M%S")]: the first match must use up the
    string and give a valid date and time; [None] is its ValueError. *)
Definition strptime (s : string) : option datetime :=
  match matches s with
  | (t, EmptyString) :: _ => if valid t then Some t else None
  | _ => None
  end.

End Time.

(** ** The file system *)

(** The disk is a map from paths to what they name: a regular file the
    process can read (and can write when [writable]), something it cannot
    open at all, or a directory. *)
Inductive node : Type :=
| File (writable : bool) (content : string)
| Unreadable
| Dir.

Module Fs.

(** The directory part of a path: what precedes its last ["/"]. *)
Definition dirname (p : string) : string :=
  substring 0 (PyStr.len p - PyStr.len (PyStr.basename p) - 1) p.

Definition parent_ok (fs : gmap string node) (p : string) : bool :=
  if String.eqb (dirname p) "" then true
  else match fs !! dirname p with
       | Some Dir => true
       | _ => false
       end.

(** The steps a write to disk is made of; a crash can fall between any
    two of them, and inside a [OpWrite]. *)
Inductive op : Type :=
| OpMakedirs (p : string)
| OpOpenW (p : string)
| OpWrite (p data : string)
| OpReplace (src dst : string).

Definition step (o : op) (fs : gmap string node) : result (gmap string node) :=
  match o with
  | OpMakedirs p =>
      match fs !! p with
      | None => Ok (<[p := Dir]> fs)
      | Some Dir => Ok fs
      | Some _ => Raise OSError
      end
  | OpOpenW p =>
      if parent_ok fs p then
        match fs !! p with
        | None | Some (File true _) => Ok (<[p := File true ""]> fs)
        | Some _ => Raise OSError
        end
      else Raise OSError
  | OpWrite p data =>
      match fs !! p with
      | Some (File w c) => Ok (<[p := File w (c ++ data)]> fs)
      | _ => Raise OSError
      end
  | OpReplace src dst =>
      match fs !! src, fs !! dst with
      | Some Dir, _ | None, _ | _, Some Dir => Raise OSError
      | Some n, _ => Ok (<[dst := n]> (delete src fs))
      end
  end.

Fixpoint run (ops : list op) (fs : gmap string node) : result (gmap string node) :=
  match ops with
  | [] => Ok fs
  | o :: ops' =>
      match step o fs with
      | Ok fs' => run ops' fs'
      | Raise e => Raise e
      end
  end.

(** [interrupted ops done]: [done] is what has reached the disk when the
    process dies somewhere in [ops] (or after them): a prefix of [ops],
    the last write possibly cut short. *)
Inductive interrupted : list op -> list op -> Prop :=
| interrupted_before ops : interrupted ops []
| interrupted_in_write p data n ops :
    interrupted (OpWrite p data :: ops) [OpWrite p (substring 0 n data)]
| interrupted_after o ops done :
    interrupted ops done -> interrupted (o :: ops) (o :: done).

(** [open(p).read()]. *)
Definition read (fs : gmap string node) (p : string) : result string :=
  match fs !! p with
  | Some (File _ c) => Ok c
  | _ => Raise OSError
  end.

(** The names [pre*suf] in directory [d], as [glob.glob] finds them (in no
    particular order). *)
Definition name_matches (pre suf name : string) : bool :=
  PyStr.startswith pre name && PyStr.endswith suf name
  && (PyStr.len pre + PyStr.len suf <=? PyStr.len name)%nat
  && negb (PyStr.contains_char "/" name).

Definition path_matches (d pre suf p : string) : bool :=
  PyStr.startswith (d ++ "/") p
  && name_matches pre suf (substring (PyStr.len d + 1) (PyStr.len p) p).

Definition glob (d pre suf : string) (fs : gmap string node) : list string :=
  match fs !! d with
  | Some Dir => List.filter (path_matches d pre suf) (List.map fst (map_to_list fs))
  | _ => []
  end.

End Fs.

(** ** The world and the configuration *)

Inductive http_result : Type :=
| ConnectionFailed
| Response (status : Z) (body : string).

(** A line printed on standard output. *)
Inductive log_line : Type :=
| WarnItem (item_name : string) (exc : exn)
| WarnHistory (path : string) (exc : exn).

Record state : Type := State {
  files : gmap string node;
  ticks : nat;
  requests : list string;
  stdout : list log_line
}.

Definition INVENTORY : list (string * Z) :=
  [ ("Horizon Case", 1000);
    ("Danger Zone Case", 1000);
    ("Prisma Case", 1000);
    ("Spectrum 2 Case", 150);
    ("Clutch Case", 649);
    ("Falchion Case", 142);
    ("Operation Breakout Weapon Case", 100) ].

Definition SNAPSHOT_DIR : string := "snapshots".
Definition CACHE_FILE : string := "price_cache.json".
Definition CACHE_TTL : Z := 3600.
Definition SNAPSHOT_PREFIX : string := "csgo_snapshot_".
Definition SNAPSHOT_SUFFIX : string := ".json".
Definition SNAPSHOT_GLOB : string :=
  SNAPSHOT_DIR ++ "/" ++ SNAPSHOT_PREFIX ++ "*" ++ SNAPSHOT_SUFFIX.

(** A computation that reads and changes the world and may raise. *)
Definition M (A : Type) : Type := state -> result A * state.

Definition ret {A : Type} (a : A) : M A := fun st => (Ok a, st).

Definition raise {A : Type} (e : exn) : M A := fun st => (Raise e, st).

Definition bind {A B : Type} (m : M A) (k : A -> M B) : M B :=
  fun st =>
    match m st with
    | (Ok a, st') => k a st'
    | (Raise e, st') => (Raise e, st')
    end.

Definition lift {A : Type} (r : result A) : M A := fun st => (r, st).

(** [try: m except Exception as exc: h exc]. *)
Definition try_except {A : Type} (m : M A) (h : exn -> M A) : M A :=
  fun st =>
    match m st with
    | (Ok a, st') => (Ok a, st')
    | (Raise e, st') => h e st'
    end.

Declare Scope py_scope.
Delimit Scope py_scope with py.
Notation "'let*' x ':=' m 'in' k" := (bind m (fun x => k))
  (at level 10, x pattern, m at level 100, k at level 200) : py_scope.
Notation "m ';;' k" := (bind m (fun _ => k))
  (at level 100, k at level 200, right associativity) : py_scope.
Local Open Scope py_scope.

Definition print (l : log_line) : M unit :=
  fun st => (Ok tt, State (files st) (ticks st) (requests st) (stdout st ++ [l])).

Definition set_files (fs : gmap string node) (st : state) : state :=
  State fs (ticks st) (requests st) (stdout st).

(** Runs disk operations; at the first failure the disk stays as the
    earlier operations left it. *)
Fixpoint do_ops (ops : list Fs.op) : M unit :=
  match ops with
  | [] => ret tt
  | o :: ops' =>
      fun st =>
        match Fs.step o (files st) with
        | Ok fs' => do_ops ops' (set_files fs' st)
        | Raise e => (Raise e, st)
        end
  end.

Definition os_path_exists (p : string) : M bool :=
  fun st => (Ok (bool_decide (is_Some (files st !! p))), st).

Definition read_text (p : string) : M string :=
  fun st => (Fs.read (files st) p, st).

(** [a <= b] on strings, and [sorted] on a list of strings. *)
Definition str_le (a b : string) : Prop := String.leb a b = true.

#[global] Instance str_le_dec : RelDecision str_le.
Proof. intros a b. unfold str_le. apply _. Defined.

Definition sorted (l : list string) : list string := merge_sort str_le l.

(** The URL asked for an item's price. *)
Definition price_url (item_name : string) : string :=
  "https://steamcommunity.com/market/priceoverview/"
  ++ "?currency=3&appid=730&market_hash_name=" ++ Url.quote item_name.

(** ** A concrete world

    The inputs the checks below run the program on: an empty disk, a clock
    standing at 2025-07-11 12:00:00, an upstream that knows item ["A"] at
    2,005 EUR and answers 404 for everything else, and a JSON codec
    reduced to the documents that occur. *)

Module Scenario.

Definition inventory : list (string * Z) := [("A", 2); ("B", 1)].

Definition answer_A : pyval := VDict [("lowest_price", VStr "2,005€")].

(** The valuation of [inventory] in this world, as a snapshot holds it. *)
Definition snapshot : pyval :=
  VDict [("items",
          VList [VDict [("name", VStr "A"); ("count", VInt 2);
                        ("price", VFloat 2.005); ("total", VFloat 4.01)];
                 VDict [("name", VStr "B"); ("count", VInt 1);
                        ("price", VNone); ("total", VNone)]]);
         ("grand_total", VFloat 4.01)].

Definition json_loads (text : string) : option pyval :=
  if String.eqb text "A" then Some answer_A
  else if String.eqb text "D" then Some snapshot
  else None.

Definition json_dumps (_ : pyval) : string := "D".

Definition float_other (_ : string) : option float := None.

Definition time_time (_ : nat) : float := 1752228000%float.

Definition localtime (_ : nat) : datetime := Datetime 2025 7 11 12 0 0.

Definition requests_get (_ : nat) (url : string) : http_result :=
  if String.eqb url (price_url "A") then Response 200 "A" else Response 404 "".

Definition st0 : state := State ∅ 0 [] [].

(** A cache holding ["A"] at 1.5 EUR, fetched [age] seconds before the
    clock's reading. *)
Definition cache_aged (age : float) : pyval :=
  VDict [("A", VDict [("price_eur", VFloat 1.5); ("ts", VFloat (1752228000 - age))])].

(** A disk with two snapshots, in the order written, and a third file of
    the same pattern that is not JSON. *)
Definition disk : gmap string node :=
  <["snapshots/csgo_snapshot_20250711_120000.json" := File true "D"]>
  (<["snapshots/csgo_snapshot_20241231_235959.json" := File true "D"]>
  (<["snapshots/csgo_snapshot_20250101_000000.json" := File true "not json"]>
  (<["snapshots" := Dir]> ∅))).

End Scenario.

(** ** The program *)

Section Program.

(** Python's JSON codec: [json.loads] ([None] for any error it raises,
    decoding errors included) and [json.dumps]. *)
Variable json_loads : string -> option pyval.
Variable json_dumps : pyval -> string.

(** [float(s)] on the strings that are not plain decimal numerals. *)
Variable float_other : string -> option float.

(** The readings of the clock, in the order taken: [time.time()] and the
    local time [time.strftime] formats. *)
Variable time_time : nat -> float.
Variable localtime : nat -> datetime.

(** What the [n]-th request of the process receives for a URL. *)
Variable requests_get : nat -> string -> http_result.

Definition py_float (s : string) : option float :=
  match PyFloat.parse_decimal s with
  | Some f => Some f
  | None => float_other s
  end.

Definition time_now : M float :=
  fun st => (Ok (time_time (ticks st)),
             State (files st) (S (ticks st)) (requests st) (stdout st)).

Definition time_local : M datetime :=
  fun st => (Ok (localtime (ticks st)),
             State (files st) (S (ticks st)) (requests st) (stdout st)).

Definition http_get (url : string) : M http_result :=
  fun st => (Ok (requests_get (length (requests st)) url),
             State (files st) (ticks st) (requests st ++ [url]) (stdout st)).

Definition json_load (p : string) : M pyval :=
  let* text := read_text p in
  match json_loads text with
  | Some v => ret v
  | None => raise JSONDecodeError
  end.

(** *** Cache *)

Definition _load_cache : M pyval :=
  let* found := os_path_exists CACHE_FILE in
  if (found : bool)
  then try_except (json_load CACHE_FILE) (fun _ => ret (VDict []))
  else ret (VDict []).

Definition _save_cache_ops (cache : pyval) : list Fs.op :=
  let tmp := CACHE_FILE ++ ".tmp" in
  [Fs.OpOpenW tmp; Fs.OpWrite tmp (json_dumps cache); Fs.OpReplace tmp CACHE_FILE].

Definition _save_cache (cache : pyval) : M unit := do_ops (_save_cache_ops cache).

(** *** Price fetch *)

(** [(entry := cache.get(item_name)) and now - entry["ts"] < CACHE_TTL]
    followed by [return entry["price_eur"]]: [Some price] when the cached
    entry is used, [None] when the upstream is to be asked. *)
Definition cached_price (item_name : string) (cache : pyval) (now : float)
  : result (option pyval) :=
  match Py.get cache item_name with
  | Raise e => Raise e
  | Ok entry =>
      if Py.truthy entry then
        match Py.getitem entry "ts" with
        | Raise e => Raise e
        | Ok ts =>
            match Py.float_sub now ts with
            | Raise e => Raise e
            | Ok age =>
                if PyFloat.lt_int age CACHE_TTL then
                  match Py.getitem entry "price_eur" with
                  | Raise e => Raise e
                  | Ok price => Ok (Some price)
                  end
                else Ok None
            end
        end
      else Ok None
  end.

(** The body of the [try] up to the parsed price: [raise_for_status],
    [resp.json()], the choice of the price field and its conversion. *)
Definition parse_price (price_raw : pyval) : result float :=
  match price_raw with
  | VStr s =>
      match py_float (PyStr.replace "," "." (PyStr.replace " " "" (PyStr.replace "€" "" s))) with
      | Some f => Ok f
      | None => Raise ValueError
      end
  | _ => Raise AttributeError
  end.

Definition price_of_response (r : http_result) : result float :=
  match r with
  | ConnectionFailed => Raise RequestException
  | Response status body =>
      if (400 <=? status) && (status <? 600) then Raise HTTPError
      else
        match json_loads body with
        | None => Raise JSONDecodeError
        | Some data =>
            match Py.get data "lowest_price" with
            | Raise e => Raise e
            | Ok lowest =>
                match (if Py.truthy lowest then Ok lowest else Py.get data "median_price") with
                | Raise e => Raise e
                | Ok price_raw =>
                    if negb (Py.truthy price_raw) then Raise ValueError
                    else parse_price price_raw
                end
            end
        end
  end.

(** Returns the price (or [None]) and the cache as the call leaves it. *)
Definition fetch_price_eur (item_name : string) (cache : pyval) : M (pyval * pyval) :=
  let* now := time_now in
  let* hit := lift (cached_price item_name cache now) in
  match hit with
  | Some price => ret (price, cache)
  | None =>
      try_except
        (let* resp := http_get (price_url item_name) in
         let* price_eur := lift (price_of_response resp) in
         let* cache' := lift (Py.setitem cache item_name
                                (VDict [("price_eur", VFloat price_eur); ("ts", VFloat now)])) in
         ret (VFloat price_eur, cache'))
        (fun exc => print (WarnItem item_name exc) ;; ret (VNone, cache))
  end.

(** *** API endpoints *)

Definition is_none (v : pyval) : bool :=
  match v with
  | VNone => true
  | _ => false
  end.

(** [round(price * count, 2) if price is not None else None]. *)
Definition line_total (price : pyval) (count : Z) : result pyval :=
  if is_none price then Ok VNone
  else match Py.mul_int price count with
       | Ok v => Py.round2 v
       | Raise e => Raise e
       end.

(** [grand_total += total] when [total is not None]. *)
Definition add_total (grand_total : float) (total : pyval) : result float :=
  if is_none total then Ok grand_total else Py.float_add grand_total total.

Definition item_row (name : string) (count : Z) (price total : pyval) : pyval :=
  VDict [("name", VStr name); ("count", VInt count); ("price", price); ("total", total)].

(** The [for] loop of [api_prices] over the inventory [inv], from the
    state [(cache, items, grand_total)] of its variables. *)
Fixpoint price_loop (inv : list (string * Z)) (cache : pyval) (items : list pyval)
    (grand_total : float) : M (pyval * list pyval * float) :=
  match inv with
  | [] => ret (cache, items, grand_total)
  | (name, count) :: inv' =>
      let* (price, cache') := fetch_price_eur name cache in
      let* total := lift (line_total price count) in
      let* grand_total' := lift (add_total grand_total total) in
      price_loop inv' cache' (items ++ [item_row name count price total])%list grand_total'
  end.

Definition snapshot_filename (t : datetime) : string :=
  SNAPSHOT_PREFIX ++ Time.strftime_file t ++ SNAPSHOT_SUFFIX.

Definition os_path_join (d name : string) : string := d ++ "/" ++ name.

Definition snapshot_ops (filepath : string) (resp_data : pyval) : list Fs.op :=
  [Fs.OpMakedirs SNAPSHOT_DIR; Fs.OpOpenW filepath; Fs.OpWrite filepath (json_dumps resp_data)].

(** The handler over an inventory; [store] is the query argument of that
    name, if any. *)
Definition api_prices_of (inv : list (string * Z)) (store : option string) : M pyval :=
  let* cache := _load_cache in
  let* (cache', items, grand_total) := price_loop inv cache [] 0%float in
  _save_cache cache' ;;
  let resp_data :=
    [("items", VList items); ("grand_total", VFloat (PyFloat.round2 grand_total))] in
  if bool_decide (store = Some "1") then
    let* t := time_local in
    let filename := snapshot_filename t in
    let filepath := os_path_join SNAPSHOT_DIR filename in
    do_ops (snapshot_ops filepath (VDict resp_data)) ;;
    ret (VDict (Py.assoc_set "filename" (VStr filename)
                  (Py.assoc_set "saved" (VBool true) resp_data)))
  else ret (VDict resp_data).

Definition api_prices (store : option string) : M pyval := api_prices_of INVENTORY store.

(** The body of the [try] in [api_history] for one path. *)
Definition history_entry (path : string) : M pyval :=
  let* data := json_load path in
  let ts_str := PyStr.slice (PyStr.len SNAPSHOT_PREFIX) 5 (PyStr.basename path) in
  match Time.strptime ts_str with
  | None => raise ValueError
  | Some ts =>
      let* grand_total := lift (Py.getitem data "grand_total") in
      ret (VDict [("ts", VStr (Time.strftime_minute ts)); ("grand_total", grand_total)])
  end.

Fixpoint history_loop (paths : list string) (history : list pyval) : M (list pyval) :=
  match paths with
  | [] => ret history
  | path :: paths' =>
      let* history' :=
        try_except
          (let* e := history_entry path in ret (history ++ [e])%list)
          (fun exc => print (WarnHistory path exc) ;; ret history) in
      history_loop paths' history'
  end.

Definition glob_snapshots : M (list string) :=
  fun st => (Ok (Fs.glob SNAPSHOT_DIR SNAPSHOT_PREFIX SNAPSHOT_SUFFIX (files st)), st).

Definition api_history : M pyval :=
  let* paths := glob_snapshots in
  let* history := history_loop (sorted paths) [] in
  ret (VDict [("history", VList history)]).

(** ** Properties *)

(** *** Checks of the model on concrete inputs *)

Example round2_zero : PyFloat.round2 0%float = 0%float.
Proof. reflexivity. Qed.

Example round2_half_even_binary : PyFloat.round2 2.675%float = 2.67%float.
Proof. vm_compute. reflexivity. Qed.

Example round2_spec_line : PyFloat.round2 (2.005 * 2)%float = 4.01%float.
Proof. vm_compute. reflexivity. Qed.

Example round2_neg_small : PyFloat.round2 (-0.001)%float = (-0)%float.
Proof. vm_compute. reflexivity. Qed.

Example parse_decimal_1234 : PyFloat.parse_decimal "12.34" = Some 12.34%float.
Proof. vm_compute. reflexivity. Qed.

Example parse_decimal_forms :
  PyFloat.parse_decimal "-0.0" = Some (-0)%float /\
  PyFloat.parse_decimal ".5" = Some 0.5%float /\
  PyFloat.parse_decimal "5." = Some 5%float /\
  PyFloat.parse_decimal "0.1" = Some 0.1%float /\
  PyFloat.parse_decimal "1.234.56" = None /\
  PyFloat.parse_decimal "5.--" = None /\
  PyFloat.parse_decimal "" = None.
Proof. vm_compute. repeat split. Qed.

Example lt_int_examples :
  PyFloat.lt_int 3599.999%float 3600 = true /\ PyFloat.lt_int 3600%float 3600 = false
  /\ PyFloat.lt_int (-5)%float 3600 = true /\ PyFloat.lt_int nan 3600 = false
  /\ PyFloat.lt_int 0.5%float 1 = true /\ PyFloat.lt_int 1e300%float 3600 = false.
Proof. vm_compute. repeat split. Qed.

Example round2_ties_to_even :
  PyFloat.round2 0.125%float = 0.12%float /\ PyFloat.round2 0.375%float = 0.38%float.
Proof. vm_compute. split; reflexivity. Qed.

Example round2_sum : PyFloat.round2 (0.1 + 0.2)%float = 0.3%float.
Proof. vm_compute. reflexivity. Qed.

Example replace_euro : PyStr.replace "€" "" "12,34 €" = "12,34 ".
Proof. reflexivity. Qed.

Example replace_overlap : PyStr.replace "aa" "b" "aaaaa" = "bba".
Proof. reflexivity. Qed.

Example endswith_ex :
  PyStr.endswith ".json" "a.json" = true /\ PyStr.endswith ".json" "a.jsonl" = false
  /\ PyStr.endswith "" "abc" = true /\ PyStr.endswith ".json" "json" = false.
Proof. repeat split. Qed.

Example slice_name :
  PyStr.slice 14 5 "csgo_snapshot_20250711_120000.json" = "20250711_120000".
Proof. reflexivity. Qed.

Example basename_path : PyStr.basename "snapshots/csgo_snapshot_x.json" = "csgo_snapshot_x.json".
Proof. reflexivity. Qed.

Example quote_item : Url.quote "Spectrum 2 Case" = "Spectrum%202%20Case".
Proof. reflexivity. Qed.

Example strptime_fixed :
  Time.strptime "20250711_120000" = Some (Datetime 2025 7 11 12 0 0).
Proof. reflexivity. Qed.

Example strptime_short_month_day :
  Time.strptime "2024113_101010" = Some (Datetime 2024 11 3 10 10 10).
Proof. reflexivity. Qed.

Example strptime_rejects :
  Time.strptime "20250230_120000" = None /\ Time.strptime "20250711_245959" = None
  /\ Time.strptime "20250711_235960" = None /\ Time.strptime "" = None
  /\ Time.strptime "20250711_120000x" = None.
Proof. vm_compute. repeat split. Qed.

Example strftime_file_ex :
  Time.strftime_file (Datetime 2025 7 11 9 5 0) = "20250711_090500".
Proof. reflexivity. Qed.

Example strftime_minute_ex :
  Time.strftime_minute (Datetime 2025 7 11 9 5 0) = "2025-07-11 09:05".
Proof. reflexivity. Qed.

Example SNAPSHOT_GLOB_value : SNAPSHOT_GLOB = "snapshots/csgo_snapshot_*.json".
Proof. reflexivity. Qed.

Example sorted_ex : sorted ["b"; "a10"; "a9"; "a"] = ["a"; "a10"; "a9"; "b"].
Proof. vm_compute. reflexivity. Qed.

Arguments cached_price : simpl never.
Arguments price_of_response : simpl never.
Arguments price_url : simpl never.

(** *** Floats *)

Lemma lt_int_false_ge (x : float) (n : Z) :
  PyFloat.is_nan x = false -> PyFloat.lt_int x n = false -> PyFloat.ge_int x n = true.
Proof.
  unfold PyFloat.is_nan, PyFloat.lt_int, PyFloat.ge_int.
  destruct (Prim2SF x) as [s|s| |s m e]; try discriminate; intros _.
  - intros H. apply Z.ltb_ge in H. now apply Z.leb_le.
  - intros ->. reflexivity.
  - cbv zeta. destruct (0 <=? e); intros H; apply Z.ltb_ge in H; now apply Z.leb_le.
Qed.

(** *** The price lookup *)

(** The state after the clock has been read once. *)
Definition tick (st : state) : state :=
  State (files st) (S (ticks st)) (requests st) (stdout st).

(** The state after the clock has been read and one request sent. *)
Definition asked (url : string) (st : state) : state :=
  State (files st) (S (ticks st)) (requests st ++ [url]) (stdout st).

(** What the upstream answers to the next request for [item_name]. *)
Definition upstream (item_name : string) (st : state) : result float :=
  price_of_response (requests_get (length (requests st)) (price_url item_name)).

(** A hit: the cached entry is used, the clock is read and nothing else
    happens. *)
Lemma fetch_hit (item_name : string) (cache : pyval) (st : state) (price : pyval) :
  cached_price item_name cache (time_time (ticks st)) = Ok (Some price) ->
  fetch_price_eur item_name cache st = (Ok (price, cache), tick st).
Proof.
  intros H. unfold fetch_price_eur, bind, time_now, lift. cbn. rewrite H. reflexivity.
Qed.

(** The check of the cache raises: so does the call, with no request. *)
Lemma fetch_raise (item_name : string) (cache : pyval) (st : state) (e : exn) :
  cached_price item_name cache (time_time (ticks st)) = Raise e ->
  fetch_price_eur item_name cache st = (Raise e, tick st).
Proof.
  intros H. unfold fetch_price_eur, bind, time_now, lift. cbn. rewrite H. reflexivity.
Qed.

(** No usable entry and the upstream fails: [None], a warning, the cache
    as it was. *)
Lemma fetch_miss_failure (item_name : string) (cache : pyval) (st : state) (e : exn) :
  cached_price item_name cache (time_time (ticks st)) = Ok None ->
  upstream item_name st = Raise e ->
  fetch_price_eur item_name cache st
  = (Ok (VNone, cache),
     State (files st) (S (ticks st)) (requests st ++ [price_url item_name])
           (stdout st ++ [WarnItem item_name e])).
Proof.
  intros H U. unfold upstream in U.
  unfold fetch_price_eur, bind, time_now, lift, try_except, http_get, print, ret.
  cbn. rewrite H. cbn. rewrite U. reflexivity.
Qed.

(** [cached_price] answers only for a dict. *)
Lemma cached_price_dict (item_name : string) (cache : pyval) (now : float) (r : option pyval) :
  cached_price item_name cache now = Ok r -> exists d, cache = VDict d.
Proof.
  unfold cached_price. destruct cache; cbn; try discriminate. eauto.
Qed.

(** No usable entry and the upstream answers a price: the price, stored
    under the item's name with the time of the call. *)
Lemma fetch_miss_success (item_name : string) (d : list (string * pyval)) (st : state)
    (price_eur : float) :
  cached_price item_name (VDict d) (time_time (ticks st)) = Ok None ->
  upstream item_name st = Ok price_eur ->
  fetch_price_eur item_name (VDict d) st
  = (Ok (VFloat price_eur,
         VDict (Py.assoc_set item_name
                  (VDict [("price_eur", VFloat price_eur);
                          ("ts", VFloat (time_time (ticks st)))]) d)),
     asked (price_url item_name) st).
Proof.
  intros H U. unfold upstream in U.
  unfold fetch_price_eur, bind, time_now, lift, try_except, http_get, print, ret.
  cbn. rewrite H. cbn. rewrite U. reflexivity.
Qed.

(** With no usable entry the upstream is asked, whatever it answers. *)
Lemma fetch_miss_asks (item_name : string) (cache : pyval) (st : state) :
  cached_price item_name cache (time_time (ticks st)) = Ok None ->
  requests (snd (fetch_price_eur item_name cache st))
  = (requests st ++ [price_url item_name])%list.
Proof.
  intros H. destruct (cached_price_dict _ _ _ _ H) as [d ->].
  destruct (upstream item_name st) as [p|e] eqn:U.
  - rewrite (fetch_miss_success _ _ _ _ H U). reflexivity.
  - rewrite (fetch_miss_failure _ _ _ _ H U). reflexivity.
Qed.

(** A call never touches the disk. *)
Lemma fetch_files (item_name : string) (cache : pyval) (st : state) :
  files (snd (fetch_price_eur item_name cache st)) = files st.
Proof.
  destruct (cached_price item_name cache (time_time (ticks st))) as [[price|]|e] eqn:H.
  - rewrite (fetch_hit _ _ _ _ H). reflexivity.
  - destruct (cached_price_dict _ _ _ _ H) as [d ->].
    destruct (upstream item_name st) as [p|e] eqn:U.
    + rewrite (fetch_miss_success _ _ _ _ H U). reflexivity.
    + rewrite (fetch_miss_failure _ _ _ _ H U). reflexivity.
  - rewrite (fetch_raise _ _ _ _ H). reflexivity.
Qed.

(** What [cached_price] answering [None] means: the cache is a dict in
    which the item has no entry (or a falsy one), or an entry whose age is
    not below the TTL. *)
Lemma cached_price_none (item_name : string) (cache : pyval) (now : float) :
  cached_price item_name cache now = Ok None ->
  exists entry,
    Py.get cache item_name = Ok entry
    /\ (Py.truthy entry = false
        \/ exists ts age,
             Py.getitem entry "ts" = Ok ts /\ Py.float_sub now ts = Ok age
             /\ PyFloat.lt_int age CACHE_TTL = false).
Proof.
  unfold cached_price.
  destruct (Py.get cache item_name) as [entry|e]; [|discriminate].
  destruct (Py.truthy entry) eqn:T; [|intros _; exists entry; split; [reflexivity|now left]].
  destruct (Py.getitem entry "ts") as [ts|] eqn:E1; [|discriminate].
  destruct (Py.float_sub now ts) as [age|] eqn:E2; [|discriminate].
  destruct (PyFloat.lt_int age CACHE_TTL) eqn:L.
  - destruct (Py.getitem entry "price_eur"); discriminate.
  - intros _. exists entry. split; [reflexivity|]. right. exists ts, age. auto.
Qed.

(** C3. If the upstream lookup for an item fails, for whatever reason [e],
    the call returns [None] and hands back the very cache it was given (no
    entry added, removed or changed, no failure marker); it only sends the
    request and prints a warning.  The next call therefore asks the
    upstream again whenever the entry is still missing or stale at its
    clock reading. *)
Theorem fetch_failure_keeps_cache (item_name : string) (cache : pyval) (st : state) (e : exn) :
  cached_price item_name cache (time_time (ticks st)) = Ok None ->
  upstream item_name st = Raise e ->
  exists st',
    fetch_price_eur item_name cache st = (Ok (VNone, cache), st')
    /\ files st' = files st
    /\ requests st' = (requests st ++ [price_url item_name])%list
    /\ stdout st' = (stdout st ++ [WarnItem item_name e])%list
    /\ (cached_price item_name cache (time_time (ticks st')) = Ok None ->
        requests (snd (fetch_price_eur item_name cache st'))
        = (requests st' ++ [price_url item_name])%list).
Proof.
  intros H U. eexists. split; [exact (fetch_miss_failure _ _ _ _ H U)|].
  repeat split. intros H'. now apply fetch_miss_asks.
Qed.

(** C2. An entry whose age is below the TTL of 3600 seconds is answered
    from the cache: the call returns the cached price, leaves the cache
    alone and sends no request.  A request is sent only when the item has
    no entry or its entry is stale: its age is not below the TTL, that is
    (unless the age is NaN) at least the TTL. *)
Theorem fresh_entry_no_request (item_name : string) (cache : pyval) (st : state) :
  let now := time_time (ticks st) in
  (forall d entry ts age price,
      cache = VDict d -> Py.assoc item_name d = Some entry ->
      Py.getitem entry "ts" = Ok ts -> Py.getitem entry "price_eur" = Ok price ->
      Py.float_sub now ts = Ok age -> PyFloat.lt_int age CACHE_TTL = true ->
      fetch_price_eur item_name cache st = (Ok (price, cache), tick st)
      /\ requests (tick st) = requests st /\ CACHE_TTL = 3600)
  /\ (requests (snd (fetch_price_eur item_name cache st)) = requests st
      \/ requests (snd (fetch_price_eur item_name cache st))
         = (requests st ++ [price_url item_name])%list
         /\ exists entry,
              Py.get cache item_name = Ok entry
              /\ (Py.truthy entry = false
                  \/ exists ts age,
                       Py.getitem entry "ts" = Ok ts /\ Py.float_sub now ts = Ok age
                       /\ PyFloat.lt_int age CACHE_TTL = false
                       /\ (PyFloat.is_nan age = false -> PyFloat.ge_int age CACHE_TTL = true))).
Proof.
  intros now. split.
  - intros d entry ts age price -> A T P S L. repeat split.
    apply fetch_hit. fold now. unfold cached_price. cbn. rewrite A. cbn.
    assert (Py.truthy entry = true) as ->.
    { destruct entry; try discriminate. destruct d0; [discriminate|reflexivity]. }
    rewrite T, S, L, P. reflexivity.
  - destruct (cached_price item_name cache now) as [[price|]|e] eqn:H; subst now.
    + left. rewrite (fetch_hit _ _ _ _ H). reflexivity.
    + right. split; [now apply fetch_miss_asks|].
      destruct (cached_price_none _ _ _ H) as (entry & G & [F|(ts & age & T & S & L)]).
      * exists entry. auto.
      * exists entry. split; [exact G|]. right. exists ts, age.
        repeat split; auto. intros N. now apply lt_int_false_ge.
    + left. rewrite (fetch_raise _ _ _ _ H). reflexivity.
Qed.

(** *** Loading the cache *)

(** The three ways the cache file can fail to yield a document. *)
Definition cache_file_missing (st : state) : Prop := files st !! CACHE_FILE = None.

Definition cache_file_unreadable (st : state) : Prop :=
  exists e, Fs.read (files st) CACHE_FILE = Raise e.

Definition cache_file_corrupt (st : state) : Prop :=
  exists text, Fs.read (files st) CACHE_FILE = Ok text /\ json_loads text = None.

Lemma load_cache_cases (st : state) :
  _load_cache st
  = (Ok (match Fs.read (files st) CACHE_FILE with
         | Ok text => default (VDict []) (json_loads text)
         | Raise _ => VDict []
         end), st).
Proof.
  unfold _load_cache, bind, os_path_exists, Fs.read.
  destruct (files st !! CACHE_FILE) as [n|] eqn:E.
  - rewrite bool_decide_eq_true_2 by eauto.
    unfold try_except, json_load, bind, read_text, Fs.read, ret, raise. rewrite E.
    destruct n as [w c| |]; try reflexivity.
    destruct (json_loads c); reflexivity.
  - rewrite bool_decide_eq_false_2 by (intros [? ?]; discriminate). reflexivity.
Qed.

(** C6. Loading the cache never raises and changes nothing; from a missing,
    unreadable or corrupt cache file it yields the empty cache; a
    successful lookup then stores the item's entry, stamped with the time
    of the call, into that empty cache; and the entry answers later
    lookups for as long as its age stays below the TTL. *)
Theorem load_cache_fails_open (st : state) :
  (exists cache, _load_cache st = (Ok cache, st))
  /\ (cache_file_missing st \/ cache_file_unreadable st \/ cache_file_corrupt st ->
      _load_cache st = (Ok (VDict []), st))
  /\ (forall item_name st1 price_eur,
        upstream item_name st1 = Ok price_eur ->
        let entry := VDict [("price_eur", VFloat price_eur);
                            ("ts", VFloat (time_time (ticks st1)))] in
        fetch_price_eur item_name (VDict []) st1
        = (Ok (VFloat price_eur, VDict [(item_name, entry)]),
           asked (price_url item_name) st1)
        /\ forall now,
             PyFloat.lt_int (now - time_time (ticks st1))%float CACHE_TTL = true ->
             cached_price item_name (VDict [(item_name, entry)]) now
             = Ok (Some (VFloat price_eur))).
Proof.
  split; [|split].
  - eexists. apply load_cache_cases.
  - intros H. rewrite load_cache_cases. f_equal. f_equal.
    destruct H as [H|[[e H]|(text & H & J)]].
    + unfold cache_file_missing in H. unfold Fs.read. rewrite H. reflexivity.
    + rewrite H. reflexivity.
    + rewrite H, J. reflexivity.
  - intros item_name st1 price_eur U entry. split.
    + now rewrite (fetch_miss_success item_name [] st1 price_eur).
    + intros now L. unfold cached_price, entry. cbn.
      rewrite String.eqb_refl. cbn. rewrite L. reflexivity.
Qed.

(** *** The valuation *)

(** The [total] field of a row of the response. *)
Definition row_total (row : pyval) : pyval :=
  match row with
  | VDict d => default VNone (Py.assoc "total" d)
  | _ => VNone
  end.

Definition row_price (row : pyval) : pyval :=
  match row with
  | VDict d => default VNone (Py.assoc "price" d)
  | _ => VNone
  end.

(** The totals that are present, in order. *)
Definition present (totals : list pyval) : list pyval :=
  List.filter (fun t => negb (is_none t)) totals.

(** Python's running sum [acc += t] over a list. *)
Fixpoint py_sum (acc : float) (totals : list pyval) : result float :=
  match totals with
  | [] => Ok acc
  | t :: totals' =>
      match Py.float_add acc t with
      | Ok acc' => py_sum acc' totals'
      | Raise e => Raise e
      end
  end.

(** A row of the response for the inventory entry [(name, count)]: its
    total is [round(price * count, 2)], or [None] when the price is. *)
Definition row_for (entry : string * Z) (row : pyval) : Prop :=
  exists price total,
    row = item_row (fst entry) (snd entry) price total
    /\ line_total price (snd entry) = Ok total.

Lemma line_total_none (price : pyval) (count : Z) (total : pyval) :
  line_total price count = Ok total -> (total = VNone <-> price = VNone).
Proof.
  unfold line_total. destruct price; cbn; intros H; try discriminate;
    try (injection H as <-; split; congruence).
  all: try (destruct (PyFloat.of_int count); cbn in H; [|discriminate];
            injection H as <-; split; congruence).
Qed.

(** What one pass of the loop leaves in its variables. *)
Lemma price_loop_inv (inv : list (string * Z)) :
  forall cache items grand_total st cache' items' grand_total' st',
    price_loop inv cache items grand_total st = (Ok (cache', items', grand_total'), st') ->
    exists rows,
      items' = (items ++ rows)%list
      /\ Forall2 row_for inv rows
      /\ py_sum grand_total (present (List.map row_total rows)) = Ok grand_total'
      /\ files st' = files st.
Proof.
  induction inv as [|[name count] inv IH]; intros cache items g st cache' items' g' st' H.
  - cbn in H. injection H as <- <- <- <-. exists []. rewrite app_nil_r.
    repeat split. constructor.
  - cbn [price_loop] in H. unfold bind at 1 in H.
    pose proof (fetch_files name cache st) as FF.
    destruct (fetch_price_eur name cache st) as [[[price cache1]|e] st1]; [|discriminate].
    cbn [snd] in FF. unfold bind at 1, lift at 1 in H.
    destruct (line_total price count) as [total|e] eqn:LT; [|discriminate].
    unfold bind at 1, lift at 1 in H.
    destruct (add_total g total) as [g1|e] eqn:AT; [|discriminate].
    apply IH in H as (rows & -> & F & S & FS).
    exists (item_row name count price total :: rows).
    rewrite <- app_assoc. split; [reflexivity|]. split; [|split].
    + constructor; [|exact F]. exists price, total. auto.
    + cbn. unfold add_total in AT. destruct (is_none total); cbn.
      * now injection AT as ->.
      * rewrite AT. exact S.
    + congruence.
Qed.

Lemma do_ops_ok (ops : list Fs.op) :
  forall st fs', Fs.run ops (files st) = Ok fs' -> do_ops ops st = (Ok tt, set_files fs' st).
Proof.
  induction ops as [|o ops IH]; cbn; intros st fs' H.
  - injection H as <-. unfold ret, set_files. now destruct st.
  - destruct (Fs.step o (files st)) as [fs1|e]; [|discriminate].
    rewrite (IH (set_files fs1 st) fs' H). reflexivity.
Qed.

Lemma do_ops_inv (ops : list Fs.op) :
  forall st st', do_ops ops st = (Ok tt, st') ->
    exists fs', Fs.run ops (files st) = Ok fs' /\ st' = set_files fs' st.
Proof.
  induction ops as [|o ops IH]; cbn; intros st st' H.
  - injection H as <-. exists (files st). split; [reflexivity|]. now destruct st.
  - destruct (Fs.step o (files st)) as [fs1|e]; [|discriminate].
    apply IH in H as (fs' & R & ->). exists fs'. split; [exact R|reflexivity].
Qed.

(** The response of a pass that returns: the rows the loop gathered and
    the rounded sum it accumulated. *)
Lemma api_prices_inv (inv : list (string * Z)) (store : option string)
    (st st' : state) (resp : pyval) :
  api_prices_of inv store st = (Ok resp, st') ->
  exists cache cache' items grand_total st1,
    _load_cache st = (Ok cache, st)
    /\ price_loop inv cache [] 0%float st = (Ok (cache', items, grand_total), st1)
    /\ Py.getitem resp "items" = Ok (VList items)
    /\ Py.getitem resp "grand_total" = Ok (VFloat (PyFloat.round2 grand_total)).
Proof.
  unfold api_prices_of. unfold bind at 1. rewrite load_cache_cases.
  set (cache := match Fs.read (files st) CACHE_FILE with
                | Ok text => default (VDict []) (json_loads text)
                | Raise _ => VDict []
                end).
  unfold bind at 1.
  destruct (price_loop inv cache [] 0%float st) as [[[[cache' items] g]|e] st1] eqn:L;
    [|discriminate].
  unfold bind at 1. destruct (_save_cache cache' st1) as [[[]|e] st2]; [|discriminate].
  intros H. exists cache, cache', items, g, st1.
  split; [reflexivity|]. split; [exact L|].
  destruct (bool_decide (store = Some "1")).
  - unfold bind at 1, time_local at 1 in H. unfold bind at 1 in H.
    match type of H with
    | context [do_ops ?ops ?s] => destruct (do_ops ops s) as [[[]|e] st3]
    end; [|discriminate].
    unfold ret in H. injection H as <- <-. split; reflexivity.
  - unfold ret in H. injection H as <- <-. split; reflexivity.
Qed.


(** C9. In a response of [/api/prices] every item carries the name and
    count of its inventory entry; its total is [None] exactly when its
    price is, and otherwise it is [round(price * count, 2)]. *)
Theorem item_total_iff_price (inv : list (string * Z)) (store : option string)
    (st st' : state) (resp : pyval) :
  api_prices_of inv store st = (Ok resp, st') ->
  exists rows,
    Py.getitem resp "items" = Ok (VList rows)
    /\ Forall2 (fun entry row =>
         exists price total,
           row = item_row (fst entry) (snd entry) price total
           /\ (total = VNone <-> price = VNone)
           /\ (price <> VNone ->
               exists product,
                 Py.mul_int price (snd entry) = Ok product /\ Py.round2 product = Ok total))
         inv rows.
Proof.
  intros H. apply api_prices_inv in H as (cache & cache' & items & g & st1 & _ & L & I & _).
  apply price_loop_inv in L as (rows & -> & F & _). cbn [app] in I.
  exists rows. split; [exact I|]. clear I.
  induction F as [|entry row inv rows (price & total & -> & LT) F IH]; constructor; auto.
  exists price, total. split; [reflexivity|]. split; [now apply line_total_none in LT|].
  intros NN. unfold line_total in LT.
  destruct (is_none price) eqn:N; [destruct price; try discriminate; congruence|].
  destruct (Py.mul_int price (snd entry)) as [product|]; [|discriminate].
  exists product. split; [reflexivity|exact LT].
Qed.

(** A call that returns [None] hands back the cache it was given. *)
Lemma fetch_none_keeps (item_name : string) (cache cache1 : pyval) (st st1 : state) :
  fetch_price_eur item_name cache st = (Ok (VNone, cache1), st1) -> cache1 = cache.
Proof.
  destruct (cached_price item_name cache (time_time (ticks st))) as [[price|]|e] eqn:H.
  - rewrite (fetch_hit _ _ _ _ H). congruence.
  - destruct (cached_price_dict _ _ _ _ H) as [d ->].
    destruct (upstream item_name st) as [p|e] eqn:U.
    + rewrite (fetch_miss_success _ _ _ _ H U). discriminate.
    + rewrite (fetch_miss_failure _ _ _ _ H U). congruence.
  - rewrite (fetch_raise _ _ _ _ H). discriminate.
Qed.

(** The row of an entry whose price is unavailable. *)
Definition unpriced_row (entry : string * Z) : pyval :=
  item_row (fst entry) (snd entry) VNone VNone.

(** The lookup of every entry of [inv] fails against [cache], whenever it
    is made. *)
Definition every_lookup_fails (inv : list (string * Z)) (cache : pyval) : Prop :=
  forall name count st1,
    In (name, count) inv ->
    exists cache1 st2, fetch_price_eur name cache st1 = (Ok (VNone, cache1), st2).

Lemma price_loop_all_none (inv : list (string * Z)) (cache : pyval) :
  every_lookup_fails inv cache ->
  forall items grand_total st,
  exists st',
    price_loop inv cache items grand_total st
    = (Ok (cache, (items ++ List.map unpriced_row inv)%list, grand_total), st')
    /\ files st' = files st.
Proof.
  induction inv as [|[name count] inv IH]; intros HF items g st.
  - exists st. cbn. rewrite app_nil_r. split; reflexivity.
  - destruct (HF name count st (or_introl eq_refl)) as (cache1 & st1 & E).
    pose proof (fetch_none_keeps _ _ _ _ _ E) as ->.
    pose proof (fetch_files name cache st) as FF. rewrite E in FF. cbn [snd] in FF.
    destruct (IH (fun n c s i => HF n c s (or_intror i))
                (items ++ [item_row name count VNone VNone])%list g st1) as (st' & L & FS).
    exists st'. split; [|congruence].
    cbn [price_loop]. unfold bind at 1. rewrite E. cbn. unfold bind, lift. cbn.
    rewrite L. rewrite <- app_assoc. reflexivity.
Qed.

(** C10. When the lookup of every inventory entry fails, the valuation
    still returns a response (the cache must be writable, as for any pass;
    the snapshot is left aside), and in the response of any such pass,
    snapshot or not, every item has price and total [None] and the grand
    total is the float 0.0. *)
Theorem all_lookups_fail_total_zero (inv : list (string * Z)) (st : state) (cache : pyval) :
  _load_cache st = (Ok cache, st) ->
  every_lookup_fails inv cache ->
  (forall store,
      store <> Some "1" ->
      (exists fs', Fs.run (_save_cache_ops cache) (files st) = Ok fs') ->
      exists st',
        api_prices_of inv store st
        = (Ok (VDict [("items", VList (List.map unpriced_row inv));
                      ("grand_total", VFloat 0%float)]), st'))
  /\ (forall store resp st',
        api_prices_of inv store st = (Ok resp, st') ->
        Py.getitem resp "items" = Ok (VList (List.map unpriced_row inv))
        /\ Py.getitem resp "grand_total" = Ok (VFloat 0%float))
  /\ Forall (fun row => row_price row = VNone /\ row_total row = VNone)
       (List.map unpriced_row inv).
Proof.
  intros LC HF.
  destruct (price_loop_all_none inv cache HF [] 0%float st) as (st1 & L & FS).
  split; [|split].
  - intros store NS [fs' SV]. rewrite <- FS in SV. eexists.
    unfold api_prices_of. unfold bind at 1. rewrite LC.
    unfold bind at 1. rewrite L. unfold bind at 1.
    unfold _save_cache. rewrite (do_ops_ok _ _ _ SV).
    rewrite bool_decide_eq_false_2 by exact NS. reflexivity.
  - intros store resp st' RUN.
    apply api_prices_inv in RUN as (cache0 & cache' & items & g & st2 & LC' & L' & I & G).
    rewrite LC in LC'. injection LC' as <-. rewrite L in L'. injection L' as <- <- <- <-.
    split; [exact I|exact G].
  - clear. induction inv as [|entry inv IH]; constructor; auto.
Qed.

(** *** Strings *)

Lemma len_app (a b : string) : PyStr.len (a ++ b) = (PyStr.len a + PyStr.len b)%nat.
Proof. induction a as [|c a IH]; cbn; [reflexivity|]. now rewrite IH. Qed.

Lemma app_assoc_str (a b c : string) : (a ++ b) ++ c = a ++ b ++ c.
Proof. induction a as [|x a IH]; cbn; [reflexivity|]. now rewrite IH. Qed.

Lemma app_empty_r (a : string) : a ++ "" = a.
Proof. induction a as [|x a IH]; cbn; [reflexivity|]. now rewrite IH. Qed.

Lemma prefix_app (p r : string) : String.prefix p (p ++ r) = true.
Proof.
  induction p as [|c p IH]; cbn; [now destruct r|].
  destruct (ascii_dec c c); [exact IH|congruence].
Qed.

Lemma prefix_inv (p s : string) : String.prefix p s = true -> exists r, s = p ++ r.
Proof.
  revert s. induction p as [|c p IH]; intros s H.
  - exists s. reflexivity.
  - destruct s as [|c' s]; [discriminate|]. cbn in H.
    destruct (ascii_dec c c') as [<-|]; [|discriminate].
    destruct (IH s H) as [r ->]. exists r. reflexivity.
Qed.

Lemma endswith_app (a suf : string) : PyStr.endswith suf (a ++ suf) = true.
Proof.
  induction a as [|c a IH]; cbn.
  - destruct suf; cbn; [reflexivity|]. now rewrite Ascii.eqb_refl, String.eqb_refl.
  - rewrite IH. apply orb_true_r.
Qed.

Lemma endswith_inv (suf s : string) :
  PyStr.endswith suf s = true -> exists a, s = a ++ suf.
Proof.
  induction s as [|c s IH]; cbn [PyStr.endswith]; intros H.
  - apply orb_true_iff in H as [H|H]; [|discriminate].
    apply String.eqb_eq in H as <-. exists "". reflexivity.
  - apply orb_true_iff in H as [H|H].
    + apply String.eqb_eq in H as <-. exists "". reflexivity.
    + destruct (IH H) as [a ->]. exists (String c a). reflexivity.
Qed.

Lemma substring_skip (a b : string) (n : nat) :
  substring (PyStr.len a) n (a ++ b) = substring 0 n b.
Proof. induction a as [|c a IH]; cbn; [reflexivity|exact IH]. Qed.

Lemma substring_take (a b : string) : substring 0 (PyStr.len a) (a ++ b) = a.
Proof.
  induction a as [|c a IH]; cbn; [now destruct b|]. now rewrite IH.
Qed.

Lemma app_inv_head_str (a b c : string) : a ++ b = a ++ c -> b = c.
Proof. induction a as [|x a IH]; cbn; [auto|]. intros [= H]. auto. Qed.

(** A name with prefix [pre] and suffix [suf] that is long enough for both
    is [pre], the slice between them, and [suf]. *)
Lemma name_split (pre suf name : string) :
  PyStr.startswith pre name = true -> PyStr.endswith suf name = true ->
  (PyStr.len pre + PyStr.len suf <= PyStr.len name)%nat ->
  name = pre ++ PyStr.slice (PyStr.len pre) (PyStr.len suf) name ++ suf.
Proof.
  intros P S L. apply prefix_inv in P as [r ->]. apply endswith_inv in S as [a E].
  rewrite len_app in L.
  assert (exists mid, r = mid ++ suf) as [mid ->].
  { exists (substring 0 (PyStr.len r - PyStr.len suf) r).
    assert (LA : PyStr.len a = (PyStr.len pre + (PyStr.len r - PyStr.len suf))%nat).
    { apply (f_equal PyStr.len) in E. rewrite !len_app in E. lia. }
    assert (exists x, a = pre ++ x /\ PyStr.len x = (PyStr.len r - PyStr.len suf)%nat)
      as (x & -> & LX).
    { clear L. revert a E LA. induction pre as [|c pre IH]; intros a E LA.
      - exists a. auto.
      - destruct a as [|c' a]; [cbn in LA; lia|]. cbn in E. injection E as -> E.
        cbn in LA. destruct (IH a E) as (x & -> & LX); [lia|]. exists x. auto. }
    rewrite app_assoc_str in E. apply app_inv_head_str in E. subst r.
    rewrite <- LX. now rewrite substring_take. }
  f_equal. unfold PyStr.slice. rewrite !len_app.
  replace (PyStr.len pre + (PyStr.len mid + PyStr.len suf) - PyStr.len suf - PyStr.len pre)%nat
    with (PyStr.len mid) by lia.
  rewrite substring_skip, substring_take. reflexivity.
Qed.

Lemma slice_app (pre mid suf : string) :
  PyStr.slice (PyStr.len pre) (PyStr.len suf) (pre ++ mid ++ suf) = mid.
Proof.
  unfold PyStr.slice. rewrite !len_app.
  replace (PyStr.len pre + (PyStr.len mid + PyStr.len suf) - PyStr.len suf - PyStr.len pre)%nat
    with (PyStr.len mid) by lia.
  rewrite substring_skip, substring_take. reflexivity.
Qed.

Lemma contains_char_app (c : ascii) (a b : string) :
  PyStr.contains_char c (a ++ b) = PyStr.contains_char c a || PyStr.contains_char c b.
Proof.
  induction a as [|x a IH]; cbn; [reflexivity|]. rewrite IH. apply orb_assoc.
Qed.

Lemma basename_from_noslash (acc name : string) :
  PyStr.contains_char "/" name = false -> PyStr.basename_from acc name = acc.
Proof.
  induction name as [|c name IH]; cbn [PyStr.contains_char PyStr.basename_from]; [reflexivity|].
  intros H. apply orb_false_iff in H as [C H].
  rewrite Ascii.eqb_sym in C. rewrite C. now apply IH.
Qed.

Lemma basename_join (d name : string) :
  PyStr.contains_char "/" name = false -> PyStr.basename (os_path_join d name) = name.
Proof.
  intros H. unfold PyStr.basename, os_path_join.
  generalize (d ++ "/" ++ name) at 1. induction d as [|c d IH]; intros acc.
  - cbn. now apply basename_from_noslash.
  - cbn. destruct (Ascii.eqb c "/"); apply IH.
Qed.

(** *** The order of strings *)

Lemma ascii_compare_trans (a b c : ascii) (o : comparison) :
  Ascii.compare a b = o -> Ascii.compare b c = o -> o <> Eq -> Ascii.compare a c = o.
Proof.
  unfold Ascii.compare. intros H1 H2 NE. destruct o; [congruence| |].
  - exact (N.lt_trans _ _ _ H1 H2).
  - apply N.compare_gt_iff. apply N.compare_gt_iff in H1. apply N.compare_gt_iff in H2.
    exact (N.lt_trans _ _ _ H2 H1).
Qed.

Lemma string_compare_refl (s : string) : String.compare s s = Eq.
Proof.
  induction s as [|c s IH]; cbn; [reflexivity|].
  unfold Ascii.compare. now rewrite N.compare_refl.
Qed.

Lemma string_compare_not_gt_trans (s1 s2 s3 : string) :
  String.compare s1 s2 <> Gt -> String.compare s2 s3 <> Gt -> String.compare s1 s3 <> Gt.
Proof.
  revert s2 s3. induction s1 as [|a s1 IH]; intros [|b s2] [|c s3]; cbn; try congruence.
  destruct (Ascii.compare a b) eqn:AB; [| |congruence].
  - apply Ascii.compare_eq_iff in AB as ->.
    destruct (Ascii.compare b c); [apply IH|congruence|congruence].
  - intros _. destruct (Ascii.compare b c) eqn:BC; [| |congruence]; intros _.
    + apply Ascii.compare_eq_iff in BC as ->. now rewrite AB.
    + now rewrite (ascii_compare_trans a b c Lt).
Qed.

#[global] Instance str_le_trans : Transitive str_le.
Proof.
  intros s1 s2 s3. unfold str_le, String.leb. intros H1 H2.
  pose proof (string_compare_not_gt_trans s1 s2 s3) as T.
  destruct (String.compare s1 s2), (String.compare s2 s3), (String.compare s1 s3);
    try reflexivity; try discriminate; exfalso; apply T; congruence.
Qed.

#[global] Instance str_le_total : Total str_le.
Proof. intros s1 s2. apply String.leb_total. Qed.

Lemma string_compare_app (p a b : string) :
  String.compare (p ++ a) (p ++ b) = String.compare a b.
Proof.
  induction p as [|c p IH]; cbn; [reflexivity|].
  unfold Ascii.compare at 1. now rewrite N.compare_refl.
Qed.

(** [sorted] yields its argument reordered, in ascending order. *)
Lemma sorted_spec (l : list string) : StronglySorted str_le (sorted l) /\ sorted l ≡ₚ l.
Proof.
  split; [apply StronglySorted_merge_sort; apply _|apply merge_sort_Permutation].
Qed.

(** *** Digits *)

Definition is_digit (c : ascii) : bool :=
  match PyFloat.digit_of c with
  | Some _ => true
  | None => false
  end.

Lemma digit_of_spec (c : ascii) (d : Z) :
  PyFloat.digit_of c = Some d -> 0 <= d <= 9 /\ Z.of_N (N_of_ascii c) = 48 + d.
Proof.
  unfold PyFloat.digit_of. cbv zeta.
  destruct ((48 <=? Z.of_N (N_of_ascii c)) && (Z.of_N (N_of_ascii c) <=? 57)) eqn:E;
    [|discriminate].
  intros [= <-]. apply andb_true_iff in E as [E1 E2]. lia.
Qed.

Lemma digit_compare (c c' : ascii) (a b : Z) :
  PyFloat.digit_of c = Some a -> PyFloat.digit_of c' = Some b ->
  Ascii.compare c c' = Z.compare a b.
Proof.
  intros H1 H2. apply digit_of_spec in H1 as [_ H1], H2 as [_ H2].
  unfold Ascii.compare. rewrite <- N2Z.inj_compare, H1, H2.
  destruct (Z.compare_spec a b) as [->| |]; [apply Z.compare_refl| |].
  - apply Z.compare_lt_iff. lia.
  - apply Z.compare_gt_iff. lia.
Qed.

Lemma digit_not (c x : ascii) (d : Z) :
  PyFloat.digit_of c = Some d -> PyFloat.digit_of x = None -> Ascii.eqb x c = false.
Proof.
  intros H1 H2. apply Ascii.eqb_neq. congruence.
Qed.

(** *** Parsing a timestamp *)

(** How a directive can use up the head of the string: two digits, one
    digit, or a space and a digit. *)
Inductive took : string -> Z -> string -> Prop :=
| took_two c1 c2 a b r :
    PyFloat.digit_of c1 = Some a -> PyFloat.digit_of c2 = Some b ->
    took (String c1 (String c2 r)) (10 * a + b) r
| took_one c a r :
    PyFloat.digit_of c = Some a -> took (String c r) a r
| took_space c a r :
    PyFloat.digit_of c = Some a -> took (String " " (String c r)) a r.

Lemma in_two_digits (ok : Z -> Z -> bool) (s : string) (v : Z) (r : string) :
  In (v, r) (Time.two_digits ok s) -> took s v r.
Proof.
  unfold Time.two_digits. destruct s as [|c1 [|c2 s]]; try (intros []).
  destruct (PyFloat.digit_of c1) as [a|] eqn:A; [|intros []].
  destruct (PyFloat.digit_of c2) as [b|] eqn:B; [|intros []].
  destruct (ok a b); [|intros []]. intros [[= <- <-]|[]]. now constructor.
Qed.

Lemma in_one_digit_head (ok : Z -> bool) (s : string) (v : Z) (r : string) :
  In (v, r) (Time.one_digit ok s) -> exists c, s = String c r /\ PyFloat.digit_of c = Some v.
Proof.
  unfold Time.one_digit. destruct s as [|c s]; [intros []|].
  destruct (PyFloat.digit_of c) as [a|] eqn:A; [|intros []].
  destruct (ok a); [|intros []]. intros [[= <- <-]|[]]. eauto.
Qed.

Lemma in_one_digit (ok : Z -> bool) (s : string) (v : Z) (r : string) :
  In (v, r) (Time.one_digit ok s) -> took s v r.
Proof.
  intros H. apply in_one_digit_head in H as (c & -> & H). now constructor.
Qed.

Lemma dir_m_took (s : string) (v : Z) (r : string) : In (v, r) (Time.dir_m s) -> took s v r.
Proof.
  unfold Time.dir_m. intros H. apply List.in_app_or in H as [H|H];
    [|apply List.in_app_or in H as [H|H]];
    eauto using in_two_digits, in_one_digit.
Qed.

Lemma dir_d_took (s : string) (v : Z) (r : string) : In (v, r) (Time.dir_d s) -> took s v r.
Proof.
  unfold Time.dir_d. intros H. apply List.in_app_or in H as [H|H];
    [|apply List.in_app_or in H as [H|H];
      [|apply List.in_app_or in H as [H|H]; [|apply List.in_app_or in H as [H|H]]]];
    eauto using in_two_digits, in_one_digit.
  destruct s as [|c s]; [destruct H|].
  destruct (Ascii.eqb c " ") eqn:E.
  - apply Ascii.eqb_eq in E as ->. apply in_one_digit_head in H as (c & -> & H).
    now constructor.
  - exfalso. apply Ascii.eqb_neq in E.
    destruct c as [[] [] [] [] [] [] [] []]; try destruct H; now apply E.
Qed.

Lemma dir_H_took (s : string) (v : Z) (r : string) : In (v, r) (Time.dir_H s) -> took s v r.
Proof.
  unfold Time.dir_H. intros H. apply List.in_app_or in H as [H|H];
    [|apply List.in_app_or in H as [H|H]];
    eauto using in_two_digits, in_one_digit.
Qed.

Lemma dir_M_took (s : string) (v : Z) (r : string) : In (v, r) (Time.dir_M s) -> took s v r.
Proof.
  unfold Time.dir_M. intros H. apply List.in_app_or in H as [H|H];
    eauto using in_two_digits, in_one_digit.
Qed.

Lemma dir_S_took (s : string) (v : Z) (r : string) : In (v, r) (Time.dir_S s) -> took s v r.
Proof.
  unfold Time.dir_S. intros H. apply List.in_app_or in H as [H|H];
    [|apply List.in_app_or in H as [H|H]];
    eauto using in_two_digits, in_one_digit.
Qed.

Lemma in_literal (c : ascii) (s r : string) (u : unit) :
  In (u, r) (Time.literal c s) -> s = String c r.
Proof.
  unfold Time.literal. destruct s as [|c' s]; [intros []|].
  destruct (Ascii.eqb c c') eqn:E; [|intros []].
  apply Ascii.eqb_eq in E as <-. now intros [[= _ <-]|[]].
Qed.

Lemma in_bind {A B : Type} (p : Time.parser A) (k : A -> Time.parser B)
    (s : string) (b : B) (r : string) :
  In (b, r) (Time.bind p k s) <-> exists a r1, In (a, r1) (p s) /\ In (b, r) (k a r1).
Proof.
  unfold Time.bind. rewrite List.in_concat. split.
  - intros (l & I & J). apply List.in_map_iff in I as ([a r1] & <- & I). eauto.
  - intros (a & r1 & I & J). exists (k a r1). split; [|exact J].
    apply List.in_map_iff. exists (a, r1). auto.
Qed.

Lemma in_dir_Y (s : string) (v : Z) (r : string) :
  In (v, r) (Time.dir_Y s) ->
  exists c1 c2 c3 c4 a b c d,
    s = String c1 (String c2 (String c3 (String c4 r)))
    /\ PyFloat.digit_of c1 = Some a /\ PyFloat.digit_of c2 = Some b
    /\ PyFloat.digit_of c3 = Some c /\ PyFloat.digit_of c4 = Some d
    /\ v = 1000 * a + 100 * b + 10 * c + d.
Proof.
  unfold Time.dir_Y. destruct s as [|c1 [|c2 [|c3 [|c4 s]]]]; try (intros []).
  destruct (PyFloat.digit_of c1) as [a|] eqn:A; [|intros []].
  destruct (PyFloat.digit_of c2) as [b|] eqn:B; [|intros []].
  destruct (PyFloat.digit_of c3) as [c|] eqn:C; [|intros []].
  destruct (PyFloat.digit_of c4) as [d|] eqn:D; [|intros []].
  intros [[= <- <-]|[]]. exists c1, c2, c3, c4, a, b, c, d. auto 10.
Qed.

(** A timestamp of fixed width: eight characters, an underscore, six
    characters. *)
Definition stamp (y1 y2 y3 y4 m1 m2 d1 d2 h1 h2 n1 n2 s1 s2 : ascii) : string :=
  String y1 (String y2 (String y3 (String y4 (String m1 (String m2 (String d1 (String d2
  (String "_" (String h1 (String h2 (String n1 (String n2 (String s1 (String s2
  "")))))))))))))).

(** Uses the digit facts at hand: equal characters have equal values, and
    neither [_] nor a space nor the end of the string is a digit. *)
Ltac digits :=
  repeat match goal with
         | H : PyFloat.digit_of "_" = Some _ |- _ => discriminate H
         | H : PyFloat.digit_of " " = Some _ |- _ => discriminate H
         | H1 : PyFloat.digit_of ?c = Some ?a, H2 : PyFloat.digit_of ?c = Some ?b |- _ =>
             assert (b = a) by congruence; subst b; clear H2
         end.

Ltac took_cases H :=
  inversion H; subst; clear H; digits.

(** Of a fixed-width timestamp only one reading uses up the string: two
    digits for each field after the year. *)
Lemma in_matches_stamp (y1 y2 y3 y4 m1 m2 d1 d2 h1 h2 n1 n2 s1 s2 : ascii)
    (a1 a2 a3 a4 a5 a6 a7 a8 a9 a10 a11 a12 a13 a14 : Z) (t : datetime) :
  PyFloat.digit_of y1 = Some a1 -> PyFloat.digit_of y2 = Some a2 ->
  PyFloat.digit_of y3 = Some a3 -> PyFloat.digit_of y4 = Some a4 ->
  PyFloat.digit_of m1 = Some a5 -> PyFloat.digit_of m2 = Some a6 ->
  PyFloat.digit_of d1 = Some a7 -> PyFloat.digit_of d2 = Some a8 ->
  PyFloat.digit_of h1 = Some a9 -> PyFloat.digit_of h2 = Some a10 ->
  PyFloat.digit_of n1 = Some a11 -> PyFloat.digit_of n2 = Some a12 ->
  PyFloat.digit_of s1 = Some a13 -> PyFloat.digit_of s2 = Some a14 ->
  In (t, "") (Time.matches (stamp y1 y2 y3 y4 m1 m2 d1 d2 h1 h2 n1 n2 s1 s2)) ->
  t = Datetime (1000 * a1 + 100 * a2 + 10 * a3 + a4) (10 * a5 + a6) (10 * a7 + a8)
        (10 * a9 + a10) (10 * a11 + a12) (10 * a13 + a14).
Proof.
  intros Y1 Y2 Y3 Y4 M1 M2 D1 D2 H1 H2 N1 N2 S1 S2 I.
  unfold Time.matches, stamp in I.
  apply in_bind in I as (y & r1 & IY & I).
  apply in_dir_Y in IY as (? & ? & ? & ? & ? & ? & ? & ? & E & ? & ? & ? & ? & ->).
  injection E as <- <- <- <- <-. digits.
  apply in_bind in I as (m & r2 & IM & I). apply dir_m_took in IM.
  apply in_bind in I as (d & r3 & ID & I). apply dir_d_took in ID.
  apply in_bind in I as (u & r4 & IL & I).
  took_cases IM; took_cases ID; apply in_literal in IL;
    injection IL; intros; subst; digits.
  apply in_bind in I as (h & r5 & IH & I). apply dir_H_took in IH.
  apply in_bind in I as (mi & r6 & IN & I). apply dir_M_took in IN.
  apply in_bind in I as (sec & r7 & IS & I). apply dir_S_took in IS.
  destruct I as [[= <- E]|[]].
  took_cases IH; took_cases IN; took_cases IS; try discriminate E.
  reflexivity.
Qed.

(** [strptime] on a fixed-width timestamp reads the digit groups. *)
Lemma strptime_stamp (y1 y2 y3 y4 m1 m2 d1 d2 h1 h2 n1 n2 s1 s2 : ascii)
    (a1 a2 a3 a4 a5 a6 a7 a8 a9 a10 a11 a12 a13 a14 : Z) (t : datetime) :
  PyFloat.digit_of y1 = Some a1 -> PyFloat.digit_of y2 = Some a2 ->
  PyFloat.digit_of y3 = Some a3 -> PyFloat.digit_of y4 = Some a4 ->
  PyFloat.digit_of m1 = Some a5 -> PyFloat.digit_of m2 = Some a6 ->
  PyFloat.digit_of d1 = Some a7 -> PyFloat.digit_of d2 = Some a8 ->
  PyFloat.digit_of h1 = Some a9 -> PyFloat.digit_of h2 = Some a10 ->
  PyFloat.digit_of n1 = Some a11 -> PyFloat.digit_of n2 = Some a12 ->
  PyFloat.digit_of s1 = Some a13 -> PyFloat.digit_of s2 = Some a14 ->
  Time.strptime (stamp y1 y2 y3 y4 m1 m2 d1 d2 h1 h2 n1 n2 s1 s2) = Some t ->
  t = Datetime (1000 * a1 + 100 * a2 + 10 * a3 + a4) (10 * a5 + a6) (10 * a7 + a8)
        (10 * a9 + a10) (10 * a11 + a12) (10 * a13 + a14).
Proof.
  intros Y1 Y2 Y3 Y4 M1 M2 D1 D2 H1 H2 N1 N2 S1 S2 P.
  apply (in_matches_stamp y1 y2 y3 y4 m1 m2 d1 d2 h1 h2 n1 n2 s1 s2); try assumption.
  unfold Time.strptime in P.
  destruct (Time.matches _) as [|[t0 [|]] l]; try discriminate.
  destruct (Time.valid t0); [|discriminate]. injection P as ->. now left.
Qed.

(** *** Fixed-width timestamps and their order *)

Fixpoint all_digits (s : string) : bool :=
  match s with
  | EmptyString => true
  | String c s' => is_digit c && all_digits s'
  end.

(** [YYYYMMDD_HHMMSS]: eight digits, an underscore, six digits. *)
Definition fixed_width (ts : string) : bool :=
  (String.length ts =? 15)%nat
  && all_digits (substring 0 8 ts)
  && String.eqb (substring 8 1 ts) "_"
  && all_digits (substring 9 6 ts).

(** The value of a digit character. *)
Definition dval (c : ascii) : Z := default 0 (PyFloat.digit_of c).

Lemma is_digit_dval (c : ascii) : is_digit c = true -> PyFloat.digit_of c = Some (dval c).
Proof. unfold is_digit, dval. destruct (PyFloat.digit_of c); [reflexivity|discriminate]. Qed.

Lemma dval_range (c : ascii) : 0 <= dval c <= 9.
Proof.
  unfold dval. destruct (PyFloat.digit_of c) as [d|] eqn:E; cbn; [|lia].
  now apply digit_of_spec in E.
Qed.

Lemma fixed_width_stamp (ts : string) :
  fixed_width ts = true ->
  exists y1 y2 y3 y4 m1 m2 d1 d2 h1 h2 n1 n2 s1 s2,
    ts = stamp y1 y2 y3 y4 m1 m2 d1 d2 h1 h2 n1 n2 s1 s2
    /\ Forall (fun c => is_digit c = true) [y1; y2; y3; y4; m1; m2; d1; d2; h1; h2; n1; n2; s1; s2].
Proof.
  unfold fixed_width. intros H.
  apply andb_true_iff in H as [H D2]. apply andb_true_iff in H as [H U].
  apply andb_true_iff in H as [L D1]. apply Nat.eqb_eq in L.
  do 15 (destruct ts as [|? ts]; [discriminate L|]).
  destruct ts; [|discriminate L]. clear L.
  cbn in D1, U, D2.
  match type of U with
  | context [Ascii.eqb ?c "_"] =>
      destruct (Ascii.eqb_spec c "_") as [->|]; [clear U|discriminate U]
  end.
  repeat match goal with
         | H : _ && _ = true |- _ => apply andb_true_iff in H as [? H]
         end.
  do 14 eexists. split; [reflexivity|]. repeat constructor; assumption.
Qed.

(** Dates and times compare field by field, the year first. *)
Definition lex (c1 c2 : comparison) : comparison :=
  match c1 with
  | Eq => c2
  | _ => c1
  end.

Definition datetime_compare (a b : datetime) : comparison :=
  lex (year a ?= year b) (lex (month a ?= month b) (lex (day a ?= day b)
  (lex (hour a ?= hour b) (lex (minute a ?= minute b) (second a ?= second b))))).

Definition datetime_le (a b : datetime) : Prop := datetime_compare a b <> Gt.

Definition datetime_key (t : datetime) : Z :=
  ((((year t * 100 + month t) * 100 + day t) * 100 + hour t) * 100 + minute t) * 100
  + second t.

Definition two_digit_fields (t : datetime) : Prop :=
  0 <= month t < 100 /\ 0 <= day t < 100 /\ 0 <= hour t < 100
  /\ 0 <= minute t < 100 /\ 0 <= second t < 100.

Lemma datetime_le_key (a b : datetime) :
  two_digit_fields a -> two_digit_fields b ->
  datetime_key a <= datetime_key b -> datetime_le a b.
Proof.
  unfold two_digit_fields, datetime_key, datetime_le, datetime_compare.
  destruct a as [y m d h n s], b as [y' m' d' h' n' s']; cbn.
  intros (? & ? & ? & ? & ?) (? & ? & ? & ? & ?) K.
  destruct (Z.compare_spec y y'); cbn; [|discriminate|lia].
  destruct (Z.compare_spec m m'); cbn; [|discriminate|lia].
  destruct (Z.compare_spec d d'); cbn; [|discriminate|lia].
  destruct (Z.compare_spec h h'); cbn; [|discriminate|lia].
  destruct (Z.compare_spec n n'); cbn; [|discriminate|lia].
  destruct (Z.compare_spec s s'); cbn; [discriminate|discriminate|lia].
Qed.

(** The date and time a fixed-width timestamp denotes. *)
Definition stamp_time (y1 y2 y3 y4 m1 m2 d1 d2 h1 h2 n1 n2 s1 s2 : ascii) : datetime :=
  Datetime (1000 * dval y1 + 100 * dval y2 + 10 * dval y3 + dval y4)
    (10 * dval m1 + dval m2) (10 * dval d1 + dval d2)
    (10 * dval h1 + dval h2) (10 * dval n1 + dval n2) (10 * dval s1 + dval s2).

Ltac all_digit_facts :=
  repeat match goal with
         | H : Forall _ (_ :: _) |- _ => inversion H; subst; clear H
         | H : Forall _ [] |- _ => clear H
         | H : is_digit _ = true |- _ => apply is_digit_dval in H
         end.

Lemma strptime_stamp_time (y1 y2 y3 y4 m1 m2 d1 d2 h1 h2 n1 n2 s1 s2 : ascii) (t : datetime) :
  Forall (fun c => is_digit c = true) [y1; y2; y3; y4; m1; m2; d1; d2; h1; h2; n1; n2; s1; s2] ->
  Time.strptime (stamp y1 y2 y3 y4 m1 m2 d1 d2 h1 h2 n1 n2 s1 s2) = Some t ->
  t = stamp_time y1 y2 y3 y4 m1 m2 d1 d2 h1 h2 n1 n2 s1 s2.
Proof.
  intros F P. all_digit_facts.
  now apply (strptime_stamp y1 y2 y3 y4 m1 m2 d1 d2 h1 h2 n1 n2 s1 s2).
Qed.

(** Fixed-width timestamps in lexicographic order denote dates and times
    in chronological order. *)
Lemma stamp_order (y1 y2 y3 y4 m1 m2 d1 d2 h1 h2 n1 n2 s1 s2 : ascii)
    (y1' y2' y3' y4' m1' m2' d1' d2' h1' h2' n1' n2' s1' s2' : ascii) :
  Forall (fun c => is_digit c = true) [y1; y2; y3; y4; m1; m2; d1; d2; h1; h2; n1; n2; s1; s2] ->
  Forall (fun c => is_digit c = true)
    [y1'; y2'; y3'; y4'; m1'; m2'; d1'; d2'; h1'; h2'; n1'; n2'; s1'; s2'] ->
  String.compare (stamp y1 y2 y3 y4 m1 m2 d1 d2 h1 h2 n1 n2 s1 s2)
    (stamp y1' y2' y3' y4' m1' m2' d1' d2' h1' h2' n1' n2' s1' s2') <> Gt ->
  datetime_le (stamp_time y1 y2 y3 y4 m1 m2 d1 d2 h1 h2 n1 n2 s1 s2)
    (stamp_time y1' y2' y3' y4' m1' m2' d1' d2' h1' h2' n1' n2' s1' s2').
Proof.
  intros F F'. all_digit_facts. unfold stamp. cbn [String.compare].
  repeat match goal with
         | H1 : PyFloat.digit_of ?c = Some _, H2 : PyFloat.digit_of ?c' = Some _
           |- context [Ascii.compare ?c ?c'] =>
             rewrite (digit_compare c c' _ _ H1 H2)
         end.
  change (Ascii.compare "_" "_") with Eq. cbv iota.
  repeat match goal with
         | H : PyFloat.digit_of ?c = Some _ |- _ =>
             pose proof (dval_range c); clear H
         end.
  intros C. apply datetime_le_key; unfold two_digit_fields, stamp_time; cbn; try lia.
  revert C. unfold datetime_key; cbn.
  repeat match goal with
         | |- context [Z.compare ?a ?b] =>
             destruct (Z.compare_spec a b);
             [|intros _; lia|intros C; now destruct C]
         end.
  intros _. lia.
Qed.

Lemma string_compare_app_same_length (a b s : string) :
  String.length a = String.length b ->
  String.compare (a ++ s) (b ++ s) = String.compare a b.
Proof.
  revert b. induction a as [|x a IH]; intros [|y b] L; try discriminate L.
  - cbn. apply string_compare_refl.
  - cbn. injection L as L. rewrite (IH b L). reflexivity.
Qed.

(** The same for whole timestamps, as [strptime] reads them. *)
Lemma fixed_width_order (ts1 ts2 suffix : string) (t1 t2 : datetime) :
  fixed_width ts1 = true -> fixed_width ts2 = true ->
  Time.strptime ts1 = Some t1 -> Time.strptime ts2 = Some t2 ->
  String.compare (ts1 ++ suffix) (ts2 ++ suffix) <> Gt ->
  datetime_le t1 t2.
Proof.
  intros W1 W2 P1 P2 C.
  rewrite string_compare_app_same_length in C.
  2:{ unfold fixed_width in W1, W2.
      apply andb_true_iff in W1 as [W1 _]. apply andb_true_iff in W1 as [W1 _].
      apply andb_true_iff in W1 as [W1 _]. apply Nat.eqb_eq in W1.
      apply andb_true_iff in W2 as [W2 _]. apply andb_true_iff in W2 as [W2 _].
      apply andb_true_iff in W2 as [W2 _]. apply Nat.eqb_eq in W2. congruence. }
  apply fixed_width_stamp in W1 as (y1 & y2 & y3 & y4 & m1 & m2 & d1 & d2 & h1 & h2 & n1 & n2
                                    & s1 & s2 & -> & F1).
  apply fixed_width_stamp in W2 as (y1' & y2' & y3' & y4' & m1' & m2' & d1' & d2' & h1' & h2'
                                    & n1' & n2' & s1' & s2' & -> & F2).
  apply strptime_stamp_time in P1 as ->; [|exact F1].
  apply strptime_stamp_time in P2 as ->; [|exact F2].
  now apply stamp_order.
Qed.

(** *** Parsing the price *)

(** The number a string of digits denotes, continuing [acc]. *)
Fixpoint decimal (acc : Z) (s : string) : Z :=
  match s with
  | EmptyString => acc
  | String c s' => decimal (10 * acc + dval c) s'
  end.

Lemma decimal_app (acc : Z) (a b : string) : decimal acc (a ++ b) = decimal (decimal acc a) b.
Proof. revert acc. induction a as [|c a IH]; intros acc; cbn; [reflexivity|apply IH]. Qed.

(** Replacing leaves digits alone when the text sought starts with
    something else. *)
Lemma replace_digits (o : ascii) (old' new a rest : string) :
  is_digit o = false -> all_digits a = true ->
  PyStr.replace_from (String o old') new 0 (a ++ rest)
  = a ++ PyStr.replace_from (String o old') new 0 rest.
Proof.
  intros O. induction a as [|c a IH]; intros D; [reflexivity|].
  cbn [all_digits] in D. apply andb_true_iff in D as [C D].
  cbn [String.append PyStr.replace_from String.prefix].
  destruct (ascii_dec o c) as [->|_]; [congruence|]. now rewrite IH.
Qed.

Lemma replace_other (o c : ascii) (old' new s : string) :
  o <> c ->
  PyStr.replace_from (String o old') new 0 (String c s)
  = String c (PyStr.replace_from (String o old') new 0 s).
Proof.
  intros NE. cbn [PyStr.replace_from String.prefix].
  destruct (ascii_dec o c); [contradiction|reflexivity].
Qed.

Lemma read_sign_digit (c : ascii) (s : string) :
  is_digit c = true -> PyFloat.read_sign (String c s) = (false, String c s).
Proof.
  destruct c as [[] [] [] [] [] [] [] []]; try discriminate; reflexivity.
Qed.

Lemma read_digits_app (a rest : string) :
  all_digits a = true ->
  match rest with
  | String c _ => is_digit c = false
  | EmptyString => True
  end ->
  forall acc n,
    PyFloat.read_digits acc n (a ++ rest) = (decimal acc a, (n + String.length a)%nat, rest).
Proof.
  intros D R. induction a as [|c a IH]; intros acc n.
  - cbn [String.append decimal String.length]. rewrite Nat.add_0_r.
    destruct rest as [|c r]; [reflexivity|]. cbn [PyFloat.read_digits].
    unfold is_digit in R. destruct (PyFloat.digit_of c); [discriminate|reflexivity].
  - cbn [all_digits] in D. apply andb_true_iff in D as [C D].
    cbn [String.append PyFloat.read_digits decimal String.length].
    rewrite (is_digit_dval c C), IH by exact D. f_equal. f_equal. lia.
Qed.

(** [float] of digits, a point and digits is the double nearest to that
    decimal. *)
Lemma parse_decimal_digits (ip fp : string) :
  all_digits ip = true -> all_digits fp = true -> ip <> "" ->
  PyFloat.parse_decimal (ip ++ "." ++ fp)
  = Some (PyFloat.of_ratio false (decimal 0 (ip ++ fp))
            (Z.to_pos (10 ^ Z.of_nat (String.length fp)))).
Proof.
  intros DI DF NE. unfold PyFloat.parse_decimal.
  destruct ip as [|c ip]; [contradiction|].
  assert (C : is_digit c = true) by (cbn in DI; now apply andb_true_iff in DI as [? _]).
  cbn [String.append]. rewrite (read_sign_digit c _ C).
  change (String c (ip ++ String "." fp)) with (String c ip ++ String "." fp).
  rewrite (read_digits_app (String c ip) (String "." fp) DI eq_refl).
  rewrite <- (app_empty_r fp) at 1.
  rewrite (read_digits_app fp "" DF I). cbn [Nat.add String.length Nat.ltb Nat.leb].
  change (String c (ip ++ fp)) with (String c ip ++ fp).
  rewrite decimal_app. reflexivity.
Qed.

(** C7. A price string with a comma as decimal separator and the euro
    sign attached, with or without a space, is normalised to the plain
    decimal numeral and parsed as the double nearest to it; in particular
    ["12,34 €"] becomes ["12.34"] and parses as the float 12.34. *)
Theorem parse_price_comma_euro :
  (forall ip fp sep,
      all_digits ip = true -> all_digits fp = true -> ip <> "" ->
      sep = "" \/ sep = " " ->
      PyStr.replace "," "." (PyStr.replace " " "" (PyStr.replace "€" "" (ip ++ "," ++ fp ++ sep ++ "€")))
      = ip ++ "." ++ fp
      /\ parse_price (VStr (ip ++ "," ++ fp ++ sep ++ "€"))
         = Ok (PyFloat.of_ratio false (decimal 0 (ip ++ fp))
                 (Z.to_pos (10 ^ Z.of_nat (String.length fp)))))
  /\ PyStr.replace "," "." (PyStr.replace " " "" (PyStr.replace "€" "" "12,34 €")) = "12.34"
  /\ parse_price (VStr "12,34 €") = Ok 12.34%float.
Proof.
  split; [|split; vm_compute; reflexivity].
  intros ip fp sep DI DF NE SEP.
  assert (N : PyStr.replace "," "." (PyStr.replace " " "" (PyStr.replace "€" ""
                (ip ++ "," ++ fp ++ sep ++ "€"))) = ip ++ "." ++ fp).
  { unfold PyStr.replace.
    change "€" with (String "226" (String "130" (String "172" ""))).
    rewrite (replace_digits "226" _ "" ip _ eq_refl DI).
    cbn [String.append]. rewrite replace_other by discriminate.
    rewrite (replace_digits "226" _ "" fp _ eq_refl DF).
    assert (PyStr.replace_from (String "226" (String "130" (String "172" ""))) "" 0
              (sep ++ String "226" (String "130" (String "172" ""))) = sep) as ->
      by (destruct SEP as [-> | ->]; reflexivity).
    rewrite (replace_digits " " "" "" ip _ eq_refl DI).
    rewrite replace_other by discriminate.
    rewrite (replace_digits " " "" "" fp _ eq_refl DF).
    assert (PyStr.replace_from " " "" 0 sep = "") as ->
      by (destruct SEP as [-> | ->]; reflexivity).
    rewrite (replace_digits "," "" "." ip _ eq_refl DI).
    cbn [PyStr.replace_from String.prefix String.length Nat.sub].
    destruct (ascii_dec "," ","); [|contradiction].
    rewrite (replace_digits "," "" "." fp _ eq_refl DF).
    change (String.prefix "" (fp ++ "")) with (String.prefix "" ("" ++ fp ++ "")).
    rewrite prefix_app. cbn [PyStr.replace_from String.append].
    now rewrite app_empty_r. }
  split; [exact N|].
  unfold parse_price, py_float. rewrite N, (parse_decimal_digits ip fp DI DF NE). reflexivity.
Qed.

(** *** The history *)

(** The timestamp text [api_history] cuts out of a path. *)
Definition ts_str (path : string) : string :=
  PyStr.slice (PyStr.len SNAPSHOT_PREFIX) 5 (PyStr.basename path).

(** What the [try] body yields for a path. *)
Definition entry_of (st : state) (path : string) : result pyval :=
  fst (history_entry path st).

(** The rows of the paths whose [try] body succeeds, the warnings of the
    others, and the timestamps parsed for the rows. *)
Fixpoint history_rows (st : state) (paths : list string) : list pyval :=
  match paths with
  | [] => []
  | path :: paths' =>
      match entry_of st path with
      | Ok row => row :: history_rows st paths'
      | Raise _ => history_rows st paths'
      end
  end.

Fixpoint history_warnings (st : state) (paths : list string) : list log_line :=
  match paths with
  | [] => []
  | path :: paths' =>
      match entry_of st path with
      | Ok _ => history_warnings st paths'
      | Raise exc => WarnHistory path exc :: history_warnings st paths'
      end
  end.

Fixpoint history_times (st : state) (paths : list string) : list datetime :=
  match paths with
  | [] => []
  | path :: paths' =>
      match entry_of st path, Time.strptime (ts_str path) with
      | Ok _, Some t => t :: history_times st paths'
      | _, _ => history_times st paths'
      end
  end.

Definition with_stdout (st : state) (lines : list log_line) : state :=
  State (files st) (ticks st) (requests st) (stdout st ++ lines).

Lemma history_entry_state (path : string) (st : state) :
  snd (history_entry path st) = st.
Proof.
  unfold history_entry, bind, json_load, bind, read_text, lift, ret, raise.
  destruct (Fs.read (files st) path) as [text|]; [|reflexivity].
  destruct (json_loads text) as [data|]; [|reflexivity].
  destruct (Time.strptime _); [|reflexivity].
  destruct (Py.getitem data "grand_total"); reflexivity.
Qed.

(** A row comes from a readable file holding a JSON document with a
    [grand_total], under a name whose timestamp parses; it carries that
    timestamp, to the minute, and that field. *)
Lemma entry_of_ok (st : state) (path : string) (row : pyval) :
  entry_of st path = Ok row ->
  exists text data t grand_total,
    Fs.read (files st) path = Ok text /\ json_loads text = Some data
    /\ Time.strptime (ts_str path) = Some t
    /\ Py.getitem data "grand_total" = Ok grand_total
    /\ row = VDict [("ts", VStr (Time.strftime_minute t)); ("grand_total", grand_total)].
Proof.
  unfold entry_of, history_entry, bind, json_load, bind, read_text, lift, ret, raise.
  fold (ts_str path).
  destruct (Fs.read (files st) path) as [text|] eqn:R; [|discriminate].
  destruct (json_loads text) as [data|] eqn:J; [|discriminate].
  destruct (Time.strptime (ts_str path)) as [t|] eqn:P; [|discriminate].
  destruct (Py.getitem data "grand_total") as [g|] eqn:G; [|discriminate].
  cbn. intros [= <-]. exists text, data, t, g. repeat split; assumption.
Qed.

Lemma with_stdout_app (st : state) (l1 l2 : list log_line) :
  with_stdout (with_stdout st l1) l2 = with_stdout st (l1 ++ l2).
Proof. unfold with_stdout. cbn. now rewrite <- app_assoc. Qed.

Lemma entry_of_with_stdout (st : state) (lines : list log_line) (path : string) :
  entry_of (with_stdout st lines) path = entry_of st path.
Proof.
  unfold entry_of, history_entry, bind, json_load, bind, read_text, lift, ret, raise.
  cbn [files with_stdout].
  destruct (Fs.read (files st) path) as [text|]; [|reflexivity].
  destruct (json_loads text) as [data|]; [|reflexivity].
  destruct (Time.strptime _); [|reflexivity].
  destruct (Py.getitem data "grand_total"); reflexivity.
Qed.

Lemma history_rows_with_stdout (st : state) (lines : list log_line) (paths : list string) :
  history_rows (with_stdout st lines) paths = history_rows st paths.
Proof.
  induction paths as [|p paths IH]; cbn; [reflexivity|].
  rewrite entry_of_with_stdout, IH. reflexivity.
Qed.

Lemma history_warnings_with_stdout (st : state) (lines : list log_line) (paths : list string) :
  history_warnings (with_stdout st lines) paths = history_warnings st paths.
Proof.
  induction paths as [|p paths IH]; cbn; [reflexivity|].
  rewrite entry_of_with_stdout, IH. reflexivity.
Qed.

(** The loop never raises: it gathers the rows and prints the warnings. *)
Lemma history_loop_spec (paths : list string) :
  forall history st,
    history_loop paths history st
    = (Ok (history ++ history_rows st paths)%list, with_stdout st (history_warnings st paths)).
Proof.
  induction paths as [|path paths IH]; intros history st.
  - cbn. rewrite app_nil_r. unfold ret, with_stdout. rewrite app_nil_r. now destruct st.
  - cbn [history_loop history_rows history_warnings].
    unfold bind at 1, try_except, bind at 1. unfold entry_of.
    pose proof (history_entry_state path st) as S.
    destruct (history_entry path st) as [[row|exc] st1]; cbn in S; subst st1; cbn.
    + rewrite IH. rewrite <- app_assoc. reflexivity.
    + unfold bind, print, ret. cbn.
      change (State (files st) (ticks st) (requests st) (stdout st ++ [WarnHistory path exc]))
        with (with_stdout st [WarnHistory path exc]).
      rewrite IH, with_stdout_app, history_rows_with_stdout, history_warnings_with_stdout.
      reflexivity.
Qed.

Lemma api_history_spec (st : state) :
  let paths := sorted (Fs.glob SNAPSHOT_DIR SNAPSHOT_PREFIX SNAPSHOT_SUFFIX (files st)) in
  api_history st
  = (Ok (VDict [("history", VList (history_rows st paths))]),
     with_stdout st (history_warnings st paths)).
Proof.
  intros paths. unfold api_history, bind at 1, glob_snapshots. unfold bind at 1.
  fold paths. rewrite history_loop_spec. reflexivity.
Qed.

Lemma substring_all (s : string) (n : nat) :
  (String.length s <= n)%nat -> substring 0 n s = s.
Proof.
  revert n. induction s as [|c s IH]; intros [|n] L; cbn in *; try reflexivity; try lia.
  rewrite IH by lia. reflexivity.
Qed.

(** A path the pattern matches is the directory, ["/"], and a name without
    ["/"] made of the prefix, the timestamp text and the suffix. *)
Lemma path_matches_form (d pre suf p : string) :
  Fs.path_matches d pre suf p = true ->
  exists name,
    p = os_path_join d name /\ PyStr.contains_char "/" name = false
    /\ name = pre ++ PyStr.slice (PyStr.len pre) (PyStr.len suf) name ++ suf.
Proof.
  unfold Fs.path_matches, Fs.name_matches, PyStr.startswith. intros H.
  apply andb_true_iff in H as [P H]. apply prefix_inv in P as [r ->].
  replace (String.length d + 1)%nat with (String.length (d ++ "/")) in H
    by (rewrite len_app; reflexivity).
  rewrite substring_skip, substring_all in H by (rewrite len_app; lia).
  apply andb_true_iff in H as [H NS]. apply andb_true_iff in H as [H L].
  apply andb_true_iff in H as [P S]. apply Nat.leb_le in L.
  exists r. unfold os_path_join. rewrite app_assoc_str. split; [reflexivity|].
  split; [now apply negb_true_iff in NS|]. now apply name_split.
Qed.

Lemma path_matches_ts (p : string) :
  Fs.path_matches SNAPSHOT_DIR SNAPSHOT_PREFIX SNAPSHOT_SUFFIX p = true ->
  p = SNAPSHOT_DIR ++ "/" ++ SNAPSHOT_PREFIX ++ ts_str p ++ SNAPSHOT_SUFFIX.
Proof.
  intros H. apply path_matches_form in H as (name & -> & NS & N).
  unfold ts_str. rewrite basename_join by exact NS.
  unfold os_path_join. do 2 f_equal. exact N.
Qed.

(** Snapshot paths in lexicographic order, with fixed-width timestamps,
    carry timestamps in chronological order. *)
Lemma path_order_time (p1 p2 : string) (t1 t2 : datetime) :
  Fs.path_matches SNAPSHOT_DIR SNAPSHOT_PREFIX SNAPSHOT_SUFFIX p1 = true ->
  Fs.path_matches SNAPSHOT_DIR SNAPSHOT_PREFIX SNAPSHOT_SUFFIX p2 = true ->
  fixed_width (ts_str p1) = true -> fixed_width (ts_str p2) = true ->
  Time.strptime (ts_str p1) = Some t1 -> Time.strptime (ts_str p2) = Some t2 ->
  str_le p1 p2 -> datetime_le t1 t2.
Proof.
  intros M1 M2 W1 W2 P1 P2 L.
  apply (fixed_width_order (ts_str p1) (ts_str p2) SNAPSHOT_SUFFIX); try assumption.
  unfold str_le, String.leb in L.
  rewrite (path_matches_ts p1 M1), (path_matches_ts p2 M2) in L.
  rewrite !string_compare_app in L.
  intros C. rewrite C in L. discriminate.
Qed.

Lemma in_history_times (st : state) (paths : list string) (t : datetime) :
  In t (history_times st paths) ->
  exists path, In path paths /\ Time.strptime (ts_str path) = Some t.
Proof.
  induction paths as [|p paths IH]; cbn; [intros []|].
  destruct (entry_of st p); [destruct (Time.strptime (ts_str p)) as [t0|] eqn:E|].
  - intros [<-|I]; [eauto|]. destruct (IH I) as (q & ? & ?). eauto.
  - intros I. destruct (IH I) as (q & ? & ?). eauto.
  - intros I. destruct (IH I) as (q & ? & ?). eauto.
Qed.

Lemma history_times_sorted (st : state) (paths : list string) :
  StronglySorted str_le paths ->
  (forall path, In path paths ->
     Fs.path_matches SNAPSHOT_DIR SNAPSHOT_PREFIX SNAPSHOT_SUFFIX path = true
     /\ fixed_width (ts_str path) = true) ->
  StronglySorted datetime_le (history_times st paths).
Proof.
  induction 1 as [|p paths S IH F]; intros W; cbn; [constructor|].
  assert (T : StronglySorted datetime_le (history_times st paths))
    by (apply IH; intros q I; apply W; now right).
  destruct (entry_of st p); [|exact T].
  destruct (Time.strptime (ts_str p)) as [t|] eqn:P; [|exact T].
  constructor; [exact T|].
  apply List.Forall_forall. intros t' I.
  apply in_history_times in I as (q & I & Q).
  destruct (W p (or_introl eq_refl)) as [Mp Wp].
  destruct (W q (or_intror I)) as [Mq Wq].
  apply (path_order_time p q); try assumption.
  rewrite List.Forall_forall in F. now apply F.
Qed.



Lemma map_fst_fmap {A B : Type} (l : list (A * B)) : List.map fst l = l.*1.
Proof. induction l as [|x l IH]; cbn; [reflexivity|]. now rewrite IH. Qed.

(** [glob] finds every path of the directory that the pattern matches,
    each once. *)
Lemma glob_spec (d pre suf : string) (fs : gmap string node) (p : string) :
  In p (Fs.glob d pre suf fs)
  <-> fs !! d = Some Dir /\ is_Some (fs !! p) /\ Fs.path_matches d pre suf p = true.
Proof.
  unfold Fs.glob. split.
  - destruct (fs !! d) as [[| |]|]; try (intros []). intros I.
    apply List.filter_In in I as [I M]. rewrite map_fst_fmap in I.
    apply list_elem_of_In, list_elem_of_fmap in I as ([q n] & -> & I).
    apply elem_of_map_to_list in I. cbn. repeat split; eauto.
  - intros (-> & [n E] & M). apply List.filter_In. split; [|exact M].
    rewrite map_fst_fmap. apply list_elem_of_In, list_elem_of_fmap.
    exists (p, n). split; [reflexivity|]. now apply elem_of_map_to_list.
Qed.

Lemma nodup_list_filter {A : Type} (f : A -> bool) (l : list A) :
  NoDup l -> NoDup (List.filter f l).
Proof.
  induction 1 as [|x l N _ IH]; cbn; [constructor|].
  destruct (f x); [|exact IH]. constructor; [|exact IH].
  rewrite list_elem_of_In. intros I. apply List.filter_In in I as [I _].
  apply N. now apply list_elem_of_In.
Qed.

Lemma glob_nodup (d pre suf : string) (fs : gmap string node) :
  NoDup (Fs.glob d pre suf fs).
Proof.
  unfold Fs.glob. destruct (fs !! d) as [[| |]|]; try constructor.
  apply nodup_list_filter. rewrite map_fst_fmap. apply NoDup_fst_map_to_list.
Qed.


(** The names the model of the handler is stated for: a path made of
    ASCII characters only (a text of the model is then the Python string
    itself, and a digit of [strptime] one of [0] to [9]), and, where the
    name carries a timestamp, a year from 1000 on (which [strftime]
    writes with four digits on every platform). *)
Fixpoint ascii_only (s : string) : bool :=
  match s with
  | EmptyString => true
  | String c s' => (N_of_ascii c <? 128)%N && ascii_only s'
  end.

Definition year_from_1000 (path : string) : bool :=
  match Time.strptime (ts_str path) with
  | Some t => 1000 <=? year t
  | None => true
  end.

Definition plain_name (path : string) : bool :=
  ascii_only path && year_from_1000 path.




(** *** Writing a timestamp and reading it back *)

Ltac zbool :=
  repeat match goal with
         | H : _ && _ = true |- _ => apply andb_true_iff in H as [? ?]
         | H : _ && _ = false |- _ => apply andb_false_iff in H as [?|?]
         | H : negb _ = true |- _ => apply negb_true_iff in H
         | H : (_ =? _) = true |- _ => apply Z.eqb_eq in H
         | H : (_ =? _) = false |- _ => apply Z.eqb_neq in H
         | H : (_ <=? _) = true |- _ => apply Z.leb_le in H
         | H : (_ <=? _) = false |- _ => apply Z.leb_gt in H
         end.

Lemma range_forallb (f : Z -> bool) (n : Z) :
  forallb f (List.map Z.of_nat (seq 0 (Z.to_nat n))) = true ->
  forall z, 0 <= z < n -> f z = true.
Proof.
  intros H z R. rewrite List.forallb_forall in H. apply H.
  apply List.in_map_iff. exists (Z.to_nat z). split; [lia|].
  apply List.in_seq. lia.
Qed.

(** Whether [dec_pad 2 z] is the two digits of [z]. *)
Definition pad2_ok (z : Z) : bool :=
  match Time.dec_pad 2 z with
  | String c1 (String c2 EmptyString) =>
      match PyFloat.digit_of c1, PyFloat.digit_of c2 with
      | Some a, Some b => z =? 10 * a + b
      | _, _ => false
      end
  | _ => false
  end.

Definition pad4_ok (z : Z) : bool :=
  match Time.dec_pad 4 z with
  | String c1 (String c2 (String c3 (String c4 EmptyString))) =>
      match PyFloat.digit_of c1, PyFloat.digit_of c2,
            PyFloat.digit_of c3, PyFloat.digit_of c4 with
      | Some a, Some b, Some c, Some d => z =? 1000 * a + 100 * b + 10 * c + d
      | _, _, _, _ => false
      end
  | _ => false
  end.

Lemma dec_pad_2 (z : Z) :
  0 <= z <= 99 ->
  exists c1 c2 a b,
    Time.dec_pad 2 z = String c1 (String c2 "")
    /\ PyFloat.digit_of c1 = Some a /\ PyFloat.digit_of c2 = Some b /\ z = 10 * a + b.
Proof.
  intros R. assert (H : pad2_ok z = true).
  { apply (range_forallb pad2_ok 100); [vm_compute; reflexivity|lia]. }
  unfold pad2_ok in H.
  destruct (Time.dec_pad 2 z) as [|c1 [|c2 [|]]]; try discriminate.
  destruct (PyFloat.digit_of c1) as [a|] eqn:Ea; [|discriminate].
  destruct (PyFloat.digit_of c2) as [b|] eqn:Eb; [|discriminate].
  apply Z.eqb_eq in H. exists c1, c2, a, b. auto.
Qed.

Lemma dec_pad_4 (z : Z) :
  0 <= z <= 9999 ->
  exists c1 c2 c3 c4 a b c d,
    Time.dec_pad 4 z = String c1 (String c2 (String c3 (String c4 "")))
    /\ PyFloat.digit_of c1 = Some a /\ PyFloat.digit_of c2 = Some b
    /\ PyFloat.digit_of c3 = Some c /\ PyFloat.digit_of c4 = Some d
    /\ z = 1000 * a + 100 * b + 10 * c + d.
Proof.
  intros R. assert (H : pad4_ok z = true).
  { apply (range_forallb pad4_ok 10000); [vm_compute; reflexivity|lia]. }
  unfold pad4_ok in H.
  destruct (Time.dec_pad 4 z) as [|c1 [|c2 [|c3 [|c4 [|]]]]]; try discriminate.
  destruct (PyFloat.digit_of c1) as [a|] eqn:Ea; [|discriminate].
  destruct (PyFloat.digit_of c2) as [b|] eqn:Eb; [|discriminate].
  destruct (PyFloat.digit_of c3) as [c|] eqn:Ec; [|discriminate].
  destruct (PyFloat.digit_of c4) as [d|] eqn:Ed; [|discriminate].
  apply Z.eqb_eq in H. exists c1, c2, c3, c4, a, b, c, d. auto 10.
Qed.

Lemma two_digits_eq (ok : Z -> Z -> bool) (c1 c2 : ascii) (r : string) (a b : Z) :
  PyFloat.digit_of c1 = Some a -> PyFloat.digit_of c2 = Some b ->
  Time.two_digits ok (String c1 (String c2 r)) = if ok a b then [(10 * a + b, r)] else [].
Proof. intros H1 H2. unfold Time.two_digits. now rewrite H1, H2. Qed.

Lemma bind_head_eq {A B : Type} (p : Time.parser A) (k : A -> Time.parser B) (s : string)
    (a : A) (r : string) (tl : list (A * string)) (x : B * string) (tl2 : list (B * string)) :
  p s = (a, r) :: tl -> k a r = x :: tl2 ->
  Time.bind p k s = x :: (tl2 ++ List.concat (List.map (fun '(a, rest) => k a rest) tl))%list.
Proof.
  intros P K. unfold Time.bind. rewrite P. cbn. rewrite K. reflexivity.
Qed.

(** For a field in range, the preferred candidate is its two digits. *)
Section Heads.

Variables (c1 c2 : ascii) (r : string) (a b : Z).
Hypothesis A : PyFloat.digit_of c1 = Some a.
Hypothesis B : PyFloat.digit_of c2 = Some b.

Lemma dir_m_head :
  1 <= 10 * a + b <= 12 ->
  exists tl, Time.dir_m (String c1 (String c2 r)) = (10 * a + b, r) :: tl.
Proof.
  intros R. pose proof (digit_of_spec _ _ A) as [? _]. pose proof (digit_of_spec _ _ B) as [? _].
  unfold Time.dir_m. rewrite !(two_digits_eq _ c1 c2 r a b A B).
  destruct ((a =? 1) && (b <=? 2)) eqn:E1; [eexists; reflexivity|].
  destruct ((a =? 0) && (1 <=? b)) eqn:E2; [eexists; reflexivity|].
  exfalso. zbool; lia.
Qed.

Lemma dir_d_head :
  1 <= 10 * a + b <= 31 ->
  exists tl, Time.dir_d (String c1 (String c2 r)) = (10 * a + b, r) :: tl.
Proof.
  intros R. pose proof (digit_of_spec _ _ A) as [? _]. pose proof (digit_of_spec _ _ B) as [? _].
  unfold Time.dir_d. rewrite !(two_digits_eq _ c1 c2 r a b A B).
  destruct ((a =? 3) && (b <=? 1)) eqn:E1; [eexists; reflexivity|].
  destruct ((1 <=? a) && (a <=? 2)) eqn:E2; [eexists; reflexivity|].
  destruct ((a =? 0) && (1 <=? b)) eqn:E3; [eexists; reflexivity|].
  exfalso. zbool; lia.
Qed.

Lemma dir_H_head :
  0 <= 10 * a + b <= 23 ->
  exists tl, Time.dir_H (String c1 (String c2 r)) = (10 * a + b, r) :: tl.
Proof.
  intros R. pose proof (digit_of_spec _ _ A) as [? _]. pose proof (digit_of_spec _ _ B) as [? _].
  unfold Time.dir_H. rewrite !(two_digits_eq _ c1 c2 r a b A B).
  destruct ((a =? 2) && (b <=? 3)) eqn:E1; [eexists; reflexivity|].
  destruct (a <=? 1) eqn:E2; [eexists; reflexivity|].
  exfalso. zbool; lia.
Qed.

Lemma dir_M_head :
  0 <= 10 * a + b <= 59 ->
  exists tl, Time.dir_M (String c1 (String c2 r)) = (10 * a + b, r) :: tl.
Proof.
  intros R. pose proof (digit_of_spec _ _ A) as [? _]. pose proof (digit_of_spec _ _ B) as [? _].
  unfold Time.dir_M. rewrite !(two_digits_eq _ c1 c2 r a b A B).
  destruct (a <=? 5) eqn:E1; [eexists; reflexivity|].
  exfalso. zbool; lia.
Qed.

Lemma dir_S_head :
  0 <= 10 * a + b <= 59 ->
  exists tl, Time.dir_S (String c1 (String c2 r)) = (10 * a + b, r) :: tl.
Proof.
  intros R. pose proof (digit_of_spec _ _ A) as [? _]. pose proof (digit_of_spec _ _ B) as [? _].
  unfold Time.dir_S. rewrite !(two_digits_eq _ c1 c2 r a b A B).
  destruct ((a =? 6) && (b <=? 1)) eqn:E1; [exfalso; zbool; lia|].
  destruct (a <=? 5) eqn:E2; [eexists; reflexivity|].
  exfalso. zbool; lia.
Qed.

End Heads.

Lemma days_in_month_le (y m : Z) : Time.days_in_month y m <= 31.
Proof.
  unfold Time.days_in_month.
  destruct (m =? 2); [destruct (Time.is_leap y); lia|].
  destruct ((m =? 4) || (m =? 6) || (m =? 9) || (m =? 11)); lia.
Qed.

(** A valid date and time, written by [strftime] in the snapshot's format,
    is a fixed-width timestamp that [strptime] reads back. *)
Lemma strftime_strptime (t : datetime) :
  Time.valid t = true ->
  fixed_width (Time.strftime_file t) = true
  /\ Time.strptime (Time.strftime_file t) = Some t.
Proof.
  intros V. pose proof V as V0. unfold Time.valid in V. zbool.
  pose proof (days_in_month_le (year t) (month t)).
  destruct (dec_pad_4 (year t))
    as (y1 & y2 & y3 & y4 & a1 & a2 & a3 & a4 & EY & Y1 & Y2 & Y3 & Y4 & VY); [lia|].
  destruct (dec_pad_2 (month t)) as (m1 & m2 & a5 & a6 & EM & M1 & M2 & VM); [lia|].
  destruct (dec_pad_2 (day t)) as (d1 & d2 & a7 & a8 & ED & D1 & D2 & VD); [lia|].
  destruct (dec_pad_2 (hour t)) as (h1 & h2 & a9 & a10 & EH & DH1 & DH2 & VH); [lia|].
  destruct (dec_pad_2 (minute t)) as (n1 & n2 & a11 & a12 & EN & N1 & N2 & VN); [lia|].
  destruct (dec_pad_2 (second t)) as (s1 & s2 & a13 & a14 & ES & S1 & S2 & VS); [lia|].
  assert (E : Time.strftime_file t = stamp y1 y2 y3 y4 m1 m2 d1 d2 h1 h2 n1 n2 s1 s2).
  { unfold Time.strftime_file. rewrite EY, EM, ED, EH, EN, ES. reflexivity. }
  rewrite E. split.
  - unfold fixed_width, stamp. cbn. unfold is_digit.
    rewrite Y1, Y2, Y3, Y4, M1, M2, D1, D2, DH1, DH2, N1, N2, S1, S2. reflexivity.
  - assert (exists tl, Time.matches (stamp y1 y2 y3 y4 m1 m2 d1 d2 h1 h2 n1 n2 s1 s2)
                       = (t, "") :: tl) as [tl M].
    { destruct t as [y m d h n s]; cbn [year month day hour minute second] in *.
      subst y m d h n s.
      unfold Time.matches, stamp.
      set (rm := String d1 (String d2 (String "_" (String h1 (String h2 (String n1
                 (String n2 (String s1 (String s2 ""))))))))).
      set (rd := String "_" (String h1 (String h2 (String n1 (String n2 (String s1
                 (String s2 ""))))))).
      set (rh := String n1 (String n2 (String s1 (String s2 "")))).
      set (rn := String s1 (String s2 "")).
      destruct (dir_m_head m1 m2 rm a5 a6 M1 M2) as [tlm Em]; [lia|].
      destruct (dir_d_head d1 d2 rd a7 a8 D1 D2) as [tld Ed]; [lia|].
      destruct (dir_H_head h1 h2 rh a9 a10 DH1 DH2) as [tlh Eh]; [lia|].
      destruct (dir_M_head n1 n2 rn a11 a12 N1 N2) as [tln En]; [lia|].
      destruct (dir_S_head s1 s2 "" a13 a14 S1 S2) as [tls Es]; [lia|].
      eexists.
      eapply bind_head_eq; [unfold Time.dir_Y; rewrite Y1, Y2, Y3, Y4; reflexivity|].
      eapply bind_head_eq; [exact Em|].
      eapply bind_head_eq; [exact Ed|].
      eapply bind_head_eq; [reflexivity|].
      eapply bind_head_eq; [exact Eh|].
      eapply bind_head_eq; [exact En|].
      eapply bind_head_eq; [exact Es|].
      reflexivity. }
    unfold Time.strptime. rewrite M, V0. reflexivity.
Qed.

(** *** The path of a snapshot *)

Lemma fixed_width_noslash (ts : string) :
  fixed_width ts = true -> PyStr.contains_char "/" ts = false.
Proof.
  intros W. apply fixed_width_stamp in W
    as (y1 & y2 & y3 & y4 & m1 & m2 & d1 & d2 & h1 & h2 & n1 & n2 & s1 & s2 & -> & F).
  all_digit_facts. unfold stamp. cbn [PyStr.contains_char].
  repeat match goal with
         | H : PyFloat.digit_of ?c = Some _ |- context [Ascii.eqb "/" ?c] =>
             rewrite (digit_not c "/" _ H eq_refl)
         end.
  reflexivity.
Qed.

Section SnapshotPath.

Variable ts : string.
Hypothesis W : fixed_width ts = true.

Let name : string := SNAPSHOT_PREFIX ++ ts ++ SNAPSHOT_SUFFIX.
Let path : string := os_path_join SNAPSHOT_DIR name.

Lemma snapshot_name_noslash : PyStr.contains_char "/" name = false.
Proof.
  unfold name. rewrite !contains_char_app, (fixed_width_noslash ts W). reflexivity.
Qed.

Lemma snapshot_path_matches :
  Fs.path_matches SNAPSHOT_DIR SNAPSHOT_PREFIX SNAPSHOT_SUFFIX path = true.
Proof.
  unfold Fs.path_matches, path, os_path_join, PyStr.startswith.
  rewrite <- app_assoc_str, prefix_app. cbn [andb].
  replace (String.length SNAPSHOT_DIR + 1)%nat with (String.length (SNAPSHOT_DIR ++ "/"))
    by reflexivity.
  rewrite substring_skip, substring_all by (rewrite len_app; lia).
  unfold Fs.name_matches, PyStr.startswith. rewrite snapshot_name_noslash.
  unfold name. rewrite prefix_app. rewrite <- app_assoc_str, endswith_app.
  rewrite !len_app. cbn [andb negb]. rewrite andb_true_r. apply Nat.leb_le. lia.
Qed.

Lemma snapshot_path_ts : ts_str path = ts.
Proof.
  unfold ts_str, path. rewrite basename_join by exact snapshot_name_noslash.
  unfold name. apply (slice_app SNAPSHOT_PREFIX ts SNAPSHOT_SUFFIX).
Qed.

Lemma snapshot_path_dirname : Fs.dirname path = SNAPSHOT_DIR.
Proof.
  unfold Fs.dirname, path. rewrite basename_join by exact snapshot_name_noslash.
  unfold os_path_join. rewrite !len_app.
  replace (String.length SNAPSHOT_DIR + (String.length "/" + String.length name)
           - String.length name - 1)%nat
    with (String.length SNAPSHOT_DIR) by (cbn; lia).
  apply substring_take.
Qed.

Lemma snapshot_path_not_dir : path <> SNAPSHOT_DIR.
Proof.
  intros E. apply (f_equal String.length) in E. unfold path, os_path_join in E.
  rewrite !len_app in E. cbn in E. lia.
Qed.

End SnapshotPath.

(** *** Writes and crashes *)

(** The cache file as a crash during [_save_cache] can leave it: as it
    was, or holding the whole new document.  The temporary file takes the
    partial states. *)
Lemma save_cache_crash_safe (cache : pyval) (fs fs' : gmap string node) (done : list Fs.op) :
  Fs.interrupted (_save_cache_ops cache) done ->
  Fs.run done fs = Ok fs' ->
  fs' !! CACHE_FILE = fs !! CACHE_FILE
  \/ fs' !! CACHE_FILE = Some (File true (json_dumps cache)).
Proof.
  assert (NE : "price_cache.json.tmp" <> CACHE_FILE) by discriminate.
  unfold _save_cache_ops. cbn [String.append CACHE_FILE]. intros I.
  inversion I as [|p d n ops|o ops done1 I1]; subst; clear I.
  { cbn. intros [= <-]. now left. }
  cbn [Fs.run Fs.step].
  destruct (Fs.parent_ok fs "price_cache.json.tmp"); [|discriminate].
  set (fs1 := <["price_cache.json.tmp" := File true ""]> fs).
  assert (K1 : fs1 !! CACHE_FILE = fs !! CACHE_FILE)
    by (unfold fs1; now rewrite lookup_insert_ne).
  assert (T1 : fs1 !! "price_cache.json.tmp" = Some (File true ""))
    by (unfold fs1; now rewrite lookup_insert_eq).
  cut (Fs.run done1 fs1 = Ok fs' ->
       fs' !! CACHE_FILE = fs1 !! CACHE_FILE
       \/ fs' !! CACHE_FILE = Some (File true (json_dumps cache))).
  { rewrite K1. intros C.
    destruct (fs !! "price_cache.json.tmp") as [[[] c| |]|]; try discriminate; exact C. }
  clear K1. clearbody fs1. clear fs.
  inversion I1 as [|p d n ops|o ops done2 I2]; subst; clear I1.
  { cbn. intros [= <-]. now left. }
  { cbn. rewrite T1. intros [= <-]. left. now rewrite lookup_insert_ne. }
  cbn [Fs.run Fs.step]. rewrite T1.
  inversion I2 as [|p d n ops|o ops done3 I3]; subst; clear I2.
  { cbn. intros [= <-]. left. now rewrite lookup_insert_ne. }
  inversion I3; subst; clear I3.
  cbn [Fs.run Fs.step]. rewrite lookup_insert_eq, lookup_insert_ne by exact NE.
  destruct (fs1 !! CACHE_FILE) as [[w c| |]|] eqn:E; try discriminate;
    intros [= <-]; right; now rewrite lookup_insert_eq.
Qed.

(** C4. [_save_cache] writes a temporary file and renames it, so a crash
    leaves the cache file as it was or holding the whole new document,
    never a part of it.  The snapshot is written in place: wherever the
    write can start (the directory is there or can be made, the path is
    free or holds an older snapshot), a crash after [open] or inside the
    write leaves, under the snapshot's own name, an empty file or any
    beginning of the document. *)
Theorem snapshot_write_not_atomic (cache resp_data : pyval) :
  (forall fs fs' done,
      Fs.interrupted (_save_cache_ops cache) done -> Fs.run done fs = Ok fs' ->
      fs' !! CACHE_FILE = fs !! CACHE_FILE
      \/ fs' !! CACHE_FILE = Some (File true (json_dumps cache)))
  /\ (forall t n fs,
        Time.valid t = true ->
        let path := os_path_join SNAPSHOT_DIR (snapshot_filename t) in
        fs !! SNAPSHOT_DIR = None \/ fs !! SNAPSHOT_DIR = Some Dir ->
        fs !! path = None \/ (exists old, fs !! path = Some (File true old)) ->
        exists done fs',
          Fs.interrupted (snapshot_ops path resp_data) done
          /\ Fs.run done fs = Ok fs'
          /\ fs' !! path = Some (File true (substring 0 n (json_dumps resp_data)))).
Proof.
  split; [intros fs fs' done; apply save_cache_crash_safe|].
  intros t n fs V path D P.
  destruct (strftime_strptime t V) as [W _].
  pose proof (snapshot_path_dirname (Time.strftime_file t) W) as DN.
  pose proof (snapshot_path_not_dir (Time.strftime_file t)) as NE.
  fold (snapshot_filename t) in DN, NE. fold path in DN, NE.
  exists [Fs.OpMakedirs SNAPSHOT_DIR; Fs.OpOpenW path;
          Fs.OpWrite path (substring 0 n (json_dumps resp_data))].
  assert (exists fs1, Fs.step (Fs.OpMakedirs SNAPSHOT_DIR) fs = Ok fs1
                      /\ fs1 !! SNAPSHOT_DIR = Some Dir /\ fs1 !! path = fs !! path)
    as (fs1 & S1 & D1 & P1).
  { cbn [Fs.step]. destruct D as [D|D]; rewrite D.
    - eexists. split; [reflexivity|].
      now rewrite lookup_insert_eq, lookup_insert_ne by congruence.
    - eexists. split; [reflexivity|]. auto. }
  assert (S2 : Fs.step (Fs.OpOpenW path) fs1 = Ok (<[path := File true ""]> fs1)).
  { cbn [Fs.step]. unfold Fs.parent_ok. rewrite DN, D1. cbn [String.eqb SNAPSHOT_DIR].
    rewrite P1. destruct P as [-> | [old ->]]; reflexivity. }
  eexists. split; [repeat constructor|].
  cbn [Fs.run]. rewrite S1, S2. cbn [Fs.step]. rewrite lookup_insert_eq.
  split; [reflexivity|]. now rewrite lookup_insert_eq.
Qed.

(** *** Saving a snapshot and listing it *)

(** A field of a dict, [None] when it has none. *)
Definition field (k : string) (v : pyval) : pyval :=
  match v with
  | VDict d => default VNone (Py.assoc k d)
  | _ => VNone
  end.

(** The document a response was saved as: its items and its grand total. *)
Definition snapshot_doc (resp : pyval) : pyval :=
  VDict [("items", field "items" resp); ("grand_total", field "grand_total" resp)].

(** What a pass with [store=1] that returns has done: it saved
    [snapshot_doc resp] under the name made from the local time. *)
Lemma api_prices_store_inv (inv : list (string * Z)) (st st' : state) (resp : pyval) :
  api_prices_of inv (Some "1") st = (Ok resp, st') ->
  exists k fs1,
    let t := localtime k in
    field "filename" resp = VStr (snapshot_filename t)
    /\ Fs.run (snapshot_ops (os_path_join SNAPSHOT_DIR (snapshot_filename t)) (snapshot_doc resp))
         fs1 = Ok (files st').
Proof.
  unfold api_prices_of. unfold bind at 1. rewrite load_cache_cases.
  unfold bind at 1.
  destruct (price_loop inv _ [] 0%float st) as [[[[cache' items] g]|e] st1]; [|discriminate].
  unfold bind at 1. destruct (_save_cache cache' st1) as [[[]|e] st2]; [|discriminate].
  rewrite bool_decide_eq_true_2 by reflexivity.
  unfold bind at 1, time_local at 1. unfold bind at 1.
  match goal with
  | |- context [do_ops ?ops ?s] => destruct (do_ops ops s) as [[[]|e] st3] eqn:D
  end; [|discriminate].
  unfold ret. intros [= <- <-]. apply do_ops_inv in D as (fs' & R & ->).
  exists (ticks st2), (files st2). cbn. split; [reflexivity|exact R].
Qed.

(** After the snapshot's disk operations the directory exists and the file
    holds the whole document. *)
Lemma snapshot_ops_result (ts : string) (doc : pyval) (fs fs' : gmap string node) :
  fixed_width ts = true ->
  let path := os_path_join SNAPSHOT_DIR (SNAPSHOT_PREFIX ++ ts ++ SNAPSHOT_SUFFIX) in
  Fs.run (snapshot_ops path doc) fs = Ok fs' ->
  fs' !! SNAPSHOT_DIR = Some Dir /\ fs' !! path = Some (File true (json_dumps doc)).
Proof.
  intros W path. pose proof (snapshot_path_not_dir ts) as NE. fold path in NE.
  unfold snapshot_ops. cbn [Fs.run Fs.step].
  destruct (fs !! SNAPSHOT_DIR) as [[| |]|] eqn:D; try discriminate.
  - destruct (Fs.parent_ok fs path); [|discriminate].
    destruct (fs !! path) as [[[] c| |]|] eqn:P; try discriminate.
    + cbn [Fs.step]. rewrite lookup_insert_eq. intros [= <-].
      rewrite lookup_insert_eq, lookup_insert_ne, lookup_insert_ne by congruence. auto.
    + cbn [Fs.step]. rewrite lookup_insert_eq. intros [= <-].
      rewrite lookup_insert_eq, lookup_insert_ne, lookup_insert_ne by congruence. auto.
  - destruct (Fs.parent_ok _ path); [|discriminate].
    rewrite lookup_insert_ne by congruence.
    destruct (fs !! path) as [[[] c| |]|] eqn:P; try discriminate.
    + cbn [Fs.step]. rewrite lookup_insert_eq. intros [= <-].
      rewrite lookup_insert_eq, !lookup_insert_ne, lookup_insert_eq by congruence. auto.
    + cbn [Fs.step]. rewrite lookup_insert_eq. intros [= <-].
      rewrite lookup_insert_eq, !lookup_insert_ne, lookup_insert_eq by congruence. auto.
Qed.

Lemma history_rows_app (st : state) (l1 l2 : list string) :
  history_rows st (l1 ++ l2) = (history_rows st l1 ++ history_rows st l2)%list.
Proof.
  induction l1 as [|p l1 IH]; cbn; [reflexivity|].
  destruct (entry_of st p); cbn; now rewrite IH.
Qed.

Lemma getitem_field (k : string) (v x : pyval) : Py.getitem v k = Ok x -> field k v = x.
Proof.
  unfold Py.getitem, field. destruct v; try discriminate.
  destruct (Py.assoc k d); [|discriminate]. now intros [= ->].
Qed.

Lemma nodup_split (p : string) (l : list string) :
  NoDup l -> In p l ->
  exists before after, l = (before ++ p :: after)%list /\ ~ In p before /\ ~ In p after.
Proof.
  intros N I. apply list_elem_of_In, list_elem_of_split in I as (before & after & ->).
  exists before, after. split; [reflexivity|].
  apply NoDup_app in N as (_ & N1 & N2). apply NoDup_cons in N2 as [N2 _].
  split; rewrite <- list_elem_of_In.
  - intros I. apply (N1 p I). now left.
  - exact N2.
Qed.

(** C8. A pass with [store=1] that returns has saved a snapshot under the
    name made from the local time; listing the history right after yields
    exactly one row for that file (its path occurs once among the paths
    listed), stamped with that time to the minute and carrying the grand
    total of the response.  The clock is assumed to show valid dates and
    times, and the saved document to read back as written. *)
Theorem saved_snapshot_listed_once (inv : list (string * Z)) (st st' : state) (resp : pyval) :
  api_prices_of inv (Some "1") st = (Ok resp, st') ->
  (forall k, Time.valid (localtime k) = true) ->
  json_loads (json_dumps (snapshot_doc resp)) = Some (snapshot_doc resp) ->
  exists t before after,
    let path := os_path_join SNAPSHOT_DIR (snapshot_filename t) in
    let row := VDict [("ts", VStr (Time.strftime_minute t));
                      ("grand_total", field "grand_total" resp)] in
    field "filename" resp = VStr (snapshot_filename t)
    /\ (exists total, field "grand_total" resp = VFloat total)
    /\ sorted (Fs.glob SNAPSHOT_DIR SNAPSHOT_PREFIX SNAPSHOT_SUFFIX (files st'))
       = (before ++ path :: after)%list
    /\ ~ In path before /\ ~ In path after
    /\ entry_of st' path = Ok row
    /\ fst (api_history st')
       = Ok (VDict [("history",
                     VList (history_rows st' before ++ row :: history_rows st' after))]).
Proof.
  intros RUN V RT.
  destruct (api_prices_inv _ _ _ _ _ RUN) as (_ & _ & _ & g & _ & _ & _ & _ & G).
  apply getitem_field in G.
  apply api_prices_store_inv in RUN as (k & fs1 & F & R). cbv zeta in F, R.
  set (t := localtime k) in *. exists t.
  destruct (strftime_strptime t (V k)) as [W P].
  unfold snapshot_filename in R.
  apply (snapshot_ops_result (Time.strftime_file t)) in R as [D E]; [|exact W].
  fold (snapshot_filename t) in E.
  set (path := os_path_join SNAPSHOT_DIR (snapshot_filename t)) in *.
  set (found := Fs.glob SNAPSHOT_DIR SNAPSHOT_PREFIX SNAPSHOT_SUFFIX (files st')).
  destruct (sorted_spec found) as [_ PM].
  assert (I : In path (sorted found)).
  { apply list_elem_of_In. rewrite PM. apply list_elem_of_In. apply glob_spec.
    split; [exact D|]. split; [rewrite E; eauto|].
    apply (snapshot_path_matches (Time.strftime_file t) W). }
  assert (N : NoDup (sorted found)) by (rewrite PM; apply glob_nodup).
  destruct (nodup_split path (sorted found) N I) as (before & after & S & NB & NA).
  exists before, after. cbv zeta.
  assert (EO : entry_of st' path
               = Ok (VDict [("ts", VStr (Time.strftime_minute t));
                            ("grand_total", field "grand_total" resp)])).
  { unfold entry_of, history_entry, bind, json_load, bind, read_text, lift, ret, raise, Fs.read.
    rewrite E, RT. fold (ts_str path).
    unfold path, snapshot_filename.
    rewrite (snapshot_path_ts (Time.strftime_file t) W), P. reflexivity. }
  split; [exact F|]. split; [eauto|]. split; [exact S|].
  split; [exact NB|]. split; [exact NA|]. split; [exact EO|].
  rewrite api_history_spec. cbn [fst]. fold found. rewrite S.
  rewrite history_rows_app. cbn [history_rows]. rewrite EO. reflexivity.
Qed.

(** ** Further properties of the program *)

(** *** One call of [fetch_price_eur] *)

(** X1. A call of [fetch_price_eur] ends in one of four ways: the check of
    the cache raises; the cached price is returned; the upstream is asked
    once and its price is returned and stored; the upstream is asked once,
    fails, and [None] is returned with a warning.  In each it reads the
    clock once, never touches the disk, and sends no request but the one
    for the item. *)
Theorem fetch_price_eur_cases (item_name : string) (cache : pyval) (st : state) :
  let now := time_time (ticks st) in
  let url := price_url item_name in
  let run := fetch_price_eur item_name cache st in
  ((exists e, cached_price item_name cache now = Raise e /\ run = (Raise e, tick st))
   \/ (exists price,
         cached_price item_name cache now = Ok (Some price)
         /\ run = (Ok (price, cache), tick st))
   \/ (exists d price_eur,
         cache = VDict d /\ cached_price item_name cache now = Ok None
         /\ upstream item_name st = Ok price_eur
         /\ run = (Ok (VFloat price_eur,
                       VDict (Py.assoc_set item_name
                                (VDict [("price_eur", VFloat price_eur); ("ts", VFloat now)]) d)),
                   asked url st))
   \/ (exists e,
         cached_price item_name cache now = Ok None
         /\ upstream item_name st = Raise e
         /\ run = (Ok (VNone, cache),
                   State (files st) (S (ticks st)) (requests st ++ [url])
                     (stdout st ++ [WarnItem item_name e]))))
  /\ files (snd run) = files st
  /\ ticks (snd run) = S (ticks st)
  /\ (requests (snd run) = requests st \/ requests (snd run) = (requests st ++ [url])%list).
Proof.
  intros now url run. subst now url run.
  destruct (cached_price item_name cache (time_time (ticks st))) as [[price|]|e] eqn:H.
  - rewrite (fetch_hit _ _ _ _ H). split; [right; left; eauto|]. cbn. auto.
  - destruct (cached_price_dict _ _ _ _ H) as [d ->].
    destruct (upstream item_name st) as [p|e] eqn:U.
    + rewrite (fetch_miss_success _ _ _ _ H U).
      split; [right; right; left; exists d, p; auto|]. cbn. auto.
    + rewrite (fetch_miss_failure _ _ _ _ H U).
      split; [right; right; right; exists e; auto|]. cbn. auto.
  - rewrite (fetch_raise _ _ _ _ H). split; [left; eauto|]. cbn. auto.
Qed.

(** Lookup after assignment in a dict. *)
Lemma assoc_set_same (k : string) (v : pyval) (d : list (string * pyval)) :
  Py.assoc k (Py.assoc_set k v d) = Some v.
Proof.
  induction d as [|[k' v'] d IH]; cbn; [now rewrite String.eqb_refl|].
  destruct (String.eqb k k') eqn:E; cbn; [now rewrite String.eqb_refl|].
  now rewrite E.
Qed.

Lemma assoc_set_other (k k' : string) (v : pyval) (d : list (string * pyval)) :
  k' <> k -> Py.assoc k' (Py.assoc_set k v d) = Py.assoc k' d.
Proof.
  intros NE. induction d as [|[k0 v0] d IH]; cbn.
  - destruct (String.eqb_spec k' k); [contradiction|reflexivity].
  - destruct (String.eqb_spec k k0) as [->|N0]; cbn.
    + destruct (String.eqb_spec k' k0); [contradiction|reflexivity].
    + destruct (String.eqb k' k0); [reflexivity|exact IH].
Qed.

(** X2. A price fetched from the upstream is stored so that later lookups
    of the item are served from the cache for as long as the age stays
    below the TTL, and the lookup of every other item is answered as by
    the cache before. *)
Theorem fetched_price_is_cached (item_name : string) (d : list (string * pyval))
    (st : state) (price_eur : float) :
  cached_price item_name (VDict d) (time_time (ticks st)) = Ok None ->
  upstream item_name st = Ok price_eur ->
  exists cache' st',
    fetch_price_eur item_name (VDict d) st = (Ok (VFloat price_eur, cache'), st')
    /\ (forall now,
          PyFloat.lt_int (now - time_time (ticks st))%float CACHE_TTL = true ->
          cached_price item_name cache' now = Ok (Some (VFloat price_eur)))
    /\ (forall other now,
          other <> item_name ->
          cached_price other cache' now = cached_price other (VDict d) now).
Proof.
  intros H U. eexists _, _. split; [exact (fetch_miss_success _ _ _ _ H U)|]. split.
  - intros now L. unfold cached_price. cbn [Py.get]. rewrite assoc_set_same.
    cbn. rewrite L. reflexivity.
  - intros other now NE. unfold cached_price. cbn [Py.get].
    now rewrite assoc_set_other.
Qed.

(** *** Caches of the shape the program writes *)

(** An entry as [fetch_price_eur] stores it: a dict with a float under
    ["price_eur"] and a float under ["ts"]. *)
Definition well_formed_entry (v : pyval) : bool :=
  match v with
  | VDict e =>
      match Py.assoc "ts" e, Py.assoc "price_eur" e with
      | Some (VFloat _), Some (VFloat _) => true
      | _, _ => false
      end
  | _ => false
  end.

(** A cache all of whose entries have that shape. *)
Definition well_formed (cache : pyval) : bool :=
  match cache with
  | VDict d => forallb (fun kv => well_formed_entry (snd kv)) d
  | _ => false
  end.

(** A count the float multiplication can convert. *)
Definition count_ok (e : string * Z) : bool :=
  match PyFloat.of_int (snd e) with
  | Some _ => true
  | None => false
  end.

(** A price as the rows carry it: [None] or a float. *)
Definition price_shape (v : pyval) : bool :=
  match v with
  | VNone | VFloat _ => true
  | _ => false
  end.

(** The cache a pass starts from, given the disk. *)
Definition loaded_cache (st : state) : pyval :=
  match Fs.read (files st) CACHE_FILE with
  | Ok text => default (VDict []) (json_loads text)
  | Raise _ => VDict []
  end.

Lemma assoc_forallb (f : pyval -> bool) (k : string) (d : list (string * pyval)) (v : pyval) :
  forallb (fun kv => f (snd kv)) d = true -> Py.assoc k d = Some v -> f v = true.
Proof.
  induction d as [|[k' v'] d IH]; cbn; [discriminate|].
  intros H. apply andb_true_iff in H as [H1 H2].
  destruct (String.eqb k k'); [intros [= <-]; exact H1|auto].
Qed.

Lemma assoc_set_forallb (f : pyval -> bool) (k : string) (v : pyval)
    (d : list (string * pyval)) :
  forallb (fun kv => f (snd kv)) d = true -> f v = true ->
  forallb (fun kv => f (snd kv)) (Py.assoc_set k v d) = true.
Proof.
  intros H V. induction d as [|[k' v'] d IH]; cbn in *; [now rewrite V|].
  apply andb_true_iff in H as [H1 H2].
  destruct (String.eqb k k'); cbn; rewrite ?V, ?H1, ?H2; auto.
Qed.

(** On a well-formed cache the check of the cache does not raise, and a
    hit is a float. *)
Lemma cached_price_well_formed (item_name : string) (cache : pyval) (now : float) :
  well_formed cache = true ->
  cached_price item_name cache now = Ok None
  \/ exists p, cached_price item_name cache now = Ok (Some (VFloat p)).
Proof.
  destruct cache as [| | | | | |d]; try discriminate. cbn [well_formed]. intros W.
  unfold cached_price. cbn [Py.get].
  destruct (Py.assoc item_name d) as [v|] eqn:A; cbn [from_option id];
    [|left; reflexivity].
  pose proof (assoc_forallb well_formed_entry _ _ _ W A) as WE.
  destruct v as [| | | | | |e]; try discriminate. cbn [well_formed_entry] in WE.
  destruct e as [|kv e]; [discriminate|]. cbn [Py.truthy length Nat.eqb negb Py.getitem].
  destruct (Py.assoc "ts" (kv :: e)) as [[| | |ts| | |]|]; try discriminate.
  destruct (Py.assoc "price_eur" (kv :: e)) as [[| | |p| | |]|]; try discriminate.
  cbn [Py.float_sub Py.as_float].
  destruct (PyFloat.lt_int (now - ts) CACHE_TTL); [right; eauto|left; reflexivity].
Qed.

(** A call on a well-formed cache returns, with [None] or a float, and
    leaves the cache well-formed. *)
Lemma fetch_well_formed (item_name : string) (cache : pyval) (st : state) :
  well_formed cache = true ->
  exists price cache' st',
    fetch_price_eur item_name cache st = (Ok (price, cache'), st')
    /\ well_formed cache' = true /\ price_shape price = true.
Proof.
  intros W.
  destruct (cached_price_well_formed item_name cache (time_time (ticks st)) W) as [H|[p H]].
  - destruct (cached_price_dict _ _ _ _ H) as [d ->].
    destruct (upstream item_name st) as [p|e] eqn:U.
    + rewrite (fetch_miss_success _ _ _ _ H U). eexists _, _, _.
      split; [reflexivity|]. split; [|reflexivity].
      cbn [well_formed] in *. now apply assoc_set_forallb.
    + rewrite (fetch_miss_failure _ _ _ _ H U). eexists _, _, _.
      split; [reflexivity|]. split; [exact W|reflexivity].
  - rewrite (fetch_hit _ _ _ _ H). eexists _, _, _.
    split; [reflexivity|]. split; [exact W|reflexivity].
Qed.

Lemma price_loop_well_formed (inv : list (string * Z)) (cache : pyval)
    (items : list pyval) (grand_total : float) (st : state) :
  well_formed cache = true ->
  forallb count_ok inv = true ->
  exists cache' rows grand_total' st',
    price_loop inv cache items grand_total st
    = (Ok (cache', (items ++ rows)%list, grand_total'), st')
    /\ well_formed cache' = true
    /\ forallb (fun row => price_shape (row_price row)) rows = true.
Proof.
  revert cache items grand_total st.
  induction inv as [|[name count] inv IH]; intros cache items g st W C.
  - exists cache, [], g, st. rewrite app_nil_r. auto.
  - cbn [forallb] in C. apply andb_true_iff in C as [C1 C2].
    destruct (fetch_well_formed name cache st W) as (price & cache1 & st1 & F & W1 & P).
    cbn [price_loop]. unfold bind at 1. rewrite F. unfold bind at 1, lift at 1.
    unfold count_ok in C1. cbn [snd] in C1.
    destruct (PyFloat.of_int count) as [c|] eqn:OI; [|discriminate].
    assert (exists total, line_total price count = Ok total /\ price_shape total = true)
      as (total & LT & TS).
    { unfold line_total. destruct price; try discriminate; cbn.
      - eauto.
      - rewrite OI. cbn. eauto. }
    rewrite LT. unfold bind at 1, lift at 1.
    assert (exists g1, add_total g total = Ok g1) as (g1 & AT).
    { unfold add_total. destruct total; try discriminate; cbn; eauto. }
    rewrite AT.
    destruct (IH cache1 (items ++ [item_row name count price total])%list g1 st1 W1 C2)
      as (cache' & rows & g' & st' & L & W' & R).
    exists cache', (item_row name count price total :: rows), g', st'.
    rewrite L, <- app_assoc. split; [reflexivity|]. split; [exact W'|].
    cbn [forallb]. rewrite R. unfold row_price, item_row.
    destruct price; try discriminate; reflexivity.
Qed.

(** X3. From a cache of the shape the program writes, and with counts a
    float can hold, the loop over the inventory returns whatever the
    upstream answers: no lookup and no arithmetic raises, every price is
    [None] or a float, and the cache it ends with has that shape again. *)
Theorem well_formed_cache_loop_returns (inv : list (string * Z)) (cache : pyval)
    (items : list pyval) (grand_total : float) (st : state) :
  well_formed cache = true ->
  forallb count_ok inv = true ->
  exists cache' rows grand_total' st',
    price_loop inv cache items grand_total st
    = (Ok (cache', (items ++ rows)%list, grand_total'), st')
    /\ well_formed cache' = true
    /\ forallb (fun row => price_shape (row_price row)) rows = true.
Proof. apply price_loop_well_formed. Qed.

(** *** What a pass does to the world *)

(** The paths a disk operation names. *)
Definition op_paths (o : Fs.op) : list string :=
  match o with
  | Fs.OpMakedirs p | Fs.OpOpenW p | Fs.OpWrite p _ => [p]
  | Fs.OpReplace src dst => [src; dst]
  end.

(** A path that differs from each path of an operation is not among them. *)
Ltac not_in_paths :=
  cbn [op_paths In];
  let I := fresh "I" in
  intros I; repeat (destruct I as [I|I]; [congruence|]); contradiction.

Lemma step_raises (o : Fs.op) (fs : gmap string node) (e : exn) :
  Fs.step o fs = Raise e -> e = OSError.
Proof.
  destruct o as [p|p|p data|src dst]; cbn.
  - destruct (fs !! p) as [[| |]|]; congruence.
  - destruct (Fs.parent_ok fs p); [|congruence].
    destruct (fs !! p) as [[[]| |]|]; congruence.
  - destruct (fs !! p) as [[| |]|]; congruence.
  - destruct (fs !! src) as [[| |]|], (fs !! dst) as [[| |]|]; congruence.
Qed.

(** A step changes nothing at the paths it does not name. *)
Lemma step_frame (o : Fs.op) (fs fs' : gmap string node) (p : string) :
  Fs.step o fs = Ok fs' -> ~ In p (op_paths o) -> fs' !! p = fs !! p.
Proof.
  destruct o as [q|q|q data|src dst]; cbn; intros H N.
  - assert (q <> p) as NE by (intros E; apply N; now left).
    destruct (fs !! q) as [[| |]|]; try discriminate; injection H as <-;
      [reflexivity|]. now rewrite lookup_insert_ne.
  - assert (q <> p) as NE by (intros E; apply N; now left).
    destruct (Fs.parent_ok fs q); [|discriminate].
    destruct (fs !! q) as [[[]| |]|]; try discriminate; injection H as <-;
      now rewrite lookup_insert_ne.
  - assert (q <> p) as NE by (intros E; apply N; now left).
    destruct (fs !! q) as [[| |]|]; try discriminate; injection H as <-.
    now rewrite lookup_insert_ne.
  - assert (src <> p) as NE1 by (intros E; apply N; now left).
    assert (dst <> p) as NE2 by (intros E; apply N; right; now left).
    destruct (fs !! src) as [[| |]|], (fs !! dst) as [[| |]|]; try discriminate;
      injection H as <-; now rewrite lookup_insert_ne, lookup_delete_ne.
Qed.

(** No step removes or replaces a directory. *)
Lemma step_keeps_dir (o : Fs.op) (fs fs' : gmap string node) (p : string) :
  Fs.step o fs = Ok fs' -> fs !! p = Some Dir -> fs' !! p = Some Dir.
Proof.
  destruct o as [q|q|q data|src dst]; cbn; intros H D.
  - destruct (fs !! q) as [[| |]|] eqn:Q; try discriminate; injection H as <-;
      [exact D|]. rewrite lookup_insert_ne; [exact D|congruence].
  - destruct (Fs.parent_ok fs q); [|discriminate].
    destruct (fs !! q) as [[[]| |]|] eqn:Q; try discriminate; injection H as <-;
      (rewrite lookup_insert_ne; [exact D|congruence]).
  - destruct (fs !! q) as [[| |]|] eqn:Q; try discriminate; injection H as <-.
    rewrite lookup_insert_ne; [exact D|congruence].
  - destruct (fs !! src) as [[| |]|] eqn:S, (fs !! dst) as [[| |]|] eqn:T;
      try discriminate; injection H as <-;
      (rewrite lookup_insert_ne, lookup_delete_ne; [exact D|congruence|congruence]).
Qed.

(** Disk operations, however they end: only the disk changes, and only at
    the paths the operations name; directories stay; the only exception
    is [OSError]. *)
Lemma do_ops_effects (ops : list Fs.op) :
  forall st, exists fs',
    snd (do_ops ops st) = set_files fs' st
    /\ (fst (do_ops ops st) = Ok tt \/ fst (do_ops ops st) = Raise OSError)
    /\ (forall p, files st !! p = Some Dir -> fs' !! p = Some Dir)
    /\ (forall p, (forall o, In o ops -> ~ In p (op_paths o)) -> fs' !! p = files st !! p).
Proof.
  induction ops as [|o ops IH]; intros st.
  - exists (files st). cbn. split; [now destruct st|]. auto.
  - cbn [do_ops]. destruct (Fs.step o (files st)) as [fs1|e] eqn:S.
    + destruct (IH (set_files fs1 st)) as (fs' & E & R & D & F).
      exists fs'. split; [rewrite E; reflexivity|]. split; [exact R|]. split.
      * intros p H. apply D. cbn. eapply step_keeps_dir; eauto.
      * intros p N. rewrite F by (intros o' I; apply N; now right). cbn.
        eapply step_frame; [exact S|]. apply N. now left.
    + exists (files st). cbn. split; [now destruct st|].
      split; [right; f_equal; eapply step_raises; eauto|]. auto.
Qed.

(** The handler, step by step: the loop from the loaded cache, the save
    of the cache, and the snapshot when [store] is ["1"]. *)
Lemma api_prices_unfold (inv : list (string * Z)) (store : option string) (st : state) :
  api_prices_of inv store st
  = match price_loop inv (loaded_cache st) [] 0%float st with
    | (Raise e, st1) => (Raise e, st1)
    | (Ok (cache', items, grand_total), st1) =>
        match do_ops (_save_cache_ops cache') st1 with
        | (Raise e, st2) => (Raise e, st2)
        | (Ok _, st2) =>
            let resp_data :=
              [("items", VList items);
               ("grand_total", VFloat (PyFloat.round2 grand_total))] in
            if bool_decide (store = Some "1") then
              let filename := snapshot_filename (localtime (ticks st2)) in
              match do_ops (snapshot_ops (os_path_join SNAPSHOT_DIR filename)
                              (VDict resp_data)) (tick st2) with
              | (Raise e, st3) => (Raise e, st3)
              | (Ok _, st3) =>
                  (Ok (VDict (Py.assoc_set "filename" (VStr filename)
                                (Py.assoc_set "saved" (VBool true) resp_data))), st3)
              end
            else (Ok (VDict resp_data), st2)
        end
    end.
Proof.
  unfold api_prices_of. unfold bind at 1. rewrite load_cache_cases. fold (loaded_cache st).
  unfold bind at 1.
  destruct (price_loop inv (loaded_cache st) [] 0%float st) as [[[[cache' items] g]|e] st1];
    [|reflexivity].
  unfold bind at 1. unfold _save_cache.
  destruct (do_ops (_save_cache_ops cache') st1) as [[[]|e] st2]; [|reflexivity].
  destruct (bool_decide (store = Some "1")); [|reflexivity].
  unfold bind at 1, time_local at 1. unfold bind at 1. fold (tick st2).
  cbv zeta.
  destruct (do_ops _ (tick st2)) as [[[]|e] st3]; reflexivity.
Qed.

(** The loop, however it ends, leaves the disk alone and sends requests
    only for items of the inventory, in its order, at most one each. *)
Lemma price_loop_effects (inv : list (string * Z)) :
  forall cache items grand_total st,
    let run := price_loop inv cache items grand_total st in
    files (snd run) = files st
    /\ exists urls,
         requests (snd run) = (requests st ++ urls)%list
         /\ sublist urls (List.map (fun e => price_url (fst e)) inv).
Proof.
  induction inv as [|[name count] inv IH]; intros cache items g st; cbv zeta.
  - cbn. split; [reflexivity|]. exists []. rewrite app_nil_r. split; constructor.
  - cbn [price_loop]. unfold bind, lift.
    assert (files (snd (fetch_price_eur name cache st)) = files st
            /\ exists u, requests (snd (fetch_price_eur name cache st))
                         = (requests st ++ u)%list
                         /\ sublist u [price_url name]) as (FF & u & FR & FS).
    { destruct (cached_price name cache (time_time (ticks st))) as [[price|]|e] eqn:H.
      - rewrite (fetch_hit _ _ _ _ H). split; [reflexivity|].
        exists []. cbn. rewrite app_nil_r. split; [reflexivity|]. apply sublist_nil_l.
      - destruct (upstream name st) as [p|e] eqn:U.
        + destruct (cached_price_dict _ _ _ _ H) as [d ->].
          rewrite (fetch_miss_success _ _ _ _ H U). split; [reflexivity|].
          exists [price_url name]. split; reflexivity.
        + rewrite (fetch_miss_failure _ _ _ _ H U). split; [reflexivity|].
          exists [price_url name]. split; reflexivity.
      - rewrite (fetch_raise _ _ _ _ H). split; [reflexivity|].
        exists []. cbn. rewrite app_nil_r. split; [reflexivity|]. apply sublist_nil_l. }
    assert (sublist u (List.map (fun e => price_url (fst e)) ((name, count) :: inv)))
      as FS0.
    { cbn [List.map fst]. change (price_url name :: ?l) with ([price_url name] ++ l)%list.
      rewrite <- (app_nil_r u). apply sublist_app; [exact FS|apply sublist_nil_l]. }
    destruct (fetch_price_eur name cache st) as [[[price cache1]|e] st1]; cbn [snd] in *.
    + destruct (line_total price count) as [total|e]; cbn [snd].
      * destruct (add_total g total) as [g1|e]; cbn [snd].
        -- destruct (IH cache1 (items ++ [item_row name count price total])%list g1 st1)
             as (F & urls & R & S).
           split; [congruence|]. exists (u ++ urls)%list.
           rewrite R, FR, <- app_assoc. split; [reflexivity|].
           cbn [List.map fst].
           change (price_url name :: ?l) with ([price_url name] ++ l)%list.
           apply sublist_app; assumption.
        -- split; [exact FF|]. exists u. auto.
      * split; [exact FF|]. exists u. auto.
    + split; [exact FF|]. exists u. auto.
Qed.

(** X4. When the cache file is missing, unreadable, corrupt or holds a
    cache of the shape the program writes, a pass over the real inventory
    can fail only in its writes: the loop over the inventory returns
    whatever the upstream answers, and an exception that leaves the
    handler is the one raised by the save of the cache or, when a snapshot
    is asked for and the cache was saved, by the write of the snapshot. *)
Theorem well_formed_cache_pass_fails_only_in_writes (store : option string) (st : state) :
  well_formed (loaded_cache st) = true ->
  exists cache' items grand_total st1,
    price_loop INVENTORY (loaded_cache st) [] 0%float st
    = (Ok (cache', items, grand_total), st1)
    /\ forall e st',
         api_prices store st = (Raise e, st') ->
         _save_cache cache' st1 = (Raise e, st')
         \/ (store = Some "1"
             /\ exists st2,
                  _save_cache cache' st1 = (Ok tt, st2)
                  /\ do_ops
                       (snapshot_ops
                          (os_path_join SNAPSHOT_DIR
                             (snapshot_filename (localtime (ticks st2))))
                          (VDict [("items", VList items);
                                  ("grand_total", VFloat (PyFloat.round2 grand_total))]))
                       (tick st2)
                     = (Raise e, st')).
Proof.
  intros W. unfold api_prices. rewrite api_prices_unfold.
  destruct (price_loop_well_formed INVENTORY (loaded_cache st) [] 0%float st W)
    as (cache' & rows & g & st1 & L & _); [vm_compute; reflexivity|].
  cbn [app] in L. exists cache', rows, g, st1. split; [exact L|]. rewrite L.
  intros e st'. unfold _save_cache.
  destruct (do_ops (_save_cache_ops cache') st1) as [[[]|e2] st2] eqn:D1.
  - destruct (bool_decide (store = Some "1")) eqn:B; [|discriminate].
    apply bool_decide_eq_true_1 in B. cbv zeta.
    match goal with
    | |- context [do_ops ?ops ?s] => destruct (do_ops ops s) as [[[]|e3] st3] eqn:D2
    end; [discriminate|].
    intros [= <- <-]. right. split; [exact B|]. exists st2. split; [reflexivity|exact D2].
  - intros [= <- <-]. left. reflexivity.
Qed.

(** X5. A pass of the handler, however it ends, sends requests only for
    price URLs of inventory entries, in inventory order and at most one
    for each entry. *)
Theorem pass_requests_follow_inventory (inv : list (string * Z)) (store : option string)
    (st : state) :
  exists urls,
    requests (snd (api_prices_of inv store st)) = (requests st ++ urls)%list
    /\ sublist urls (List.map (fun e => price_url (fst e)) inv).
Proof.
  rewrite api_prices_unfold.
  destruct (price_loop_effects inv (loaded_cache st) [] 0%float st) as (_ & urls & R & S).
  exists urls. split; [|exact S].
  destruct (price_loop inv (loaded_cache st) [] 0%float st) as [[[[cache' items] g]|e] st1];
    cbn [snd] in *; [|exact R].
  destruct (do_ops_effects (_save_cache_ops cache') st1) as (fs2 & E2 & _).
  destruct (do_ops (_save_cache_ops cache') st1) as [[[]|e] st2]; cbn [snd] in *; subst st2;
    [|exact R].
  destruct (bool_decide (store = Some "1")); [|exact R]. cbv zeta.
  match goal with
  | |- context [do_ops ?ops ?s] =>
      destruct (do_ops_effects ops s) as (fs3 & E3 & _);
      destruct (do_ops ops s) as [[[]|e] st3]; cbn [snd] in *; subst st3
  end; exact R.
Qed.

(** The paths the save of the cache names. *)
Lemma save_cache_paths (cache : pyval) (p : string) :
  p <> CACHE_FILE ++ ".tmp" -> p <> CACHE_FILE ->
  forall o, In o (_save_cache_ops cache) -> ~ In p (op_paths o).
Proof.
  intros N1 N2 o I. unfold _save_cache_ops in I. cbv zeta in I.
  destruct I as [<-|[<-|[<-|[]]]]; not_in_paths.
Qed.

(** X6. A pass whose [store] argument is not exactly ["1"], however it
    ends, leaves every path of the disk as it was except the cache file
    and its temporary file: it writes no snapshot, and its response
    carries neither ["saved"] nor ["filename"]. *)
Theorem pass_without_store_writes_no_snapshot (inv : list (string * Z))
    (store : option string) (st : state) :
  store <> Some "1" ->
  (forall p, p <> CACHE_FILE ++ ".tmp" -> p <> CACHE_FILE ->
     files (snd (api_prices_of inv store st)) !! p = files st !! p)
  /\ (forall resp, fst (api_prices_of inv store st) = Ok resp ->
        field "saved" resp = VNone /\ field "filename" resp = VNone).
Proof.
  intros NS. rewrite api_prices_unfold.
  destruct (price_loop_effects inv (loaded_cache st) [] 0%float st) as (F & _).
  destruct (price_loop inv (loaded_cache st) [] 0%float st) as [[[[cache' items] g]|e] st1];
    cbn [snd] in *.
  - destruct (do_ops_effects (_save_cache_ops cache') st1) as (fs2 & E2 & _ & _ & F2).
    rewrite bool_decide_eq_false_2 by exact NS.
    destruct (do_ops (_save_cache_ops cache') st1) as [[[]|e] st2]; cbn [fst snd] in *;
      subst st2; cbn [files set_files].
    + split.
      * intros p N1 N2. rewrite F2 by (now apply save_cache_paths). now rewrite F.
      * intros resp [= <-]. split; reflexivity.
    + split; [|discriminate].
      intros p N1 N2. rewrite F2 by (now apply save_cache_paths). now rewrite F.
  - split; [|discriminate]. intros p _ _. now rewrite F.
Qed.

(** What [api_history] makes of a path depends on the disk at that path
    only. *)
Lemma entry_of_frame (st st' : state) (path : string) :
  files st' !! path = files st !! path -> entry_of st' path = entry_of st path.
Proof.
  intros E. unfold entry_of, history_entry, bind, json_load, bind, read_text, Fs.read.
  rewrite E. destruct (files st !! path) as [[w c| |]|]; try reflexivity.
  unfold ret, raise. destruct (json_loads c); [|reflexivity].
  destruct (Time.strptime _); [|reflexivity].
  unfold lift. destruct (Py.getitem _ _); reflexivity.
Qed.

(** A snapshot path is none of the cache's paths nor the directory. *)
Lemma snapshot_path_apart (p : string) :
  Fs.path_matches SNAPSHOT_DIR SNAPSHOT_PREFIX SNAPSHOT_SUFFIX p = true ->
  p <> CACHE_FILE ++ ".tmp" /\ p <> CACHE_FILE /\ p <> SNAPSHOT_DIR.
Proof.
  intros H. apply path_matches_form in H as (name & -> & _ & _).
  unfold os_path_join. repeat split; intros E; vm_compute in E; discriminate.
Qed.

(** X7. A pass that stores a snapshot, however it ends, deletes and
    changes no earlier snapshot under another name: every path the
    history listed before, other than the path the pass writes, is still
    listed afterwards and gives the same history row.  The path written is
    the one named in the response. *)
Theorem store_keeps_earlier_snapshots (inv : list (string * Z)) (st : state) :
  let run := api_prices_of inv (Some "1") st in
  let listed st := Fs.glob SNAPSHOT_DIR SNAPSHOT_PREFIX SNAPSHOT_SUFFIX (files st) in
  exists k,
    (forall resp, fst run = Ok resp ->
       field "filename" resp = VStr (snapshot_filename (localtime k)))
    /\ forall p,
         In p (listed st) ->
         p <> os_path_join SNAPSHOT_DIR (snapshot_filename (localtime k)) ->
         In p (listed (snd run))
         /\ files (snd run) !! p = files st !! p
         /\ entry_of (snd run) p = entry_of st p.
Proof.
  intros run listed. subst run listed. cbv beta.
  assert (forall k st',
            (forall p, files st !! p = Some Dir -> files st' !! p = Some Dir) ->
            (forall p, p <> CACHE_FILE ++ ".tmp" -> p <> CACHE_FILE -> p <> SNAPSHOT_DIR ->
               p <> os_path_join SNAPSHOT_DIR (snapshot_filename (localtime k)) ->
               files st' !! p = files st !! p) ->
            forall p,
              In p (Fs.glob SNAPSHOT_DIR SNAPSHOT_PREFIX SNAPSHOT_SUFFIX (files st)) ->
              p <> os_path_join SNAPSHOT_DIR (snapshot_filename (localtime k)) ->
              In p (Fs.glob SNAPSHOT_DIR SNAPSHOT_PREFIX SNAPSHOT_SUFFIX (files st'))
              /\ files st' !! p = files st !! p
              /\ entry_of st' p = entry_of st p) as KEEP.
  { intros k st' D F p I N. apply glob_spec in I as (DI & S & PM).
    destruct (snapshot_path_apart p PM) as (N1 & N2 & N3).
    pose proof (F p N1 N2 N3 N) as E. split; [|split].
    - apply glob_spec. split; [now apply D|]. split; [now rewrite E|exact PM].
    - exact E.
    - now apply entry_of_frame. }
  rewrite api_prices_unfold.
  destruct (price_loop_effects inv (loaded_cache st) [] 0%float st) as (F & _).
  destruct (price_loop inv (loaded_cache st) [] 0%float st) as [[[[cache' items] g]|e] st1];
    cbn [snd] in *.
  - destruct (do_ops_effects (_save_cache_ops cache') st1) as (fs2 & E2 & _ & D2 & F2).
    rewrite bool_decide_eq_true_2 by reflexivity. cbv zeta.
    destruct (do_ops (_save_cache_ops cache') st1) as [[[]|e] st2]; cbn [fst snd] in *;
      subst st2.
    + exists (ticks (set_files fs2 st1)).
      match goal with
      | |- context [do_ops ?ops ?s] =>
          destruct (do_ops_effects ops s) as (fs3 & E3 & _ & D3 & F3);
          destruct (do_ops ops s) as [[[]|e] st3]; cbn [fst snd] in *; subst st3
      end.
      * split; [intros resp [= <-]; reflexivity|].
        apply KEEP; cbn [files set_files tick] in *.
        -- intros p H. apply D3, D2. now rewrite F.
        -- intros p N1 N2 N3 N4. rewrite F3, F2, F; [reflexivity| |].
           ++ now apply save_cache_paths.
           ++ intros o [<-|[<-|[<-|[]]]]; not_in_paths.
      * split; [discriminate|].
        apply KEEP; cbn [files set_files tick] in *.
        -- intros p H. apply D3, D2. now rewrite F.
        -- intros p N1 N2 N3 N4. rewrite F3, F2, F; [reflexivity| |].
           ++ now apply save_cache_paths.
           ++ intros o [<-|[<-|[<-|[]]]]; not_in_paths.
    + exists 0%nat. split; [discriminate|].
      apply KEEP; cbn [files set_files] in *.
      * intros p H. apply D2. now rewrite F.
      * intros p N1 N2 _ _. rewrite F2, F; [reflexivity|]. now apply save_cache_paths.
  - exists 0%nat. split; [discriminate|].
    apply KEEP.
    + intros p H. now rewrite F.
    + intros p _ _ _ _. now rewrite F.
Qed.

(** *** The cache file across passes *)

(** X8. A cache that [_save_cache] has written is the cache
    [_load_cache] reads next, provided the JSON text of the cache parses
    back to it; the save leaves no temporary file behind and touches no
    other path. *)
Theorem save_then_load_cache (cache : pyval) (st st' : state) :
  _save_cache cache st = (Ok tt, st') ->
  json_loads (json_dumps cache) = Some cache ->
  _load_cache st' = (Ok cache, st')
  /\ files st' !! CACHE_FILE = Some (File true (json_dumps cache))
  /\ files st' !! (CACHE_FILE ++ ".tmp") = None
  /\ forall p, p <> CACHE_FILE ++ ".tmp" -> p <> CACHE_FILE ->
       files st' !! p = files st !! p.
Proof.
  intros S J. unfold _save_cache in S.
  destruct (do_ops_effects (_save_cache_ops cache) st) as (fs0 & E0 & _ & _ & F0).
  rewrite S in E0. cbn [snd] in E0.
  apply do_ops_inv in S as (fs' & R & ->).
  assert (fs' !! CACHE_FILE = Some (File true (json_dumps cache))
          /\ fs' !! (CACHE_FILE ++ ".tmp") = None) as [C T].
  { revert R. unfold _save_cache_ops. cbv zeta.
    assert (CACHE_FILE ++ ".tmp" <> CACHE_FILE) as NE
      by (intros E; vm_compute in E; discriminate).
    set (tmp := CACHE_FILE ++ ".tmp") in *. clearbody tmp.
    cbn [Fs.run Fs.step]. destruct (Fs.parent_ok (files st) tmp); [|discriminate].
    destruct (files st !! tmp) as [[[] c| |]|]; try discriminate;
      cbn [Fs.step]; rewrite lookup_insert_eq; cbn [Fs.step];
      rewrite lookup_insert_eq, !lookup_insert_ne by congruence;
      (destruct (files st !! CACHE_FILE) as [[| |]|]; try discriminate);
      intros [= <-];
      rewrite lookup_insert_eq, lookup_insert_ne, lookup_delete_eq by congruence;
      split; reflexivity. }
  split; [|split; [exact C|split; [exact T|]]].
  - rewrite load_cache_cases. cbn [files set_files]. unfold Fs.read. rewrite C, J.
    reflexivity.
  - intros p N1 N2. cbn [files set_files].
    assert (fs0 = fs') as <- by (now injection E0).
    apply F0. now apply save_cache_paths.
Qed.

(** X9. If the cache file holds JSON that is not an object, a pass over
    the real inventory raises [AttributeError] at its first lookup; the
    disk is left as it was, so every later pass fails the same way. *)
Theorem non_object_cache_fails_every_pass (store : option string) (st : state) :
  match loaded_cache st with VDict _ => false | _ => true end = true ->
  api_prices store st = (Raise AttributeError, tick st)
  /\ loaded_cache (tick st) = loaded_cache st.
Proof.
  intros H. split; [|reflexivity].
  unfold api_prices. rewrite api_prices_unfold. cbn [INVENTORY price_loop].
  unfold bind at 1.
  rewrite (fetch_raise _ _ _ AttributeError); [reflexivity|].
  unfold cached_price. destruct (loaded_cache st); try discriminate; reflexivity.
Qed.

(** *** Snapshot names and times *)

Lemma datetime_compare_eq (a b : datetime) : datetime_compare a b = Eq -> a = b.
Proof.
  destruct a as [y m d h n s], b as [y' m' d' h' n' s'].
  unfold datetime_compare. cbn [year month day hour minute second].
  destruct (Z.compare_spec y y'); try discriminate.
  destruct (Z.compare_spec m m'); try discriminate.
  destruct (Z.compare_spec d d'); try discriminate.
  destruct (Z.compare_spec h h'); try discriminate.
  destruct (Z.compare_spec n n'); try discriminate.
  destruct (Z.compare_spec s s'); try discriminate.
  intros _. congruence.
Qed.

Lemma datetime_le_antisym (a b : datetime) :
  datetime_le a b -> datetime_le b a -> a = b.
Proof.
  intros L1 L2. apply datetime_compare_eq.
  destruct a as [y m d h n s], b as [y' m' d' h' n' s'].
  unfold datetime_le, datetime_compare in *. cbn [year month day hour minute second] in *.
  destruct (Z.compare_spec y y'), (Z.compare_spec y' y); cbn [lex] in *;
    try congruence; try lia.
  destruct (Z.compare_spec m m'), (Z.compare_spec m' m); cbn [lex] in *;
    try congruence; try lia.
  destruct (Z.compare_spec d d'), (Z.compare_spec d' d); cbn [lex] in *;
    try congruence; try lia.
  destruct (Z.compare_spec h h'), (Z.compare_spec h' h); cbn [lex] in *;
    try congruence; try lia.
  destruct (Z.compare_spec n n'), (Z.compare_spec n' n); cbn [lex] in *;
    try congruence; try lia.
  destruct (Z.compare_spec s s'), (Z.compare_spec s' s); cbn [lex] in *;
    try congruence; try lia.
Qed.

(** The path [api_prices] writes a snapshot taken at [t] to. *)
Definition snapshot_path (t : datetime) : string :=
  os_path_join SNAPSHOT_DIR (snapshot_filename t).

(** The name written for a valid time is listed by the pattern and reads
    back as that time. *)
Lemma snapshot_path_time (t : datetime) :
  Time.valid t = true ->
  Fs.path_matches SNAPSHOT_DIR SNAPSHOT_PREFIX SNAPSHOT_SUFFIX (snapshot_path t) = true
  /\ fixed_width (ts_str (snapshot_path t)) = true
  /\ Time.strptime (ts_str (snapshot_path t)) = Some t.
Proof.
  intros V. destruct (strftime_strptime t V) as [W P].
  unfold snapshot_path, snapshot_filename.
  rewrite (snapshot_path_ts _ W). split; [exact (snapshot_path_matches _ W)|]. auto.
Qed.

(** X10. The file name [api_prices] gives a snapshot and the parse of it
    in [api_history] are inverse: the path written at a valid local time
    matches the pattern and its timestamp text parses to that time, so
    snapshots taken at different seconds get different paths (and two
    taken within the same second share one). *)
Theorem snapshot_name_round_trip (t1 t2 : datetime) :
  Time.valid t1 = true -> Time.valid t2 = true ->
  Fs.path_matches SNAPSHOT_DIR SNAPSHOT_PREFIX SNAPSHOT_SUFFIX (snapshot_path t1) = true
  /\ Time.strptime (ts_str (snapshot_path t1)) = Some t1
  /\ (snapshot_path t1 = snapshot_path t2 <-> t1 = t2).
Proof.
  intros V1 V2. destruct (snapshot_path_time t1 V1) as (M1 & _ & P1).
  destruct (snapshot_path_time t2 V2) as (_ & _ & P2).
  split; [exact M1|]. split; [exact P1|]. split; [|now intros ->].
  intros E. rewrite E in P1. congruence.
Qed.

(** X11. Snapshot paths written at valid local times sort by name exactly
    as their times sort: the path of [t1] is at most the path of [t2] in
    string order if and only if [t1] is not later than [t2]. *)
Theorem snapshot_paths_sort_by_time (t1 t2 : datetime) :
  Time.valid t1 = true -> Time.valid t2 = true ->
  (str_le (snapshot_path t1) (snapshot_path t2) <-> datetime_le t1 t2).
Proof.
  intros V1 V2. destruct (snapshot_path_time t1 V1) as (M1 & W1 & P1).
  destruct (snapshot_path_time t2 V2) as (M2 & W2 & P2).
  split.
  - intros L. exact (path_order_time _ _ _ _ M1 M2 W1 W2 P1 P2 L).
  - intros L. destruct (str_le_total (snapshot_path t1) (snapshot_path t2)) as [H|H];
      [exact H|].
    pose proof (path_order_time _ _ _ _ M2 M1 W2 W1 P2 P1 H) as L'.
    rewrite (datetime_le_antisym _ _ L L'). unfold str_le, String.leb.
    now rewrite string_compare_refl.
Qed.

(** *** The upstream answer *)

(** X12. Which part of the upstream answer gives the price.  A status
    from 400 to 599 is refused with [HTTPError] whatever the body holds.
    Otherwise, for a body that is a JSON object: a truthy [lowest_price]
    decides alone, whatever [median_price] holds (a non-empty string is
    parsed, also when it does not parse and the median would); a falsy
    [lowest_price] (missing, null, false, 0, 0.0, empty) hands the
    decision to [median_price], which is used when truthy and refused
    with [ValueError] when falsy too. *)
Theorem lowest_price_before_median (status : Z) (body : string) :
  (400 <= status < 600 -> price_of_response (Response status body) = Raise HTTPError)
  /\ (forall d,
        ~ 400 <= status < 600 ->
        json_loads body = Some (VDict d) ->
        let lowest := default VNone (Py.assoc "lowest_price" d) in
        let median := default VNone (Py.assoc "median_price" d) in
        (Py.truthy lowest = true ->
         price_of_response (Response status body) = parse_price lowest)
        /\ (Py.truthy lowest = false -> Py.truthy median = true ->
            price_of_response (Response status body) = parse_price median)
        /\ (Py.truthy lowest = false -> Py.truthy median = false ->
            price_of_response (Response status body) = Raise ValueError)
        /\ (Py.truthy lowest = false
            <-> Py.assoc "lowest_price" d = None
                \/ In lowest [VNone; VBool false; VInt 0; VStr ""; VList []; VDict []]
                \/ exists f, lowest = VFloat f /\ PrimFloat.eqb f 0 = true)
        /\ (forall s, lowest = VStr s -> s <> "" ->
            price_of_response (Response status body) = parse_price (VStr s))).
Proof.
  split.
  - intros R. unfold price_of_response.
    replace ((400 <=? status) && (status <? 600)) with true; [reflexivity|].
    symmetry. apply andb_true_iff. split; [apply Z.leb_le|apply Z.ltb_lt]; lia.
  - intros d R J lowest median.
    assert (price_of_response (Response status body)
            = if Py.truthy lowest then parse_price lowest
              else if Py.truthy median then parse_price median
                   else Raise ValueError) as E.
    { unfold price_of_response.
      replace ((400 <=? status) && (status <? 600)) with false.
      2:{ symmetry. apply andb_false_iff.
          destruct (Z.leb_spec 400 status); [right; apply Z.ltb_ge; lia|now left]. }
      rewrite J. cbn [Py.get]. fold lowest. fold median.
      destruct (Py.truthy lowest) eqn:TL; cbn [negb].
      - rewrite TL. reflexivity.
      - destruct (Py.truthy median); reflexivity. }
    split; [intros T; now rewrite E, T|].
    split; [intros T1 T2; now rewrite E, T1, T2|].
    split; [intros T1 T2; now rewrite E, T1, T2|].
    split.
    + split.
      * intros T. subst lowest.
        destruct (Py.assoc "lowest_price" d) as [v|]; [|now left]. right.
        cbn [from_option id] in *. destruct v as [|b|z|f|x|l|l]; cbn in T.
        -- left. now left.
        -- destruct b; [discriminate|]. left. right. now left.
        -- apply negb_false_iff, Z.eqb_eq in T as ->. left. do 2 right. now left.
        -- right. exists f. split; [reflexivity|]. now apply negb_false_iff in T.
        -- apply negb_false_iff, String.eqb_eq in T as ->. left. do 3 right. now left.
        -- destruct l; [|discriminate]. left. do 4 right. now left.
        -- destruct l; [|discriminate]. left. do 5 right. now left.
      * intros [N|[I|(f & F & Z)]].
        -- subst lowest. rewrite N. reflexivity.
        -- cbn [In] in I.
           destruct I as [<-|[<-|[<-|[<-|[<-|[<-|[]]]]]]]; reflexivity.
        -- rewrite F. cbn. now rewrite Z.
    + intros x L N. rewrite E, L. cbn [Py.truthy].
      destruct (String.eqb_spec x ""); [contradiction|reflexivity].
Qed.

(** *** The request URL *)

Lemma hex_digit_code (k : N) :
  (k < 16)%N -> N_of_ascii (Url.hex_digit k) = (if (k <? 10)%N then 48 + k else 55 + k)%N.
Proof.
  intros H. unfold Url.hex_digit. apply N_ascii_embedding.
  destruct (N.ltb_spec k 10); lia.
Qed.

Lemma hex_digit_unreserved (k : N) : (k < 16)%N -> Url.unreserved (Url.hex_digit k) = true.
Proof.
  intros H. unfold Url.unreserved. cbv zeta. rewrite (hex_digit_code k H).
  destruct (N.ltb_spec k 10).
  - replace ((48 <=? 48 + k) && (48 + k <=? 57))%N with true; [reflexivity|].
    symmetry. apply andb_true_iff. split; apply N.leb_le; lia.
  - replace ((48 <=? 55 + k) && (55 + k <=? 57))%N with false
      by (symmetry; apply andb_false_iff; right; apply N.leb_gt; lia).
    replace ((65 <=? 55 + k) && (55 + k <=? 90))%N with true; [reflexivity|].
    symmetry. apply andb_true_iff. split; apply N.leb_le; lia.
Qed.

Lemma hex_digit_inj (k k' : N) :
  (k < 16)%N -> (k' < 16)%N -> Url.hex_digit k = Url.hex_digit k' -> k = k'.
Proof.
  intros H H' E. apply (f_equal N_of_ascii) in E.
  rewrite !hex_digit_code in E by assumption.
  destruct (N.ltb_spec k 10), (N.ltb_spec k' 10); lia.
Qed.

Lemma ascii_code_split (c : ascii) :
  (N_of_ascii c / 16 < 16)%N /\ (N_of_ascii c mod 16 < 16)%N.
Proof.
  pose proof (N_ascii_bounded c). split.
  - apply N.Div0.div_lt_upper_bound. lia.
  - apply N.mod_lt. lia.
Qed.

(** Every character [quote] puts out is unreserved or ["%"]. *)
Lemma quote_chars (s : string) (c : ascii) :
  PyStr.contains_char c (Url.quote s) = true ->
  Url.unreserved c = true \/ c = "%"%char.
Proof.
  induction s as [|x s IH]; cbn [Url.quote PyStr.contains_char]; [discriminate|].
  destruct (ascii_code_split x) as [H1 H2].
  destruct (Url.unreserved x) eqn:U; cbv zeta; cbn [PyStr.contains_char]; intros H.
  - apply orb_true_iff in H as [H|H]; [|auto].
    apply Ascii.eqb_eq in H as ->. auto.
  - apply orb_true_iff in H as [H|H]; [apply Ascii.eqb_eq in H; auto|].
    apply orb_true_iff in H as [H|H];
      [apply Ascii.eqb_eq in H as ->; left; now apply hex_digit_unreserved|].
    apply orb_true_iff in H as [H|H];
      [apply Ascii.eqb_eq in H as ->; left; now apply hex_digit_unreserved|].
    auto.
Qed.

Lemma quote_inj (a : string) : forall b, Url.quote a = Url.quote b -> a = b.
Proof.
  induction a as [|x a IH]; intros [|y b]; cbn [Url.quote].
  - reflexivity.
  - destruct (Url.unreserved y); discriminate.
  - destruct (Url.unreserved x); discriminate.
  - destruct (ascii_code_split x) as [X1 X2], (ascii_code_split y) as [Y1 Y2].
    destruct (Url.unreserved x) eqn:UX, (Url.unreserved y) eqn:UY; cbv zeta.
    + intros [= -> E]. f_equal. auto.
    + intros [= -> _]. discriminate UX.
    + intros [= <- _]. discriminate UY.
    + intros [= E1 E2 E]. f_equal; [|auto].
      apply hex_digit_inj in E1, E2; try assumption.
      rewrite <- (ascii_N_embedding x), <- (ascii_N_embedding y). f_equal.
      rewrite (N.div_mod' (N_of_ascii x) 16), (N.div_mod' (N_of_ascii y) 16). congruence.
Qed.

(** X13. The URL asked for an item is the fixed query followed by the
    quoted name: the name contributes only unreserved characters and
    percent escapes, so it cannot add a parameter or a fragment to the
    query, and different item names are asked under different URLs. *)
Theorem price_url_safe_and_injective (item_name other : string) :
  (exists q,
     price_url item_name
     = "https://steamcommunity.com/market/priceoverview/"
       ++ "?currency=3&appid=730&market_hash_name=" ++ q
     /\ PyStr.contains_char "&" q = false /\ PyStr.contains_char "=" q = false
     /\ PyStr.contains_char "#" q = false /\ PyStr.contains_char "?" q = false
     /\ PyStr.contains_char " " q = false /\ PyStr.contains_char "+" q = false)
  /\ (price_url item_name = price_url other <-> item_name = other).
Proof.
  split.
  - exists (Url.quote item_name). split; [reflexivity|].
    assert (forall c, Url.unreserved c = false -> c <> "%"%char ->
                      PyStr.contains_char c (Url.quote item_name) = false) as N.
    { intros c U P. destruct (PyStr.contains_char c (Url.quote item_name)) eqn:C;
        [|reflexivity].
      apply quote_chars in C as [C|C]; congruence. }
    repeat split; apply N; (reflexivity || discriminate).
  - split; [|now intros ->]. unfold price_url. intros E.
    apply app_inv_head_str, app_inv_head_str in E. now apply quote_inj.
Qed.

(** *** The history endpoint *)

(** X14. For snapshot files with plain names the loop of [api_history]
    never raises: it changes no file, reads no clock and sends no request,
    gives each listed file one row or one printed warning, so rows and
    warnings together are as many as the files the pattern lists, and it
    gathers the same rows when run again on the state it leaves. *)
Theorem history_loop_total_and_read_only (st : state) :
  let found := Fs.glob SNAPSHOT_DIR SNAPSHOT_PREFIX SNAPSHOT_SUFFIX (files st) in
  (forall p, In p found -> plain_name p = true) ->
  exists rows warnings,
    history_loop (sorted found) [] st = (Ok rows, with_stdout st warnings)
    /\ (length rows + length warnings = length found)%nat
    /\ fst (history_loop (sorted found) [] (with_stdout st warnings)) = Ok rows.
Proof.
  intros found _. set (paths := sorted found).
  exists (history_rows st paths), (history_warnings st paths).
  split; [apply (history_loop_spec paths [] st)|]. split.
  - rewrite <- (Permutation_length (merge_sort_Permutation str_le found)).
    fold (sorted found). fold paths. clearbody paths.
    induction paths as [|p paths IH]; cbn [history_rows history_warnings length];
      [reflexivity|].
    destruct (entry_of st p); cbn [length]; lia.
  - rewrite history_loop_spec. cbn [fst app].
    now rewrite history_rows_with_stdout.
Qed.

(** X15. Without a snapshot directory (nothing stored yet, or the name
    taken by a file) the history is empty and nothing is printed. *)
Theorem history_empty_without_directory (st : state) :
  files st !! SNAPSHOT_DIR <> Some Dir ->
  api_history st = (Ok (VDict [("history", VList [])]), st).
Proof.
  intros H. rewrite api_history_spec. unfold Fs.glob.
  destruct (files st !! SNAPSHOT_DIR) as [[| |]|]; try contradiction;
    cbn; unfold with_stdout; rewrite app_nil_r; now destruct st.
Qed.

(** *** Entries of the cache through a pass *)

Lemma fetch_cache_entries (name : string) (cache : pyval) (st : state)
    (price cache1 : pyval) (st1 : state) :
  fetch_price_eur name cache st = (Ok (price, cache1), st1) ->
  forall k,
    (k <> name -> Py.getitem cache1 k = Py.getitem cache k)
    /\ ((exists v, Py.getitem cache k = Ok v) -> exists v, Py.getitem cache1 k = Ok v).
Proof.
  intros F k.
  destruct (cached_price name cache (time_time (ticks st))) as [[p|]|e] eqn:H.
  - rewrite (fetch_hit _ _ _ _ H) in F. injection F as <- <- <-. auto.
  - destruct (cached_price_dict _ _ _ _ H) as [d ->].
    destruct (upstream name st) as [p|e] eqn:U.
    + rewrite (fetch_miss_success _ _ _ _ H U) in F. injection F as <- <- <-.
      cbn [Py.getitem]. split.
      * intros NE. now rewrite assoc_set_other.
      * intros [v E]. destruct (String.eqb_spec k name) as [->|NE].
        -- rewrite assoc_set_same. eauto.
        -- rewrite assoc_set_other by exact NE. eauto.
    + rewrite (fetch_miss_failure _ _ _ _ H U) in F. injection F as <- <- <-. auto.
  - rewrite (fetch_raise _ _ _ _ H) in F. discriminate.
Qed.

(** X16. A pass only adds to the cache and refreshes the entries of its
    own items: in the cache the loop ends with, the entry of every name
    outside the inventory is the one it started with, and no key that was
    present has gone. *)
Theorem pass_keeps_cache_entries (inv : list (string * Z)) (cache : pyval)
    (items : list pyval) (grand_total : float) (st : state)
    (cache' : pyval) (items' : list pyval) (grand_total' : float) (st' : state) :
  price_loop inv cache items grand_total st = (Ok (cache', items', grand_total'), st') ->
  forall k,
    (~ In k (List.map fst inv) -> Py.getitem cache' k = Py.getitem cache k)
    /\ ((exists v, Py.getitem cache k = Ok v) -> exists v, Py.getitem cache' k = Ok v).
Proof.
  revert cache items grand_total st.
  induction inv as [|[name count] inv IH]; intros cache items g st H k.
  - cbn in H. injection H as <- <- <- <-. auto.
  - cbn [price_loop] in H. unfold bind at 1 in H.
    destruct (fetch_price_eur name cache st) as [[[price cache1]|e] st1] eqn:F;
      [|discriminate].
    unfold bind at 1, lift at 1 in H.
    destruct (line_total price count) as [total|e]; [|discriminate].
    unfold bind at 1, lift at 1 in H.
    destruct (add_total g total) as [g1|e]; [|discriminate].
    destruct (IH _ _ _ _ H k) as [I1 I2].
    destruct (fetch_cache_entries _ _ _ _ _ _ F k) as [F1 F2].
    split.
    + intros N. cbn [List.map fst In] in N.
      rewrite I1 by (intros I; apply N; now right).
      rewrite F1 by (intros ->; apply N; now left). reflexivity.
    + intros E. auto.
Qed.

(** X17. When the temporary file of the cache cannot be opened for
    writing, no pass returns a response: it raises, after the lookups, and
    leaves the disk as it was, without cache update and without snapshot. *)
Theorem unwritable_cache_fails_pass (inv : list (string * Z)) (store : option string)
    (st : state) :
  Fs.step (Fs.OpOpenW (CACHE_FILE ++ ".tmp")) (files st) = Raise OSError ->
  exists e st',
    api_prices_of inv store st = (Raise e, st') /\ files st' = files st.
Proof.
  intros H. rewrite api_prices_unfold.
  destruct (price_loop_effects inv (loaded_cache st) [] 0%float st) as (F & _).
  destruct (price_loop inv (loaded_cache st) [] 0%float st) as [[[[cache' items] g]|e] st1];
    cbn [snd] in F; [|eauto].
  unfold _save_cache_ops. cbv zeta. cbn [do_ops]. rewrite F, H. eauto.
Qed.

(** *** The time a history row shows *)

(** The text [YYYY-MM-DD HH:MM] of the given digits. *)
Definition minute_text (y1 y2 y3 y4 m1 m2 d1 d2 h1 h2 n1 n2 : ascii) : string :=
  String y1 (String y2 (String y3 (String y4 (String "-" (String m1 (String m2
  (String "-" (String d1 (String d2 (String " " (String h1 (String h2
  (String ":" (String n1 (String n2 ""))))))))))))))).

Lemma digit_of_inj (c c' : ascii) (d : Z) :
  PyFloat.digit_of c = Some d -> PyFloat.digit_of c' = Some d -> c = c'.
Proof.
  intros H H'. apply digit_of_spec in H as [_ H], H' as [_ H'].
  rewrite <- (ascii_N_embedding c), <- (ascii_N_embedding c'). f_equal. lia.
Qed.

Lemma dec_pad_2_digits (c1 c2 : ascii) :
  is_digit c1 = true -> is_digit c2 = true ->
  Time.dec_pad 2 (10 * dval c1 + dval c2) = String c1 (String c2 "").
Proof.
  intros D1 D2. apply is_digit_dval in D1, D2.
  pose proof (dval_range c1). pose proof (dval_range c2).
  destruct (dec_pad_2 (10 * dval c1 + dval c2)) as (x1 & x2 & a & b & E & A & B & V);
    [lia|].
  pose proof (digit_of_spec _ _ A) as [RA _]. pose proof (digit_of_spec _ _ B) as [RB _].
  assert (a = dval c1) as -> by lia. assert (b = dval c2) as -> by lia.
  rewrite E, (digit_of_inj _ _ _ A D1), (digit_of_inj _ _ _ B D2). reflexivity.
Qed.

Lemma dec_pad_4_digits (c1 c2 c3 c4 : ascii) :
  is_digit c1 = true -> is_digit c2 = true -> is_digit c3 = true -> is_digit c4 = true ->
  Time.dec_pad 4 (1000 * dval c1 + 100 * dval c2 + 10 * dval c3 + dval c4)
  = String c1 (String c2 (String c3 (String c4 ""))).
Proof.
  intros D1 D2 D3 D4. apply is_digit_dval in D1, D2, D3, D4.
  pose proof (dval_range c1). pose proof (dval_range c2).
  pose proof (dval_range c3). pose proof (dval_range c4).
  destruct (dec_pad_4 (1000 * dval c1 + 100 * dval c2 + 10 * dval c3 + dval c4))
    as (x1 & x2 & x3 & x4 & a & b & c & d & E & A & B & C & D & V); [lia|].
  pose proof (digit_of_spec _ _ A) as [RA _]. pose proof (digit_of_spec _ _ B) as [RB _].
  pose proof (digit_of_spec _ _ C) as [RC _]. pose proof (digit_of_spec _ _ D) as [RD _].
  assert (a = dval c1) as -> by lia. assert (b = dval c2) as -> by lia.
  assert (c = dval c3) as -> by lia. assert (d = dval c4) as -> by lia.
  rewrite E, (digit_of_inj _ _ _ A D1), (digit_of_inj _ _ _ B D2),
    (digit_of_inj _ _ _ C D3), (digit_of_inj _ _ _ D D4). reflexivity.
Qed.

Lemma stamp_fixed_width (y1 y2 y3 y4 m1 m2 d1 d2 h1 h2 n1 n2 s1 s2 : ascii) :
  Forall (fun c => is_digit c = true) [y1; y2; y3; y4; m1; m2; d1; d2; h1; h2; n1; n2; s1; s2] ->
  fixed_width (stamp y1 y2 y3 y4 m1 m2 d1 d2 h1 h2 n1 n2 s1 s2) = true.
Proof.
  intros F.
  repeat match goal with
         | H : Forall _ (_ :: _) |- _ => inversion H; subst; clear H
         | H : Forall _ [] |- _ => clear H
         end.
  unfold fixed_width, stamp. cbn [String.length Nat.eqb substring all_digits andb].
  repeat match goal with
         | H : is_digit _ = true |- _ => rewrite H; clear H
         end.
  reflexivity.
Qed.

(** X18. The time a history row shows is the timestamp of the file name
    with the punctuation changed and the seconds dropped: a snapshot named
    [csgo_snapshot_YYYYMMDD_HHMMSS.json] (a year from 1000 on) that gives a
    row gives the row [YYYY-MM-DD HH:MM] of the same digits. *)
Theorem history_row_shows_name_minute (st : state)
    (y1 y2 y3 y4 m1 m2 d1 d2 h1 h2 n1 n2 s1 s2 : ascii) (row : pyval) :
  Forall (fun c => is_digit c = true) [y1; y2; y3; y4; m1; m2; d1; d2; h1; h2; n1; n2; s1; s2] ->
  y1 <> "0"%char ->
  entry_of st (os_path_join SNAPSHOT_DIR
                 (SNAPSHOT_PREFIX ++ stamp y1 y2 y3 y4 m1 m2 d1 d2 h1 h2 n1 n2 s1 s2
                  ++ SNAPSHOT_SUFFIX)) = Ok row ->
  field "ts" row = VStr (minute_text y1 y2 y3 y4 m1 m2 d1 d2 h1 h2 n1 n2).
Proof.
  intros F _ E. apply entry_of_ok in E as (text & data & t & g & _ & _ & P & _ & ->).
  rewrite (snapshot_path_ts _ (stamp_fixed_width _ _ _ _ _ _ _ _ _ _ _ _ _ _ F)) in P.
  apply (strptime_stamp_time _ _ _ _ _ _ _ _ _ _ _ _ _ _ _ F) in P. subst t.
  repeat match goal with
         | H : Forall _ (_ :: _) |- _ => inversion H; subst; clear H
         | H : Forall _ [] |- _ => clear H
         end.
  cbn [field Py.assoc String.eqb Ascii.eqb Bool.eqb from_option id].
  unfold Time.strftime_minute, stamp_time. cbn [year month day hour minute].
  rewrite dec_pad_4_digits, !dec_pad_2_digits by assumption. reflexivity.
Qed.

(** *** A blocked snapshot directory *)

(** X19. When the name of the snapshot directory is taken by something
    that is not a directory, a pass that is to store a snapshot returns
    no response: it raises, and no path beside the cache file and its
    temporary file has changed. *)
Theorem blocked_snapshot_directory_fails_store (inv : list (string * Z)) (st : state)
    (n : node) :
  files st !! SNAPSHOT_DIR = Some n -> n <> Dir ->
  exists e st',
    api_prices_of inv (Some "1") st = (Raise e, st')
    /\ forall p, p <> CACHE_FILE ++ ".tmp" -> p <> CACHE_FILE ->
         files st' !! p = files st !! p.
Proof.
  intros D ND. rewrite api_prices_unfold.
  destruct (price_loop_effects inv (loaded_cache st) [] 0%float st) as (F & _).
  destruct (price_loop inv (loaded_cache st) [] 0%float st) as [[[[cache' items] g]|e] st1];
    cbn [snd] in F; [|exists e, st1; split; [reflexivity|intros; now rewrite F]].
  destruct (do_ops_effects (_save_cache_ops cache') st1) as (fs2 & E2 & _ & _ & F2).
  destruct (do_ops (_save_cache_ops cache') st1) as [[[]|e] st2]; cbn [snd] in E2; subst st2.
  - rewrite bool_decide_eq_true_2 by reflexivity. cbv zeta.
    unfold snapshot_ops. cbn [do_ops tick files set_files].
    assert (fs2 !! SNAPSHOT_DIR = Some n) as D2.
    { rewrite F2, F; [exact D|]. apply save_cache_paths; intros E; vm_compute in E;
        discriminate. }
    cbn [Fs.step]. rewrite D2.
    exists OSError. eexists. split; [destruct n; [reflexivity|reflexivity|contradiction]|].
    intros p N1 N2. destruct n; cbn [snd files tick set_files].
    + rewrite F2, F; [reflexivity|now apply save_cache_paths].
    + rewrite F2, F; [reflexivity|now apply save_cache_paths].
    + contradiction.
  - exists e, (set_files fs2 st1). split; [reflexivity|].
    intros p N1 N2. cbn [files set_files]. rewrite F2, F; [reflexivity|].
    now apply save_cache_paths.
Qed.

(** *** A pass served from the cache *)

(** Whether the cache answers for [name] at the clock reading [now]. *)
Definition fresh_at (cache : pyval) (now : float) (name : string) : bool :=
  match cached_price name cache now with
  | Ok (Some (VFloat _)) => true
  | _ => false
  end.

(** X20. When at every clock reading of the pass the cache holds a
    float price younger than the TTL for every item, the loop goes without
    the network: it sends no request, prints nothing, leaves the cache as
    it is, reads the clock once for each item, and every row carries a
    float price. *)
Theorem fresh_cache_pass_sends_nothing (inv : list (string * Z)) (cache : pyval)
    (items : list pyval) (grand_total : float) (st : state) :
  (forall k, (ticks st <= k < ticks st + length inv)%nat ->
     forallb (fun e => fresh_at cache (time_time k) (fst e)) inv = true) ->
  forallb count_ok inv = true ->
  exists rows grand_total',
    price_loop inv cache items grand_total st
    = (Ok (cache, (items ++ rows)%list, grand_total'),
       State (files st) (ticks st + length inv) (requests st) (stdout st))
    /\ length rows = length inv
    /\ forallb (fun row => match row_price row with VFloat _ => true | _ => false end) rows
       = true.
Proof.
  revert items grand_total st.
  induction inv as [|[name count] inv IH]; intros items g st H C.
  - exists [], g. cbn. rewrite app_nil_r, Nat.add_0_r. split; [now destruct st|]. auto.
  - cbn [forallb] in C. apply andb_true_iff in C as [C1 C2].
    pose proof (H (ticks st) ltac:(cbn [length]; lia)) as H0. cbn [forallb fst] in H0.
    apply andb_true_iff in H0 as [H0 _]. unfold fresh_at in H0.
    destruct (cached_price name cache (time_time (ticks st))) as [[[| | |p| | |]|]|] eqn:CP;
      try discriminate.
    cbn [price_loop]. unfold bind at 1. rewrite (fetch_hit _ _ _ _ CP).
    unfold bind at 1, lift at 1. unfold count_ok in C1. cbn [snd] in C1.
    unfold line_total. cbn [is_none Py.mul_int].
    destruct (PyFloat.of_int count) as [c|]; [|discriminate]. cbn [Py.round2].
    unfold bind at 1, lift at 1. cbn [add_total is_none Py.float_add Py.as_float].
    destruct (IH (items ++ [item_row name count (VFloat p)
                              (VFloat (PyFloat.round2 (p * c)))])%list
                 (g + PyFloat.round2 (p * c))%float (tick st)) as (rows & g' & L & N & R).
    + intros k K. cbn [tick ticks] in K. cbn [length] in H.
      pose proof (H k ltac:(lia)) as HK. cbn [forallb] in HK.
      now apply andb_true_iff in HK as [_ HK].
    + exact C2.
    + exists (item_row name count (VFloat p) (VFloat (PyFloat.round2 (p * c))) :: rows), g'.
      unfold add_total. cbn [is_none Py.float_add Py.as_float].
      rewrite L, <- app_assoc. cbn [tick files ticks requests stdout length app].
      split; [|split; [now rewrite N|]].
      { replace (ticks st + S (length inv))%nat with (S (ticks st) + length inv)%nat
          by lia. reflexivity. }
      cbn [forallb]. rewrite R. reflexivity.
Qed.

End Program.

(** ** The properties at work in the concrete world *)

Lemma scenario_every_lookup_fails :
  every_lookup_fails Scenario.json_loads Scenario.float_other Scenario.time_time
    (fun _ _ => Response 404 "") INVENTORY (VDict []).
Proof.
  intros name count st1 _. eexists _, _.
  apply fetch_miss_failure with (e := HTTPError); reflexivity.
Defined.

Lemma fetch_failure_keeps_cache_witness :
  exists st',
    fetch_price_eur Scenario.json_loads Scenario.float_other Scenario.time_time
      Scenario.requests_get "B" (VDict []) Scenario.st0
    = (Ok (VNone, VDict []), st')
    /\ files st' = files Scenario.st0
    /\ requests st' = [price_url "B"]
    /\ stdout st' = [WarnItem "B" HTTPError]
    /\ (cached_price "B" (VDict []) (Scenario.time_time (ticks st')) = Ok None ->
        requests
          (snd (fetch_price_eur Scenario.json_loads Scenario.float_other Scenario.time_time
                  Scenario.requests_get "B" (VDict []) st'))
        = (requests st' ++ [price_url "B"])%list).
Proof.
  exact (fetch_failure_keeps_cache Scenario.json_loads Scenario.float_other
           Scenario.time_time Scenario.requests_get "B" (VDict []) Scenario.st0 HTTPError
           eq_refl eq_refl).
Defined.

(** The example of the specification: A at 2.005 times 2 gives 4.01, the
    price of B is unavailable, the grand total is 4.01. *)
Example api_prices_spec_example :
  fst (api_prices_of Scenario.json_loads Scenario.json_dumps Scenario.float_other
         Scenario.time_time Scenario.localtime Scenario.requests_get
         Scenario.inventory None Scenario.st0)
  = Ok Scenario.snapshot.
Proof. vm_compute. reflexivity. Qed.


Lemma item_total_iff_price_witness :
  exists rows,
    Py.getitem Scenario.snapshot "items" = Ok (VList rows)
    /\ Forall2 (fun entry row =>
         exists price total,
           row = item_row (fst entry) (snd entry) price total
           /\ (total = VNone <-> price = VNone)
           /\ (price <> VNone ->
               exists product,
                 Py.mul_int price (snd entry) = Ok product /\ Py.round2 product = Ok total))
         Scenario.inventory rows.
Proof.
  apply (item_total_iff_price Scenario.json_loads Scenario.json_dumps
           Scenario.float_other Scenario.time_time Scenario.localtime Scenario.requests_get
           Scenario.inventory None Scenario.st0
           (snd (api_prices_of Scenario.json_loads Scenario.json_dumps Scenario.float_other
                   Scenario.time_time Scenario.localtime Scenario.requests_get
                   Scenario.inventory None Scenario.st0))).
  vm_compute. reflexivity.
Defined.

Lemma all_lookups_fail_total_zero_witness :
  (forall store,
      store <> Some "1" ->
      (exists fs', Fs.run (_save_cache_ops Scenario.json_dumps (VDict [])) (files Scenario.st0)
                   = Ok fs') ->
      exists st',
        api_prices_of Scenario.json_loads Scenario.json_dumps Scenario.float_other
          Scenario.time_time Scenario.localtime (fun _ _ => Response 404 "")
          INVENTORY store Scenario.st0
        = (Ok (VDict [("items", VList (List.map unpriced_row INVENTORY));
                      ("grand_total", VFloat 0%float)]), st'))
  /\ (forall store resp st',
        api_prices_of Scenario.json_loads Scenario.json_dumps Scenario.float_other
          Scenario.time_time Scenario.localtime (fun _ _ => Response 404 "")
          INVENTORY store Scenario.st0 = (Ok resp, st') ->
        Py.getitem resp "items" = Ok (VList (List.map unpriced_row INVENTORY))
        /\ Py.getitem resp "grand_total" = Ok (VFloat 0%float))
  /\ Forall (fun row => row_price row = VNone /\ row_total row = VNone)
       (List.map unpriced_row INVENTORY).
Proof.
  apply (all_lookups_fail_total_zero Scenario.json_loads Scenario.json_dumps
           Scenario.float_other Scenario.time_time Scenario.localtime
           (fun _ _ => Response 404 "") INVENTORY Scenario.st0 (VDict [])).
  - reflexivity.
  - exact scenario_every_lookup_fails.
Defined.

(** With every upstream answer a 404, the real inventory is valued at 0.0
    and the pass prints seven warnings. *)
Example api_prices_all_unavailable :
  let run := api_prices Scenario.json_loads Scenario.json_dumps Scenario.float_other
               Scenario.time_time Scenario.localtime (fun _ _ => Response 404 "")
               None Scenario.st0 in
  fst run = Ok (VDict [("items", VList (List.map unpriced_row INVENTORY));
                       ("grand_total", VFloat 0%float)])
  /\ length (stdout (snd run)) = 7%nat /\ length (requests (snd run)) = 7%nat.
Proof. vm_compute. repeat split. Qed.

(** Rounding each line is not rounding the sum: two lines of 1.005 give
    2.0, their unrounded sum would give 2.01. *)
Example per_line_rounding :
  PyFloat.round2 (PyFloat.round2 1.005 + PyFloat.round2 1.005)%float = 2%float
  /\ PyFloat.round2 (1.005 + 1.005)%float = 2.01%float.
Proof. vm_compute. split; reflexivity. Qed.

Lemma saved_snapshot_listed_once_witness :
  let st' := snd (api_prices_of Scenario.json_loads Scenario.json_dumps Scenario.float_other
                    Scenario.time_time Scenario.localtime Scenario.requests_get
                    Scenario.inventory (Some "1") Scenario.st0) in
  let resp := VDict (Py.assoc_set "filename" (VStr "csgo_snapshot_20250711_120000.json")
                       (Py.assoc_set "saved" (VBool true)
                          [("items", field "items" Scenario.snapshot);
                           ("grand_total", field "grand_total" Scenario.snapshot)])) in
  exists t before after,
    let path := os_path_join SNAPSHOT_DIR (snapshot_filename t) in
    let row := VDict [("ts", VStr (Time.strftime_minute t));
                      ("grand_total", field "grand_total" resp)] in
    field "filename" resp = VStr (snapshot_filename t)
    /\ (exists total, field "grand_total" resp = VFloat total)
    /\ sorted (Fs.glob SNAPSHOT_DIR SNAPSHOT_PREFIX SNAPSHOT_SUFFIX (files st'))
       = (before ++ path :: after)%list
    /\ ~ In path before /\ ~ In path after
    /\ entry_of Scenario.json_loads st' path = Ok row
    /\ fst (api_history Scenario.json_loads st')
       = Ok (VDict [("history",
                     VList (history_rows Scenario.json_loads st' before
                            ++ row :: history_rows Scenario.json_loads st' after))]).
Proof.
  intros st' resp.
  apply (saved_snapshot_listed_once Scenario.json_loads Scenario.json_dumps
           Scenario.float_other Scenario.time_time Scenario.localtime Scenario.requests_get
           Scenario.inventory Scenario.st0 st' resp).
  - vm_compute. reflexivity.
  - intros k. reflexivity.
  - reflexivity.
Defined.

(** A cached price ten minutes old is served without a request; one an
    hour old is fetched again. *)
Example fetch_fresh_and_stale :
  fetch_price_eur Scenario.json_loads Scenario.float_other Scenario.time_time
    Scenario.requests_get "A" (Scenario.cache_aged 600) Scenario.st0
  = (Ok (VFloat 1.5, Scenario.cache_aged 600), State ∅ 1 [] [])
  /\ fetch_price_eur Scenario.json_loads Scenario.float_other Scenario.time_time
       Scenario.requests_get "A" (Scenario.cache_aged 3600) Scenario.st0
     = (Ok (VFloat 2.005,
            VDict [("A", VDict [("price_eur", VFloat 2.005); ("ts", VFloat 1752228000)])]),
        State ∅ 1 [price_url "A"] []).
Proof. vm_compute. split; reflexivity. Qed.

(** The history of [Scenario.disk]: the two snapshots in chronological
    order, and a warning for the file that is not JSON. *)
Example api_history_example :
  api_history Scenario.json_loads (State Scenario.disk 0 [] [])
  = (Ok (VDict [("history",
                 VList [VDict [("ts", VStr "2024-12-31 23:59"); ("grand_total", VFloat 4.01)];
                        VDict [("ts", VStr "2025-07-11 12:00"); ("grand_total", VFloat 4.01)]])]),
     State Scenario.disk 0 [] [WarnHistory "snapshots/csgo_snapshot_20250101_000000.json"
                                 JSONDecodeError]).
Proof. vm_compute. reflexivity. Qed.

(** ** The further properties at work in the concrete world *)

Lemma fetched_price_is_cached_witness :
  exists cache' st',
    fetch_price_eur Scenario.json_loads Scenario.float_other Scenario.time_time
      Scenario.requests_get "A" (VDict []) Scenario.st0
    = (Ok (VFloat 2.005, cache'), st')
    /\ (forall now,
          PyFloat.lt_int (now - Scenario.time_time (ticks Scenario.st0))%float CACHE_TTL
          = true ->
          cached_price "A" cache' now = Ok (Some (VFloat 2.005)))
    /\ (forall other now,
          other <> "A" ->
          cached_price other cache' now = cached_price other (VDict []) now).
Proof.
  apply (fetched_price_is_cached Scenario.json_loads Scenario.float_other
           Scenario.time_time Scenario.requests_get "A" [] Scenario.st0 2.005%float).
  - reflexivity.
  - vm_compute. reflexivity.
Defined.

Lemma well_formed_cache_loop_returns_witness :
  exists cache' rows grand_total' st',
    price_loop Scenario.json_loads Scenario.float_other Scenario.time_time
      Scenario.requests_get Scenario.inventory (Scenario.cache_aged 7200) [] 0%float
      Scenario.st0
    = (Ok (cache', ([] ++ rows)%list, grand_total'), st')
    /\ well_formed cache' = true
    /\ forallb (fun row => price_shape (row_price row)) rows = true.
Proof.
  apply (well_formed_cache_loop_returns Scenario.json_loads Scenario.float_other
           Scenario.time_time Scenario.requests_get Scenario.inventory
           (Scenario.cache_aged 7200) [] 0%float Scenario.st0).
  - vm_compute. reflexivity.
  - vm_compute. reflexivity.
Defined.

Lemma well_formed_cache_pass_fails_only_in_writes_witness :
  exists cache' items grand_total st1,
    price_loop Scenario.json_loads Scenario.float_other Scenario.time_time
      Scenario.requests_get INVENTORY
      (loaded_cache Scenario.json_loads Scenario.st0) [] 0%float Scenario.st0
    = (Ok (cache', items, grand_total), st1)
    /\ forall e st',
         api_prices Scenario.json_loads Scenario.json_dumps Scenario.float_other
           Scenario.time_time Scenario.localtime Scenario.requests_get (Some "1")
           Scenario.st0
         = (Raise e, st') ->
         _save_cache Scenario.json_dumps cache' st1 = (Raise e, st')
         \/ (Some "1" = Some "1"
             /\ exists st2,
                  _save_cache Scenario.json_dumps cache' st1 = (Ok tt, st2)
                  /\ do_ops
                       (snapshot_ops Scenario.json_dumps
                          (os_path_join SNAPSHOT_DIR
                             (snapshot_filename (Scenario.localtime (ticks st2))))
                          (VDict [("items", VList items);
                                  ("grand_total", VFloat (PyFloat.round2 grand_total))]))
                       (tick st2)
                     = (Raise e, st')).
Proof.
  apply (well_formed_cache_pass_fails_only_in_writes Scenario.json_loads
           Scenario.json_dumps Scenario.float_other Scenario.time_time
           Scenario.localtime Scenario.requests_get (Some "1") Scenario.st0).
  vm_compute. reflexivity.
Defined.

Lemma pass_without_store_writes_no_snapshot_witness :
  let run := api_prices_of Scenario.json_loads Scenario.json_dumps Scenario.float_other
               Scenario.time_time Scenario.localtime Scenario.requests_get
               Scenario.inventory (Some "true") Scenario.st0 in
  (forall p, p <> CACHE_FILE ++ ".tmp" -> p <> CACHE_FILE ->
     files (snd run) !! p = files Scenario.st0 !! p)
  /\ (forall resp, fst run = Ok resp ->
        field "saved" resp = VNone /\ field "filename" resp = VNone).
Proof.
  apply (pass_without_store_writes_no_snapshot Scenario.json_loads Scenario.json_dumps
           Scenario.float_other Scenario.time_time Scenario.localtime
           Scenario.requests_get Scenario.inventory (Some "true") Scenario.st0).
  discriminate.
Defined.

Lemma save_then_load_cache_witness :
  let st' := snd (_save_cache Scenario.json_dumps Scenario.snapshot Scenario.st0) in
  _load_cache Scenario.json_loads st' = (Ok Scenario.snapshot, st')
  /\ files st' !! CACHE_FILE = Some (File true (Scenario.json_dumps Scenario.snapshot))
  /\ files st' !! (CACHE_FILE ++ ".tmp") = None
  /\ forall p, p <> CACHE_FILE ++ ".tmp" -> p <> CACHE_FILE ->
       files st' !! p = files Scenario.st0 !! p.
Proof.
  apply (save_then_load_cache Scenario.json_loads Scenario.json_dumps Scenario.snapshot
           Scenario.st0).
  - vm_compute. reflexivity.
  - vm_compute. reflexivity.
Defined.

Lemma non_object_cache_fails_every_pass_witness :
  let json_loads := fun _ : string => Some (VList []) in
  let st := State (<[CACHE_FILE := File true "[]"]> ∅) 0 [] [] in
  api_prices json_loads Scenario.json_dumps Scenario.float_other Scenario.time_time
    Scenario.localtime Scenario.requests_get None st
  = (Raise AttributeError, tick st)
  /\ loaded_cache json_loads (tick st) = loaded_cache json_loads st.
Proof.
  apply (non_object_cache_fails_every_pass (fun _ : string => Some (VList []))
           Scenario.json_dumps Scenario.float_other Scenario.time_time
           Scenario.localtime Scenario.requests_get None
           (State (<[CACHE_FILE := File true "[]"]> ∅) 0 [] [])).
  vm_compute. reflexivity.
Defined.

Lemma snapshot_name_round_trip_witness :
  let t1 := Datetime 2025 7 11 12 0 0 in
  let t2 := Datetime 2025 7 11 12 0 1 in
  Fs.path_matches SNAPSHOT_DIR SNAPSHOT_PREFIX SNAPSHOT_SUFFIX (snapshot_path t1) = true
  /\ Time.strptime (ts_str (snapshot_path t1)) = Some t1
  /\ (snapshot_path t1 = snapshot_path t2 <-> t1 = t2).
Proof.
  apply (snapshot_name_round_trip (Datetime 2025 7 11 12 0 0) (Datetime 2025 7 11 12 0 1));
    vm_compute; reflexivity.
Defined.

Lemma snapshot_paths_sort_by_time_witness :
  let t1 := Datetime 2024 12 31 23 59 59 in
  let t2 := Datetime 2025 1 1 0 0 0 in
  str_le (snapshot_path t1) (snapshot_path t2) <-> datetime_le t1 t2.
Proof.
  apply (snapshot_paths_sort_by_time (Datetime 2024 12 31 23 59 59)
           (Datetime 2025 1 1 0 0 0)); vm_compute; reflexivity.
Defined.

Lemma history_empty_without_directory_witness :
  api_history Scenario.json_loads Scenario.st0
  = (Ok (VDict [("history", VList [])]), Scenario.st0).
Proof.
  apply (history_empty_without_directory Scenario.json_loads Scenario.st0).
  vm_compute. discriminate.
Defined.

Lemma pass_keeps_cache_entries_witness :
  let cache := VDict [("Z", VDict [("price_eur", VFloat 9); ("ts", VFloat 0)])] in
  let cache' := VDict [("Z", VDict [("price_eur", VFloat 9); ("ts", VFloat 0)]);
                       ("A", VDict [("price_eur", VFloat 2.005);
                                    ("ts", VFloat 1752228000)])] in
  let run := price_loop Scenario.json_loads Scenario.float_other Scenario.time_time
               Scenario.requests_get [("A", 2)] cache [] 0%float Scenario.st0 in
  run = (Ok (cache', [item_row "A" 2 (VFloat 2.005) (VFloat 4.01)], 4.01%float), snd run)
  /\ forall k,
       (~ In k (List.map fst [("A", 2)]) -> Py.getitem cache' k = Py.getitem cache k)
       /\ ((exists v, Py.getitem cache k = Ok v) -> exists v, Py.getitem cache' k = Ok v).
Proof.
  split; [vm_compute; reflexivity|].
  apply (pass_keeps_cache_entries Scenario.json_loads Scenario.float_other
           Scenario.time_time Scenario.requests_get [("A", 2)]
           (VDict [("Z", VDict [("price_eur", VFloat 9); ("ts", VFloat 0)])])
           [] 0%float Scenario.st0
           (VDict [("Z", VDict [("price_eur", VFloat 9); ("ts", VFloat 0)]);
                   ("A", VDict [("price_eur", VFloat 2.005); ("ts", VFloat 1752228000)])])
           [item_row "A" 2 (VFloat 2.005) (VFloat 4.01)] 4.01%float
           (snd (price_loop Scenario.json_loads Scenario.float_other Scenario.time_time
                   Scenario.requests_get [("A", 2)]
                   (VDict [("Z", VDict [("price_eur", VFloat 9); ("ts", VFloat 0)])])
                   [] 0%float Scenario.st0))).
  vm_compute. reflexivity.
Defined.

Lemma unwritable_cache_fails_pass_witness :
  let st := State (<[CACHE_FILE ++ ".tmp" := Dir]> ∅) 0 [] [] in
  exists e st',
    api_prices_of Scenario.json_loads Scenario.json_dumps Scenario.float_other
      Scenario.time_time Scenario.localtime Scenario.requests_get Scenario.inventory
      None st
    = (Raise e, st')
    /\ files st' = files st.
Proof.
  apply (unwritable_cache_fails_pass Scenario.json_loads Scenario.json_dumps
           Scenario.float_other Scenario.time_time Scenario.localtime
           Scenario.requests_get Scenario.inventory None
           (State (<[CACHE_FILE ++ ".tmp" := Dir]> ∅) 0 [] [])).
  vm_compute. reflexivity.
Defined.

Lemma history_row_shows_name_minute_witness :
  let st := State Scenario.disk 0 [] [] in
  let row := VDict [("ts", VStr "2025-07-11 12:00"); ("grand_total", VFloat 4.01)] in
  entry_of Scenario.json_loads st "snapshots/csgo_snapshot_20250711_120000.json" = Ok row
  /\ field "ts" row = VStr "2025-07-11 12:00".
Proof.
  split; [vm_compute; reflexivity|].
  apply (history_row_shows_name_minute Scenario.json_loads (State Scenario.disk 0 [] [])
           "2" "0" "2" "5" "0" "7" "1" "1" "1" "2" "0" "0" "0" "0"
           (VDict [("ts", VStr "2025-07-11 12:00"); ("grand_total", VFloat 4.01)])).
  - repeat constructor.
  - discriminate.
  - vm_compute. reflexivity.
Defined.

Lemma blocked_snapshot_directory_fails_store_witness :
  let st := State (<[SNAPSHOT_DIR := File true ""]> ∅) 0 [] [] in
  exists e st',
    api_prices_of Scenario.json_loads Scenario.json_dumps Scenario.float_other
      Scenario.time_time Scenario.localtime Scenario.requests_get Scenario.inventory
      (Some "1") st
    = (Raise e, st')
    /\ forall p, p <> CACHE_FILE ++ ".tmp" -> p <> CACHE_FILE ->
         files st' !! p = files st !! p.
Proof.
  apply (blocked_snapshot_directory_fails_store Scenario.json_loads Scenario.json_dumps
           Scenario.float_other Scenario.time_time Scenario.localtime
           Scenario.requests_get Scenario.inventory
           (State (<[SNAPSHOT_DIR := File true ""]> ∅) 0 [] []) (File true "")).
  - vm_compute. reflexivity.
  - discriminate.
Defined.

Lemma fresh_cache_pass_sends_nothing_witness :
  exists rows grand_total',
    price_loop Scenario.json_loads Scenario.float_other Scenario.time_time
      Scenario.requests_get [("A", 2)] (Scenario.cache_aged 60) [] 0%float Scenario.st0
    = (Ok (Scenario.cache_aged 60, ([] ++ rows)%list, grand_total'),
       State (files Scenario.st0) (ticks Scenario.st0 + length [("A", 2)])
         (requests Scenario.st0) (stdout Scenario.st0))
    /\ length rows = length [("A", 2)]
    /\ forallb (fun row => match row_price row with VFloat _ => true | _ => false end) rows
       = true.
Proof.
  apply (fresh_cache_pass_sends_nothing Scenario.json_loads Scenario.float_other
           Scenario.time_time Scenario.requests_get [("A", 2)] (Scenario.cache_aged 60)
           [] 0%float Scenario.st0).
  - intros k _. vm_compute. reflexivity.
  - vm_compute. reflexivity.
Defined.

Lemma history_loop_total_and_read_only_witness :
  let st := State Scenario.disk 0 [] [] in
  let found := Fs.glob SNAPSHOT_DIR SNAPSHOT_PREFIX SNAPSHOT_SUFFIX (files st) in
  exists rows warnings,
    history_loop Scenario.json_loads (sorted found) [] st
    = (Ok rows, with_stdout st warnings)
    /\ (length rows + length warnings = length found)%nat
    /\ fst (history_loop Scenario.json_loads (sorted found) [] (with_stdout st warnings))
       = Ok rows.
Proof.
  apply (history_loop_total_and_read_only Scenario.json_loads
           (State Scenario.disk 0 [] [])).
  apply (proj1 (List.forallb_forall plain_name _)). vm_compute. reflexivity.
Defined.

